(** * Anggaran: the aggregation and forecasting engine of [Visualizations.tsx]

    A shallow embedding of the derivations computed by the [Visualizations]
    component (ledger normalizer, period selector, categorical aggregator,
    daily trend builder, budget comparator, forecast engine), and the
    properties its specification states about them.

    Conventions of the embedding.
    - A JavaScript number that holds a monetary amount or a time value is an
      integer of [Z]; amounts are integer currency units and stay far below
      2^53, where the sums of the source are exact.
    - A time value is the number of milliseconds since the epoch, inside the
      range of [Date]; the calendar functions follow ECMA-262, section
      "Date Objects" ([Day], [DayFromYear], [YearFromTime], [MonthFromTime],
      [DateFromTime], [MakeDay], ...).
    - The local time zone is a fixed offset [tz], in minutes east of UTC.
    - An object used as a dictionary ([expenseByCategory], [dailyTotals]) is
      the list of its own properties in creation order, read through
      [Object.prototype]: a key that the object does not have itself is
      looked up among the properties every object inherits ([constructor],
      [toString], [__proto__], ...).
    - The text-generation service is outside the model: the forecast engine
      ends in the request it would send. *)

From Stdlib Require Import ZArith List String Ascii Bool Lia.
From Stdlib Require Import Permutation Sorted DecimalString.
Import ListNotations.

Local Open Scope string_scope.
Local Open Scope Z_scope.

(** ** JavaScript strings and numbers *)

Module JS.

(** [String(n)] and the interpolation of an integer in a template literal. *)
Definition toString (n : Z) : string :=
  NilZero.string_of_int (Z.to_int n).

Fixpoint repeat_char (c : ascii) (n : nat) : string :=
  match n with
  | O => EmptyString
  | S k => String c (repeat_char c k)
  end.

(** [s.padStart(width, c)] for a one-character filler. *)
Definition padStart (width : nat) (c : ascii) (s : string) : string :=
  repeat_char c (width - String.length s) ++ s.

(** [s.slice(from, to)] for [0 <= from <= to]. *)
Definition slice (from to : nat) (s : string) : string :=
  String.substring from (to - from) s.

(** [s.startsWith(p)] *)
Definition startsWith (p s : string) : bool := String.prefix p s.

Definition is_digit (c : ascii) : bool :=
  let n := nat_of_ascii c in (48 <=? n)%nat && (n <=? 57)%nat.

Fixpoint all_digits (s : string) : bool :=
  match s with
  | EmptyString => true
  | String c r => is_digit c && all_digits r
  end.

Fixpoint digits_value (acc : Z) (s : string) : Z :=
  match s with
  | EmptyString => acc
  | String c r => digits_value (10 * acc + (Z.of_nat (nat_of_ascii c) - 48)) r
  end.

(** [Number(s)] on the strings the engine applies it to: an optional sign
    followed by decimal digits (the slices of a period key), and texts that
    start with a letter or a bracket and are no number (a total that the
    grouping loop made from an inherited property).  [None] stands for
    [NaN]. *)
Definition Number (s : string) : option Z :=
  match s with
  | EmptyString => Some 0
  | String c r =>
      if Ascii.eqb c "+" then
        if all_digits r && negb (String.eqb r "") then Some (digits_value 0 r) else None
      else if Ascii.eqb c "-" then
        if all_digits r && negb (String.eqb r "") then Some (- digits_value 0 r) else None
      else if all_digits s then Some (digits_value 0 s) else None
  end.

(** [x || d] on an optional string: [undefined] and the empty string are
    falsy. *)
Definition str_or (x : option string) (d : string) : string :=
  match x with
  | Some s => if String.eqb s "" then d else s
  | None => d
  end.

(** [x || 0] on an optional number. *)
Definition num_or0 (x : option Z) : Z :=
  match x with
  | Some v => v
  | None => 0
  end.

End JS.

(** ** Calendar arithmetic of [Date] (ECMA-262) *)

Module JSDate.

Definition msPerDay : Z := 86400000.
Definition msPerHour : Z := 3600000.
Definition msPerMinute : Z := 60000.
Definition msPerSecond : Z := 1000.

Definition Day (t : Z) : Z := t / msPerDay.
Definition TimeWithinDay (t : Z) : Z := t mod msPerDay.

Definition DaysInYear (y : Z) : Z :=
  if negb (y mod 4 =? 0) then 365
  else if negb (y mod 100 =? 0) then 366
  else if negb (y mod 400 =? 0) then 365
  else 366.

Definition DayFromYear (y : Z) : Z :=
  365 * (y - 1970) + (y - 1969) / 4 - (y - 1901) / 100 + (y - 1601) / 400.

Definition TimeFromYear (y : Z) : Z := msPerDay * DayFromYear y.

(** The largest year [y] with [DayFromYear y <= d]: an estimate from the
    mean length of a year, corrected by at most one. *)
Definition YearFromDay (d : Z) : Z :=
  let y := 1970 + (d * 400) / 146097 in
  if d <? DayFromYear y then y - 1
  else if DayFromYear (y + 1) <=? d then y + 1
  else y.

Definition YearFromTime (t : Z) : Z := YearFromDay (Day t).

Definition LeapOf (y : Z) : Z := if DaysInYear y =? 366 then 1 else 0.

Definition InLeapYear (t : Z) : Z := LeapOf (YearFromTime t).

Definition DayWithinYear (t : Z) : Z := Day t - DayFromYear (YearFromTime t).

(** The month (0-based) of day [d] of a year, [L] being 1 in a leap year. *)
Definition MonthOfYearDay (d L : Z) : Z :=
  if d <? 31 then 0
  else if d <? 59 + L then 1
  else if d <? 90 + L then 2
  else if d <? 120 + L then 3
  else if d <? 151 + L then 4
  else if d <? 181 + L then 5
  else if d <? 212 + L then 6
  else if d <? 243 + L then 7
  else if d <? 273 + L then 8
  else if d <? 304 + L then 9
  else if d <? 334 + L then 10
  else 11.

Definition DateOfYearDay (d L : Z) : Z :=
  match MonthOfYearDay d L with
  | 0 => d + 1
  | 1 => d - 30
  | 2 => d - 58 - L
  | 3 => d - 89 - L
  | 4 => d - 119 - L
  | 5 => d - 150 - L
  | 6 => d - 180 - L
  | 7 => d - 211 - L
  | 8 => d - 242 - L
  | 9 => d - 272 - L
  | 10 => d - 303 - L
  | _ => d - 333 - L
  end.

Definition MonthFromTime (t : Z) : Z :=
  MonthOfYearDay (DayWithinYear t) (InLeapYear t).

Definition DateFromTime (t : Z) : Z :=
  DateOfYearDay (DayWithinYear t) (InLeapYear t).

Definition HourFromTime (t : Z) : Z := (t / msPerHour) mod 24.
Definition MinFromTime (t : Z) : Z := (t / msPerMinute) mod 60.
Definition SecFromTime (t : Z) : Z := (t / msPerSecond) mod 60.
Definition msFromTime (t : Z) : Z := t mod msPerSecond.

(** Days of the year before the first of month [mn] (0-based). *)
Definition DaysBeforeMonth (L mn : Z) : Z :=
  match mn with
  | 0 => 0
  | 1 => 31
  | 2 => 59 + L
  | 3 => 90 + L
  | 4 => 120 + L
  | 5 => 151 + L
  | 6 => 181 + L
  | 7 => 212 + L
  | 8 => 243 + L
  | 9 => 273 + L
  | 10 => 304 + L
  | _ => 334 + L
  end.

Definition MakeDay (year month date : Z) : Z :=
  let ym := year + month / 12 in
  let mn := month mod 12 in
  DayFromYear ym + DaysBeforeMonth (LeapOf ym) mn + date - 1.

Definition MakeDate (day time : Z) : Z := day * msPerDay + time.

(** Local time at a fixed offset of [tz] minutes east of UTC. *)
Definition LocalTime (tz t : Z) : Z := t + tz * msPerMinute.
Definition UTC (tz t : Z) : Z := t - tz * msPerMinute.

(** [new Date(year, month, date)]: the fields are local; a year from 0 to
    99 stands for 1900 + year. *)
Definition fromFields (tz year month date : Z) : Z :=
  let yr := if (0 <=? year) && (year <=? 99) then 1900 + year else year in
  UTC tz (MakeDate (MakeDay yr month date) 0).

Definition getFullYear (tz t : Z) : Z := YearFromTime (LocalTime tz t).
Definition getMonth (tz t : Z) : Z := MonthFromTime (LocalTime tz t).
Definition getDate (tz t : Z) : Z := DateFromTime (LocalTime tz t).

Definition pad (width : nat) (n : Z) : string :=
  JS.padStart width "0" (JS.toString n).

(** The year of [toISOString]: four digits from 0 to 9999, otherwise a
    sign and six digits. *)
Definition isoYear (y : Z) : string :=
  if (0 <=? y) && (y <=? 9999) then pad 4 y
  else if y <? 0 then "-" ++ pad 6 (- y)
  else "+" ++ pad 6 y.

(** [new Date(t).toISOString()]: YYYY-MM-DDTHH:mm:ss.sssZ in UTC. *)
Definition toISOString (t : Z) : string :=
  isoYear (YearFromTime t) ++ "-" ++ pad 2 (MonthFromTime t + 1) ++ "-"
    ++ pad 2 (DateFromTime t) ++ "T" ++ pad 2 (HourFromTime t) ++ ":"
    ++ pad 2 (MinFromTime t) ++ ":" ++ pad 2 (SecFromTime t) ++ "."
    ++ pad 3 (msFromTime t) ++ "Z".

(** [new Date(t).toLocaleDateString('fr-CA')]: the local calendar date as
    year-month-day, the year numeric and without an era (year 0 and
    before count backwards from 1), month and day on two digits. *)
Definition toLocaleDateString_frCA (tz t : Z) : string :=
  let lt := LocalTime tz t in
  let y := YearFromTime lt in
  JS.toString (if 1 <=? y then y else 1 - y) ++ "-"
    ++ pad 2 (MonthFromTime lt + 1) ++ "-" ++ pad 2 (DateFromTime lt).

End JSDate.

(** ** Arrays: the stable sort of [Array.prototype.sort] *)

Section StableSort.

Context {A : Type}.

(** [before x y] holds when the comparator does not put [y] in front of
    [x]: [compare(x, y) <= 0]. *)
Variable before : A -> A -> bool.

Fixpoint insert_sorted (x : A) (l : list A) : list A :=
  match l with
  | [] => [x]
  | y :: r => if before x y then x :: y :: r else y :: insert_sorted x r
  end.

(** Elements that compare equal keep their order (ECMAScript 2019).  Where
    the comparator is not consistent (it answers [NaN], taken for 0, for
    some pairs only) the language leaves the order to the implementation;
    this is then one of the orders an implementation may give. *)
Definition stable_sort (l : list A) : list A :=
  fold_right insert_sorted [] l.

End StableSort.

(** ** Objects used as dictionaries

    [expenseByCategory] and [dailyTotals] are created as [{}]: they have
    [Object.prototype] as their prototype.  Reading [o[k]] finds the own
    property [k] or else the property [k] of the prototype; writing
    [o[k] = v] goes through the prototype as well (ECMA-262, OrdinaryGet
    and OrdinarySet). *)

Module Obj.

(** What the grouping loop stores: a number, or what [+=] makes of a value
    that is not a number. *)
Inductive prim : Type :=
| NaN
| Num (n : Z)
| Str (s : string).

(** What [o[k]] yields: [undefined], a stored value, or the object that
    [Object.prototype] holds under the name [k]. *)
Inductive value : Type :=
| Undefined
| Prim (p : prim)
| Inherited (k : string).

(** The own properties, in creation order. *)
Definition t : Type := list (string * prim).

Definition empty : t := [].

(** The methods of [Object.prototype] (ECMA-262, "Properties of the Object
    Prototype Object", and its Annex B for the last four): data properties,
    writable and not enumerable. *)
Definition prototypeMethods : list string :=
  [ "constructor"; "hasOwnProperty"; "isPrototypeOf"; "propertyIsEnumerable";
    "toLocaleString"; "toString"; "valueOf"; "__defineGetter__";
    "__defineSetter__"; "__lookupGetter__"; "__lookupSetter__" ].

(** [__proto__] is an accessor property of [Object.prototype]: its getter
    returns the prototype of the object, its setter changes it. *)
Definition protoAccessor : string := "__proto__".

Definition inherited (k : string) : bool :=
  String.eqb k protoAccessor || existsb (String.eqb k) prototypeMethods.

Fixpoint own (k : string) (o : t) : option prim :=
  match o with
  | [] => None
  | (k', v) :: r => if String.eqb k k' then Some v else own k r
  end.

(** [o[k]] *)
Definition get (k : string) (o : t) : value :=
  match own k o with
  | Some p => Prim p
  | None => if inherited k then Inherited k else Undefined
  end.

(** The own property [k] is created, or updated in its place. *)
Fixpoint put (k : string) (v : prim) (o : t) : t :=
  match o with
  | [] => [(k, v)]
  | (k', v') :: r =>
      if String.eqb k k' then (k', v) :: r else (k', v') :: put k v r
  end.

(** [o[k] = v] for a primitive [v].  An own property is updated.  Without
    one, the setter of [__proto__] is called, which ignores a value that is
    neither an object nor [null]; under any other name the property is
    created on the object itself, inherited method or not. *)
Definition set (k : string) (v : prim) (o : t) : t :=
  match own k o with
  | Some _ => put k v o
  | None => if String.eqb k protoAccessor then o else put k v o
  end.

(** The text of a built-in function, as V8 and JavaScriptCore print it
    (the language fixes the form and leaves the white space open). *)
Definition nativeFunction (fname : string) : string :=
  "function " ++ fname ++ "() { [native code] }".

(** The string that the inherited object under [k] converts to: the
    prototype itself under [__proto__], the function [Object] under
    [constructor], the method of that name otherwise. *)
Definition inheritedText (k : string) : string :=
  if String.eqb k protoAccessor then "[object Object]"
  else nativeFunction (if String.eqb k "constructor" then "Object" else k).

(** [!v] *)
Definition falsy (v : value) : bool :=
  match v with
  | Undefined => true
  | Prim NaN => true
  | Prim (Num n) => n =? 0
  | Prim (Str s) => String.eqb s ""
  | Inherited _ => false
  end.

(** [v + n] for a number [n]: the sum of two numbers, and otherwise
    ([undefined] apart) the text of [v] followed by the digits of [n]. *)
Definition plus (v : value) (n : Z) : prim :=
  match v with
  | Undefined => NaN
  | Prim NaN => NaN
  | Prim (Num m) => Num (m + n)
  | Prim (Str s) => Str (s ++ JS.toString n)
  | Inherited k => Str (inheritedText k ++ JS.toString n)
  end.

(** [v || 0] *)
Definition or0 (v : value) : value :=
  if falsy v then Prim (Num 0) else v.

(** The number a value converts to in [-] and [>]; [None] is [NaN]. *)
Definition primToNumber (p : prim) : option Z :=
  match p with
  | NaN => None
  | Num n => Some n
  | Str s => JS.Number s
  end.

Definition toNumber (v : value) : option Z :=
  match v with
  | Undefined => None
  | Prim p => primToNumber p
  | Inherited k => JS.Number (inheritedText k)
  end.

(** [v === 0] *)
Definition is0 (v : value) : bool :=
  match v with
  | Prim (Num n) => n =? 0
  | _ => false
  end.

(** [v > 0] *)
Definition gt0 (v : value) : bool :=
  match toNumber v with
  | Some n => 0 <? n
  | None => false
  end.

(** An array index: a canonical numeric string below 2^32 - 1. *)
Definition is_index (k : string) : bool :=
  JS.all_digits k && negb (String.eqb k "")
  && (String.eqb k "0" || negb (String.prefix "0" k))
  && (JS.digits_value 0 k <? 4294967295).

Definition index_before (a b : string * prim) : bool :=
  JS.digits_value 0 (fst a) <=? JS.digits_value 0 (fst b).

(** [Object.entries(o)]: array-index keys in ascending numeric order, then
    the other keys in creation order. *)
Definition entries (o : t) : list (string * prim) :=
  (stable_sort index_before (filter (fun e => is_index (fst e)) o)
   ++ filter (fun e => negb (is_index (fst e))) o)%list.

End Obj.

(** ** Sets of strings ([Set]), in insertion order *)

Module StrSet.

Definition t : Type := list string.

Definition has (x : string) (s : t) : bool := existsb (String.eqb x) s.

Definition add (x : string) (s : t) : t :=
  if has x s then s else (s ++ [x])%list.

(** [new Set(l)] *)
Definition of_list (l : list string) : t :=
  fold_left (fun s x => add x s) l [].

Definition size (s : t) : Z := Z.of_nat (List.length s).

End StrSet.

(** ** The application state read by the component *)

Inductive TxType : Type := add | remove.

Definition TxType_eqb (a b : TxType) : bool :=
  match a, b with
  | add, add | remove, remove => true
  | _, _ => false
  end.

(** Modelled from the spec: the record types of [../types], which are not
    among the sources, with the fields the component reads.  One record
    stands for every transaction shape; [category] and [sourceCategory] are
    the optional fields. *)
Record GlobalTransaction : Type := mkTx {
  type : TxType;
  desc : string;
  amount : Z;
  timestamp : Z;
  category : option string;
  sourceCategory : option string
}.

Record Archive : Type := mkArchive {
  transactions : list GlobalTransaction
}.

Record Budget : Type := mkBudget {
  name : string;
  totalBudget : Z;
  history : list GlobalTransaction
}.

Record AppState : Type := mkState {
  archives : list Archive;
  fundHistory : list GlobalTransaction;
  budgets : list Budget;
  dailyExpenses : list GlobalTransaction
}.

(** [{...t, category: c}] *)
Definition with_category (c : string) (t : GlobalTransaction) : GlobalTransaction :=
  {| type := type t; desc := desc t; amount := amount t;
     timestamp := timestamp t; category := Some c;
     sourceCategory := sourceCategory t |}.

(** [{...t, type: 'remove', category: c}] *)
Definition as_expense (c : string) (t : GlobalTransaction) : GlobalTransaction :=
  {| type := remove; desc := desc t; amount := amount t;
     timestamp := timestamp t; category := Some c;
     sourceCategory := sourceCategory t |}.

Definition is_remove (t : GlobalTransaction) : bool := TxType_eqb (type t) remove.
Definition is_add (t : GlobalTransaction) : bool := TxType_eqb (type t) add.

(** ** Ledger normalizer *)

Definition archiveExpenses (st : AppState) : list GlobalTransaction :=
  flat_map (fun archive => filter is_remove (transactions archive)) (archives st).

Definition fundExpenses (st : AppState) : list GlobalTransaction :=
  map (with_category "Pengeluaran Umum") (filter is_remove (fundHistory st)).

Definition budgetExpenses (st : AppState) : list GlobalTransaction :=
  flat_map (fun b => map (as_expense (name b)) (history b)) (budgets st).

Definition dailyExpensesTagged (st : AppState) : list GlobalTransaction :=
  map (fun t => as_expense (JS.str_or (sourceCategory t) "Harian") t)
      (dailyExpenses st).

Definition allExpenses (st : AppState) : list GlobalTransaction :=
  (archiveExpenses st ++ fundExpenses st ++ budgetExpenses st
   ++ dailyExpensesTagged st)%list.

(** ** Period selector *)

(** [new Date(ts).toISOString().slice(0, 7)] *)
Definition monthKey (ts : Z) : string := JS.slice 0 7 (JSDate.toISOString ts).

Definition monthOptions (now : Z) (allExp : list GlobalTransaction) : list string :=
  let options := StrSet.of_list (map (fun t => monthKey (timestamp t)) allExp) in
  let options :=
    if StrSet.size options =? 0 then StrSet.add (monthKey now) options
    else options in
  "all" :: rev (stable_sort String.leb options).

Definition inMonth (selectedMonth : string) (e : GlobalTransaction) : bool :=
  JS.startsWith selectedMonth (JSDate.toISOString (timestamp e)).

Definition filteredExpenses (selectedMonth : string)
    (allExp : list GlobalTransaction) : list GlobalTransaction :=
  if String.eqb selectedMonth "all" then allExp
  else filter (inMonth selectedMonth) allExp.

Definition totalIncomeForMonth (fundHist : list GlobalTransaction)
    (selectedMonth : string) : Z :=
  if String.eqb selectedMonth "all" then 0
  else
    let incomeTransactions :=
      filter (fun t => is_add t && inMonth selectedMonth t) fundHist in
    fold_left (fun sum t => sum + amount t) incomeTransactions 0.

(** ** Grouping loop shared by the aggregators

    [if (!o[k]) o[k] = 0;  o[k] += e.amount] for each record, in order. *)

Definition accumulate (key : GlobalTransaction -> string)
    (o : Obj.t) (e : GlobalTransaction) : Obj.t :=
  let k := key e in
  let o1 := if Obj.falsy (Obj.get k o) then Obj.set k (Obj.Num 0) o else o in
  Obj.set k (Obj.plus (Obj.get k o1) (amount e)) o1.

Definition groupTotals (key : GlobalTransaction -> string)
    (l : list GlobalTransaction) : Obj.t :=
  fold_left (accumulate key) l Obj.empty.

(** [expense.category || 'Lain-lain'] *)
Definition categoryOf (e : GlobalTransaction) : string :=
  JS.str_or (category e) "Lain-lain".

(** ** Categorical aggregator *)

Record PieEntry : Type := mkPie { pie_name : string; value : Obj.prim }.

(** The comparator [(a, b) => b.value - a.value] does not put [b] in front
    of [a]: the difference is at most 0, or it is [NaN], which the sort
    takes for 0. *)
Definition byValueDesc (a b : PieEntry) : bool :=
  match Obj.primToNumber (value b), Obj.primToNumber (value a) with
  | Some vb, Some va => vb - va <=? 0
  | _, _ => true
  end.

Definition pieChartData (filtered : list GlobalTransaction) : list PieEntry :=
  let expenseByCategory := groupTotals categoryOf filtered in
  stable_sort byValueDesc
    (map (fun nv => {| pie_name := fst nv; value := snd nv |})
         (Obj.entries expenseByCategory)).

(** ** Click-to-detail query

    [None] is the early return: the detail view is left as it was. *)

Record DetailModalData : Type := mkDetail {
  detail_category : string;
  detail_transactions : list GlobalTransaction
}.

Definition handlePieClick (filtered : list GlobalTransaction)
    (data : option PieEntry) : option DetailModalData :=
  match data with
  | None => None
  | Some d =>
      if String.eqb (pie_name d) "" then None
      else
        let category := pie_name d in
        let transactions :=
          stable_sort (fun a b => amount b - amount a <=? 0)
            (filter (fun e => String.eqb (categoryOf e) category) filtered) in
        Some {| detail_category := category; detail_transactions := transactions |}
  end.

(** ** Daily trend builder *)

Record TrendEntry : Type := mkTrend { day : string; total : Obj.value }.

(** [new Date(Number(y), Number(m), 0).getDate()] on the two slices of the
    selected month; [None] is [NaN], the date of an invalid [Date]. *)
Definition lastDayOf (tz : Z) (year month : option Z) : option Z :=
  match year, month with
  | Some y, Some m => Some (JSDate.getDate tz (JSDate.fromFields tz y m 0))
  | _, _ => None
  end.

(** The values of [i] in [for (let i = 1; i <= n; i++)]; none when [n] is
    [NaN]. *)
Definition loop_1_to (n : option Z) : list Z :=
  match n with
  | Some k => map Z.of_nat (seq 1 (Z.to_nat k))
  | None => []
  end.

Definition localDateKey (tz : Z) (e : GlobalTransaction) : string :=
  JSDate.toLocaleDateString_frCA tz (timestamp e).

Definition trendDateStr (selectedMonth : string) (i : Z) : string :=
  selectedMonth ++ "-" ++ JS.padStart 2 "0" (JS.toString i).

Definition daysInSelectedMonth (tz : Z) (selectedMonth : string) : option Z :=
  lastDayOf tz (JS.Number (JS.slice 0 4 selectedMonth))
               (JS.Number (JS.slice 5 7 selectedMonth)).

Definition trendData (tz : Z) (selectedMonth : string)
    (filtered : list GlobalTransaction) : list TrendEntry :=
  if String.eqb selectedMonth "all" then []
  else
    let dailyTotals := groupTotals (localDateKey tz) filtered in
    let daysInMonth := daysInSelectedMonth tz selectedMonth in
    map (fun i =>
           {| day := JS.toString i;
              total := Obj.or0 (Obj.get (trendDateStr selectedMonth i) dailyTotals) |})
        (loop_1_to daysInMonth).

(** ** Budget comparator *)

Record BudgetComparison : Type := mkComparison {
  cmp_name : string;
  Dianggarkan : Z;
  Terpakai : Obj.value
}.

Definition budgetComparisonData (filtered : list GlobalTransaction)
    (bs : list Budget) : list BudgetComparison :=
  let expenseByCategory := groupTotals categoryOf filtered in
  map (fun budget =>
         {| cmp_name := name budget;
            Dianggarkan := totalBudget budget;
            Terpakai := Obj.or0 (Obj.get (name budget) expenseByCategory) |})
      bs.

(** ** Forecast engine *)

(** A template literal: its text and the numbers interpolated in it. *)
Inductive TemplatePart : Type :=
| Text (s : string)
| Interp (n : Z).

Definition partText (p : TemplatePart) : string :=
  match p with
  | Text s => s
  | Interp n => JS.toString n
  end.

Definition templateText (ps : list TemplatePart) : string :=
  String.concat "" (map partText ps).

Definition interpolated (ps : list TemplatePart) : list Z :=
  flat_map (fun p => match p with Text _ => [] | Interp n => [n] end) ps.

Definition dq : string := String (ascii_of_nat 34) EmptyString.

(** The request sent to the text-generation service. *)
Definition forecastPrompt (totalIncomeForMonth totalExpensesSoFar daysPassed
    totalDaysInMonth : Z) : list TemplatePart :=
  [ Text "
                    Anda adalah seorang analis keuangan. Berdasarkan data berikut, buat prediksi pengeluaran total di akhir bulan dan berikan peringatan dini jika diproyeksikan akan melebihi pemasukan.

                    Data Keuangan (Bulan Berjalan dalam IDR):
                    - Total Pemasukan Bulan Ini: ";
    Interp totalIncomeForMonth;
    Text "
                    - Total Pengeluaran Hingga Saat Ini: ";
    Interp totalExpensesSoFar;
    Text "
                    - Hari yang Telah Berlalu: ";
    Interp daysPassed;
    Text "
                    - Total Hari dalam Bulan Ini: ";
    Interp totalDaysInMonth;
    Text "

                    Tugas:
                    1. Hitung proyeksi pengeluaran total untuk akhir bulan berdasarkan rata-rata pengeluaran harian saat ini.
                    2. Bandingkan proyeksi tersebut dengan total pemasukan.
                    3. Berikan satu kalimat kesimpulan yang singkat, jelas, dan ramah dalam Bahasa Indonesia. Contoh: ";
    Text dq;
    Text "Peringatan! Dengan tren saat ini, Anda diproyeksikan akan melebihi anggaran sebesar [jumlah].";
    Text dq;
    Text " atau ";
    Text dq;
    Text "Anda di jalur yang tepat! Diprediksi akan ada sisa dana sebesar [jumlah] di akhir bulan.";
    Text dq;
    Text "
                    
                    Langsung berikan kalimat kesimpulan tersebut tanpa penjelasan tambahan.
                " ].

(** What one run of [fetchForecast] does, up to the call of the service. *)
Inductive ForecastOutcome : Type :=
| ForecastNull
| ForecastMessage (msg : string)
| ForecastRequest (prompt : list TemplatePart).

Definition msgNotCurrentMonth : string :=
  "Prediksi hanya tersedia untuk bulan berjalan.".
Definition msgNoIncome : string :=
  "Tambahkan pemasukan bulan ini untuk melihat prediksi.".
Definition msgZeroSpend : string :=
  "Belum ada pengeluaran. Anda di jalur yang tepat untuk berhemat!".

(** [a === b] where [b] may be [NaN]. *)
Definition num_eq (a : Z) (b : option Z) : bool :=
  match b with
  | Some v => a =? v
  | None => false
  end.

Definition fetchForecast (tz today : Z) (selectedMonth : string)
    (filtered : list GlobalTransaction) (totalIncome : Z) : ForecastOutcome :=
  if String.eqb selectedMonth "all" then ForecastNull
  else
    let year := JS.Number (JS.slice 0 4 selectedMonth) in
    let month := option_map (fun m => m - 1) (JS.Number (JS.slice 5 7 selectedMonth)) in
    let isCurrentMonth :=
      num_eq (JSDate.getFullYear tz today) year
      && num_eq (JSDate.getMonth tz today) month in
    if negb isCurrentMonth then ForecastMessage msgNotCurrentMonth
    else if totalIncome =? 0 then ForecastMessage msgNoIncome
    else
      let daysPassed := JSDate.getDate tz today in
      let totalDaysInMonth :=
        JS.num_or0 (lastDayOf tz year (option_map (fun m => m + 1) month)) in
      let totalExpensesSoFar :=
        fold_left (fun sum e => sum + amount e) filtered 0 in
      if totalExpensesSoFar =? 0 then ForecastMessage msgZeroSpend
      else ForecastRequest
             (forecastPrompt totalIncome totalExpensesSoFar daysPassed
                totalDaysInMonth).

(** ** The derivations of one render, from the state *)

Definition ledgerFor (st : AppState) (selectedMonth : string) : list GlobalTransaction :=
  filteredExpenses selectedMonth (allExpenses st).

Definition forecastFor (tz today : Z) (st : AppState) (selectedMonth : string) : ForecastOutcome :=
  fetchForecast tz today selectedMonth (ledgerFor st selectedMonth)
    (totalIncomeForMonth (fundHistory st) selectedMonth).

(** ** The rest of the component

    Strings of text are read as sequences of code units below 256. *)

(** *** Titles of the periods *)

Module Title.

(** [Date.parse] of a date-only string YYYY-MM-DD, which is a time in UTC;
    [None] is [NaN].  Other forms of date strings are outside the model and
    read as invalid; the component appends the day 02 to a period key. *)
Definition parseDateOnly (s : string) : option Z :=
  let y := JS.slice 0 4 s in
  let m := JS.slice 5 7 s in
  let d := JS.slice 8 10 s in
  if (String.length s =? 10)%nat
     && String.eqb (JS.slice 4 5 s) "-" && String.eqb (JS.slice 7 8 s) "-"
     && JS.all_digits y && JS.all_digits m && JS.all_digits d
     && (1 <=? JS.digits_value 0 m) && (JS.digits_value 0 m <=? 12)
     && (1 <=? JS.digits_value 0 d) && (JS.digits_value 0 d <=? 31)
  then Some (JSDate.MakeDate
               (JSDate.MakeDay (JS.digits_value 0 y) (JS.digits_value 0 m - 1)
                  (JS.digits_value 0 d)) 0)
  else None.

(** The months in Indonesian, as the locale id-ID writes them in full. *)
Definition monthNames : list string :=
  ["Januari"; "Februari"; "Maret"; "April"; "Mei"; "Juni"; "Juli";
   "Agustus"; "September"; "Oktober"; "November"; "Desember"].

(** [d.toLocaleDateString('id-ID', { month: 'long', year: 'numeric' })] for
    the years from 1 on; an invalid date gives "Invalid Date". *)
Definition toLocaleMonthYear_idID (tz : Z) (d : option Z) : string :=
  match d with
  | Some t =>
      nth (Z.to_nat (JSDate.getMonth tz t)) monthNames ""
        ++ " " ++ JS.toString (JSDate.getFullYear tz t)
  | None => "Invalid Date"
  end.

(** The label of a period: [titleText], and the text of an option of the
    selector. *)
Definition titleText (tz : Z) (selectedMonth : string) : string :=
  if String.eqb selectedMonth "all" then "Semua Waktu"
  else toLocaleMonthYear_idID tz (parseDateOnly (selectedMonth ++ "-02")).

End Title.

(** *** Colours of the pie cells *)

Definition COLORS : list string :=
  ["#2C3E50"; "#1ABC9C"; "#F1C40F"; "#E74C3C"; "#3498DB"; "#9B59B6";
   "#E67E22"; "#7F8C8D"].

(** [COLORS[index % COLORS.length]]; [None] is [undefined]. *)
Definition cellFill (index : nat) : option string :=
  nth_error COLORS (index mod List.length COLORS).

(** *** Commentary text: [formatMarkdown] *)

Module Markdown.

(** White space and line terminators, below 256. *)
Definition is_space (c : ascii) : bool :=
  let n := nat_of_ascii c in
  ((9 <=? n)%nat && (n <=? 13)%nat) || (n =? 32)%nat || (n =? 160)%nat.

Fixpoint trimStart (s : string) : string :=
  match s with
  | EmptyString => EmptyString
  | String c r => if is_space c then trimStart r else s
  end.

Fixpoint trimEnd (s : string) : string :=
  match s with
  | EmptyString => EmptyString
  | String c r =>
      match trimEnd r with
      | EmptyString => if is_space c then EmptyString else String c EmptyString
      | r' => String c r'
      end
  end.

(** [s.trim()] *)
Definition trim (s : string) : string := trimEnd (trimStart s).

(** [s.endsWith(p)] *)
Definition endsWith (p s : string) : bool :=
  (String.length p <=? String.length s)%nat
  && String.eqb (String.substring (String.length s - String.length p)
                   (String.length p) s) p.

(** [s.substring(n)] *)
Fixpoint substringFrom (n : nat) (s : string) : string :=
  match n, s with
  | O, _ => s
  | S k, EmptyString => EmptyString
  | S k, String _ r => substringFrom k r
  end.

(** [s.replace(/\*\*/g, '')]: every pair of asterisks, from the left. *)
Fixpoint removeStarPairs (s : string) : string :=
  match s with
  | EmptyString => EmptyString
  | String c r =>
      match r with
      | String c' r' =>
          if Ascii.eqb c "*" && Ascii.eqb c' "*" then removeStarPairs r'
          else String c (removeStarPairs r)
      | EmptyString => s
      end
  end.

(** [s.includes('**')] *)
Fixpoint hasStarPair (s : string) : bool :=
  match s with
  | EmptyString => false
  | String c r =>
      match r with
      | String c' _ => (Ascii.eqb c "*" && Ascii.eqb c' "*") || hasStarPair r
      | EmptyString => false
      end
  end.

Definition newline : ascii := ascii_of_nat 10.

(** [s.split('\n')] *)
Fixpoint splitLines (s : string) : list string :=
  match s with
  | EmptyString => [EmptyString]
  | String c r =>
      if Ascii.eqb c newline then EmptyString :: splitLines r
      else match splitLines r with
           | h :: t => String c h :: t
           | [] => [String c EmptyString]
           end
  end.

(** The elements [formatMarkdown] returns, each with its key. *)
Inductive Element : Type :=
| ListItem (key : nat) (text : string)
| BoldParagraph (key : nat) (text : string)
| Paragraph (key : nat) (text : string).

Definition formatLine (index : nat) (line : string) : Element :=
  if JS.startsWith "* " (trim line) then
    ListItem index (substringFrom 2 (trim line))
  else if JS.startsWith "**" (trim line) && endsWith "**" (trim line) then
    BoldParagraph index (removeStarPairs (trim line))
  else Paragraph index line.

(** [a.map((x, index) => f(index, x))] *)
Fixpoint mapIndexed {A B : Type} (f : nat -> A -> B) (index : nat) (l : list A) : list B :=
  match l with
  | [] => []
  | x :: r => f index x :: mapIndexed f (S index) r
  end.

Definition formatMarkdown (text : string) : list Element :=
  mapIndexed formatLine 0 (splitLines text).

Definition elementKey (e : Element) : nat :=
  match e with
  | ListItem k _ | BoldParagraph k _ | Paragraph k _ => k
  end.

Definition elementText (e : Element) : string :=
  match e with
  | ListItem _ t | BoldParagraph _ t | Paragraph _ t => t
  end.

End Markdown.

(** *** [JSON.stringify] of the chart data *)

Module JSON.

(** The values of the properties of the chart data: numbers, strings,
    [null] (which [NaN] is written as) and the object without enumerable
    properties. *)
Inductive scalar : Type :=
| Num (n : Z)
| Str (s : string)
| Null
| EmptyObject.

Definition hexDigit (n : nat) : ascii :=
  ascii_of_nat (if (n <? 10)%nat then 48 + n else 87 + n).

Definition backslash : string := String (ascii_of_nat 92) EmptyString.

(** One code unit of a quoted string. *)
Definition escape (c : ascii) : string :=
  let n := nat_of_ascii c in
  if (n =? 34)%nat then backslash ++ dq
  else if (n =? 92)%nat then backslash ++ backslash
  else if (n =? 8)%nat then backslash ++ "b"
  else if (n =? 9)%nat then backslash ++ "t"
  else if (n =? 10)%nat then backslash ++ "n"
  else if (n =? 12)%nat then backslash ++ "f"
  else if (n =? 13)%nat then backslash ++ "r"
  else if (n <? 32)%nat then
    backslash ++ "u00" ++ String (hexDigit (n / 16)) (String (hexDigit (n mod 16)) EmptyString)
  else String c EmptyString.

Fixpoint escapeAll (s : string) : string :=
  match s with
  | EmptyString => EmptyString
  | String c r => escape c ++ escapeAll r
  end.

Definition quote (s : string) : string := dq ++ escapeAll s ++ dq.

Definition stringifyScalar (v : scalar) : string :=
  match v with
  | Num n => JS.toString n
  | Str s => quote s
  | Null => "null"
  | EmptyObject => "{}"
  end.

Fixpoint joinComma (l : list string) : string :=
  match l with
  | [] => EmptyString
  | x :: r =>
      match r with
      | [] => x
      | _ :: _ => x ++ "," ++ joinComma r
      end
  end.

(** An object with the given properties, in their order. *)
Definition stringifyObject (props : list (string * scalar)) : string :=
  "{" ++ joinComma (map (fun kv => quote (fst kv) ++ ":" ++ stringifyScalar (snd kv)) props)
      ++ "}".

(** [JSON.stringify] of an array of such objects. *)
Definition stringify (objects : list (list (string * scalar))) : string :=
  "[" ++ joinComma (map stringifyObject objects) ++ "]".

End JSON.

(** What [JSON.stringify] writes for a value read from a dictionary, if it
    writes the property at all: a property whose value is [undefined] or a
    function is left out, and [Object.prototype] has no enumerable
    property. *)
Definition valueJson (v : Obj.value) : option JSON.scalar :=
  match v with
  | Obj.Undefined => None
  | Obj.Prim Obj.NaN => Some JSON.Null
  | Obj.Prim (Obj.Num n) => Some (JSON.Num n)
  | Obj.Prim (Obj.Str s) => Some (JSON.Str s)
  | Obj.Inherited k =>
      if String.eqb k Obj.protoAccessor then Some JSON.EmptyObject else None
  end.

Definition jsonProperty (k : string) (v : option JSON.scalar) :
    list (string * JSON.scalar) :=
  match v with
  | Some x => [(k, x)]
  | None => []
  end.

Definition trendEntryJson (d : TrendEntry) : list (string * JSON.scalar) :=
  (("day", JSON.Str (day d)) :: jsonProperty "total" (valueJson (total d)))%list.

Definition budgetComparisonJson (r : BudgetComparison) : list (string * JSON.scalar) :=
  (("name", JSON.Str (cmp_name r))
   :: ("Dianggarkan", JSON.Num (Dianggarkan r))
   :: jsonProperty "Terpakai" (valueJson (Terpakai r)))%list.

Definition pieEntryJson (p : PieEntry) : list (string * JSON.scalar) :=
  (("name", JSON.Str (pie_name p))
   :: jsonProperty "value" (valueJson (Obj.Prim (value p))))%list.

(** *** The panels of commentary and their effects *)

(** The three pieces of state of a panel: its text, whether a request is
    under way, and its error. *)
Record Panel : Type := mkPanel {
  panelText : option string;
  panelFetching : bool;
  panelError : option string
}.

(** How a request to the text-generation service ends. *)
Inductive ServiceResult : Type :=
| Resolved (text : string)
| Rejected.

Definition msgNoExpenseData : string :=
  "Tidak ada data pengeluaran untuk dianalisis pada periode ini.".
Definition msgNoBudgets : string :=
  "Tidak ada pos anggaran untuk dibandingkan.".
Definition msgAnalysisFailed : string := "Gagal mendapatkan analisis AI.".
Definition msgForecastFailed : string := "Gagal mendapatkan prediksi AI.".

Definition trendPrompt (trend : list TrendEntry) : string :=
  "Jelaskan tren pengeluaran harian ini dalam 2-3 poin singkat dan mudah dimengerti. Fokus pada kapan pengeluaran tertinggi terjadi dan apa pola utamanya. Gunakan Bahasa Indonesia yang santai. Data (IDR): "
  ++ JSON.stringify (map trendEntryJson (filter (fun d => Obj.gt0 (total d)) trend)).

Definition budgetPrompt (rows : list BudgetComparison) : string :=
  "Dari data perbandingan anggaran ini, sebutkan kategori mana yang paling boros dan mana yang paling hemat. Berikan satu saran praktis yang mudah diikuti. Gunakan Bahasa Indonesia yang santai dalam format poin. Data (IDR): "
  ++ JSON.stringify (map budgetComparisonJson rows).

Definition piePrompt (pie : list PieEntry) : string :=
  "Lihat data alokasi pengeluaran ini. Sebutkan 2 kategori teratas kemana uang paling banyak dihabiskan. Beri satu kesimpulan singkat yang mudah dipahami. Gunakan Bahasa Indonesia yang santai dalam format poin. Data (IDR): "
  ++ JSON.stringify (map pieEntryJson pie).

(** A run of an effect up to its request: the state it leaves and the
    prompt it sends, if it sends one. *)
Definition leaveMessage (msg : string) (s : Panel) : Panel * option string :=
  ({| panelText := Some msg; panelFetching := panelFetching s;
      panelError := panelError s |}, None).

Definition beginRequest (prompt : string) (s : Panel) : Panel * option string :=
  ({| panelText := panelText s; panelFetching := true; panelError := None |},
   Some prompt).

Definition trendAnalysisStart (trend : list TrendEntry) (s : Panel) :
    Panel * option string :=
  if forallb (fun d => Obj.is0 (total d)) trend then leaveMessage msgNoExpenseData s
  else beginRequest (trendPrompt trend) s.

Definition budgetAnalysisStart (rows : list BudgetComparison) (s : Panel) :
    Panel * option string :=
  if (Z.of_nat (List.length rows) =? 0) then leaveMessage msgNoBudgets s
  else beginRequest (budgetPrompt rows) s.

Definition pieAnalysisStart (pie : list PieEntry) (s : Panel) :
    Panel * option string :=
  if (Z.of_nat (List.length pie) =? 0) then leaveMessage msgNoExpenseData s
  else beginRequest (piePrompt pie) s.

(** The rest of the run, when the request has ended: the text of the
    response or the error, and the end of the fetching. *)
Definition requestEnd (failure : string) (r : ServiceResult) (s : Panel) : Panel :=
  match r with
  | Resolved text =>
      {| panelText := Some text; panelFetching := false;
         panelError := panelError s |}
  | Rejected =>
      {| panelText := panelText s; panelFetching := false;
         panelError := Some failure |}
  end.

(** [fetchForecast] with its effects on the state of the forecast panel. *)
Definition forecastStart (tz today : Z) (selectedMonth : string)
    (filtered : list GlobalTransaction) (totalIncome : Z) (s : Panel) :
    Panel * option (list TemplatePart) :=
  if String.eqb selectedMonth "all" then
    ({| panelText := None; panelFetching := panelFetching s;
        panelError := panelError s |}, None)
  else
    let year := JS.Number (JS.slice 0 4 selectedMonth) in
    let month := option_map (fun m => m - 1) (JS.Number (JS.slice 5 7 selectedMonth)) in
    let isCurrentMonth :=
      num_eq (JSDate.getFullYear tz today) year
      && num_eq (JSDate.getMonth tz today) month in
    if negb isCurrentMonth then
      ({| panelText := Some msgNotCurrentMonth; panelFetching := panelFetching s;
          panelError := panelError s |}, None)
    else if totalIncome =? 0 then
      ({| panelText := Some msgNoIncome; panelFetching := panelFetching s;
          panelError := panelError s |}, None)
    else
      let daysPassed := JSDate.getDate tz today in
      let totalDaysInMonth :=
        JS.num_or0 (lastDayOf tz year (option_map (fun m => m + 1) month)) in
      let totalExpensesSoFar :=
        fold_left (fun sum e => sum + amount e) filtered 0 in
      if totalExpensesSoFar =? 0 then
        ({| panelText := Some msgZeroSpend; panelFetching := false;
            panelError := None |}, None)
      else
        ({| panelText := panelText s; panelFetching := true; panelError := None |},
         Some (forecastPrompt totalIncome totalExpensesSoFar daysPassed
                 totalDaysInMonth)).

(** *** What a panel shows *)

(** [x && ...] on an optional string: [null] and the empty string show
    nothing. *)
Definition truthy (x : option string) : option string :=
  match x with
  | Some s => if String.eqb s "" then None else Some s
  | None => None
  end.

Definition isNone {A : Type} (x : option A) : bool :=
  match x with
  | Some _ => false
  | None => true
  end.

Record CardView : Type := mkView {
  showsLoading : bool;
  shownError : option string;
  shownText : option string
}.

(** [AIAnalysisCard] and [AIForecastCard]: the loading line, the error and
    the text (which the analysis card passes through [formatMarkdown]). *)
Definition cardView (s : Panel) : CardView :=
  {| showsLoading := panelFetching s;
     shownError := truthy (panelError s);
     shownText :=
       if negb (panelFetching s) && isNone (truthy (panelError s))
       then truthy (panelText s) else None |}.

(** [trendData.length > 0 && trendData.some(d => d.total > 0)]: the line
    chart is drawn, not the "no data" notice. *)
Definition trendChartShown (trend : list TrendEntry) : bool :=
  (0 <? Z.of_nat (List.length trend)) && existsb (fun d => Obj.gt0 (total d)) trend.

(** ** Quantities the properties are stated with *)

Definition sumZ (l : list Z) : Z := fold_right Z.add 0 l.

(** The amounts of the records of [l] whose key is [k], added up. *)
Definition totalFor (key : GlobalTransaction -> string) (k : string)
    (l : list GlobalTransaction) : Z :=
  sumZ (map amount (filter (fun e => String.eqb (key e) k) l)).

(** Values that are all numbers, added up; [None] when one of them is not
    a number. *)
Fixpoint sumNumbers (l : list (option Z)) : option Z :=
  match l with
  | [] => Some 0
  | x :: r =>
      match x, sumNumbers r with
      | Some a, Some b => Some (a + b)
      | _, _ => None
      end
  end.

(** The number that a value is, if it is one. *)
Definition primNumber (p : Obj.prim) : option Z :=
  match p with
  | Obj.Num n => Some n
  | _ => None
  end.

Definition valueNumber (v : Obj.value) : option Z :=
  match v with
  | Obj.Prim p => primNumber p
  | _ => None
  end.

(** The totals of a breakdown and of a daily series, added up. *)
Definition valuesSum (pie : list PieEntry) : option Z :=
  sumNumbers (map (fun p => primNumber (value p)) pie).

Definition totalsSum (trend : list TrendEntry) : option Z :=
  sumNumbers (map (fun d => valueNumber (total d)) trend).

(** The character occurs in the string. *)
Fixpoint hasChar (c : ascii) (s : string) : bool :=
  match s with
  | EmptyString => false
  | String a r => Ascii.eqb a c || hasChar c r
  end.

(** The category a record counts under, read off its category field: the
    field, or the fallback label when the field is missing or empty. *)
Definition fallbackLabel : string := "Lain-lain".

Definition resolvedCategory (e : GlobalTransaction) : string :=
  match category e with
  | Some c => if String.eqb c "" then fallbackLabel else c
  | None => fallbackLabel
  end.

Definition inCategory (c : string) (e : GlobalTransaction) : bool :=
  String.eqb (resolvedCategory e) c.

(** The amounts of the records of a category, added up. *)
Definition categoryTotal (c : string) (l : list GlobalTransaction) : Z :=
  sumZ (map amount (filter (inCategory c) l)).

(** The record is a debit. *)
Definition isDebit (t : GlobalTransaction) : bool :=
  match type t with
  | remove => true
  | add => false
  end.

(** The category a daily expense enters the ledger with: its source
    category, or "Harian" when that is missing or empty. *)
Definition dailyCategory (t : GlobalTransaction) : string :=
  match sourceCategory t with
  | Some c => if String.eqb c "" then "Harian" else c
  | None => "Harian"
  end.

(** The comparator of the detail list: [(a, b) => b.amount - a.amount]. *)
Definition byAmountDesc (a b : GlobalTransaction) : bool :=
  amount b - amount a <=? 0.

(** The position of the month of a time value, counted in months. *)
Definition monthIndex (t : Z) : Z :=
  12 * JSDate.YearFromTime t + JSDate.MonthFromTime t.

(** The category field itself is present and not empty. *)
Definition hasCategory (e : GlobalTransaction) : bool :=
  match category e with
  | Some c => negb (String.eqb c "")
  | None => false
  end.

(** The key of month [m] (1 to 12) of year [y] (0 to 9999), as a period
    key is written. *)
Definition ymKey (y m : Z) : string := JSDate.pad 4 y ++ "-" ++ JSDate.pad 2 m.

(** A calendar date as the trend builder writes it for its days. *)
Definition dateKey (y m d : Z) : string :=
  ymKey y m ++ "-" ++ JSDate.pad 2 d.

(** The record is dated, in local time, on day [d] of month [m] of year
    [y]. *)
Definition onLocalDay (tz y m d : Z) (e : GlobalTransaction) : bool :=
  (JSDate.getFullYear tz (timestamp e) =? y)
  && (JSDate.getMonth tz (timestamp e) + 1 =? m)
  && (JSDate.getDate tz (timestamp e) =? d).

(** The record is dated, in local time, in month [m] of year [y]. *)
Definition inLocalMonth (tz y m : Z) (e : GlobalTransaction) : bool :=
  (JSDate.getFullYear tz (timestamp e) =? y)
  && (JSDate.getMonth tz (timestamp e) + 1 =? m).

(** The record is dated, in UTC, in month [m] of year [y]. *)
Definition inUtcMonth (y m : Z) (e : GlobalTransaction) : bool :=
  (JSDate.YearFromTime (timestamp e) =? y)
  && (JSDate.MonthFromTime (timestamp e) + 1 =? m).

(** The days of a month by the calendar rules, leap years included. *)
Definition isLeapYear (y : Z) : bool :=
  ((y mod 4 =? 0) && negb (y mod 100 =? 0)) || (y mod 400 =? 0).

Definition calendarDaysInMonth (y m : Z) : Z :=
  match m with
  | 1 | 3 | 5 | 7 | 8 | 10 | 12 => 31
  | 4 | 6 | 9 | 11 => 30
  | 2 => if isLeapYear y then 29 else 28
  | _ => 0
  end.

(** [a, a + 1, ..., a + n - 1] *)
Fixpoint Zrange (a : Z) (n : nat) : list Z :=
  match n with
  | O => []
  | S k => a :: Zrange (a + 1) k
  end.

(** What is checked of the four digits of every year from 0 to 9999, and of
    the two digits of every month. *)
Definition yearDigitsCheck (y : Z) : bool :=
  (String.length (JSDate.pad 4 y) =? 4)%nat
  && JS.all_digits (JSDate.pad 4 y)
  && (JS.digits_value 0 (JSDate.pad 4 y) =? y).

Definition yearNumericCheck (y : Z) : bool :=
  String.eqb (JS.toString y) (JSDate.pad 4 y).

Definition monthDigitsCheck (m : Z) : bool :=
  (String.length (JSDate.pad 2 m) =? 2)%nat
  && JS.all_digits (JSDate.pad 2 m)
  && (JS.digits_value 0 (JSDate.pad 2 m) =? m).

(** The date of the day before the first of month [m] + 1 of year [y]:
    [new Date(y, m, 0).getDate()] without the time of day and the zone. *)
Definition lastDate (y m : Z) : Z :=
  let d := JSDate.MakeDay y m 0 in
  let yr := JSDate.YearFromDay d in
  JSDate.DateOfYearDay (d - JSDate.DayFromYear yr) (JSDate.LeapOf yr).

(** The projection in the words of the specification, on whole quotients:
    the daily rate, the projected total and the difference to the income. *)
Definition specDailyRate (totalSpendSoFar daysElapsed : Z) : Z :=
  totalSpendSoFar / daysElapsed.

Definition specProjectedTotal (totalSpendSoFar daysElapsed daysInMonth : Z) : Z :=
  specDailyRate totalSpendSoFar daysElapsed * daysInMonth.

Definition specDelta (totalIncome totalSpendSoFar daysElapsed daysInMonth : Z) : Z :=
  totalIncome - specProjectedTotal totalSpendSoFar daysElapsed daysInMonth.

(** The outcome is a request that carries the projected total and the
    difference among its numbers. *)
Definition carriesProjection (out : ForecastOutcome)
    (totalIncome totalSpendSoFar daysElapsed daysInMonth : Z) : Prop :=
  exists p,
    out = ForecastRequest p
    /\ In (specProjectedTotal totalSpendSoFar daysElapsed daysInMonth)
          (interpolated p)
    /\ In (specDelta totalIncome totalSpendSoFar daysElapsed daysInMonth)
          (interpolated p).

(** ** Sample inputs *)

(** The zone of Jakarta, and 10 April 2024, 12:00 there. *)
Definition wib : Z := 420.
Definition april10 : Z := 1712725200000.

(** April 2024: an income of 1,000,000 on the 1st, 200,000 spent on the
    5th and 100,000 entered for the 25th. *)
Definition aprilState : AppState :=
  {| archives := [];
     fundHistory := [mkTx add "Gaji" 1000000 1711940400000 None None];
     budgets := [];
     dailyExpenses :=
       [mkTx remove "Makan" 200000 1712311200000 None (Some "Makanan");
        mkTx remove "Sewa" 100000 1714039200000 None None] |}.

(** An archived expense stored without a category. *)
Definition archivedUncategorized : GlobalTransaction :=
  mkTx remove "Belanja" 25000 1712311200000 None None.

Definition archiveState : AppState :=
  {| archives := [mkArchive [archivedUncategorized]];
     fundHistory := []; budgets := []; dailyExpenses := [] |}.

(** A budget without a name, with one entry in its history. *)
Definition unnamedBudgetState : AppState :=
  {| archives := []; fundHistory := [];
     budgets := [mkBudget "" 100000 [mkTx remove "Parkir" 5000 1712311200000 None None]];
     dailyExpenses := [] |}.

(** An expense of 31 January 2024, 23:30 UTC, which is 1 February, 06:30
    in Jakarta. *)
Definition boundaryExpense : GlobalTransaction :=
  mkTx remove "Sarapan" 50000 1706743800000 (Some "Makanan") None.

(** Three filtered records: two for food, and one stored without a
    category. *)
Definition foodExpense : GlobalTransaction :=
  mkTx remove "Makan" 200000 1712311200000 (Some "Makanan") None.

Definition detailLedger : list GlobalTransaction :=
  [boundaryExpense; archivedUncategorized; foodExpense].

(** April 2024 around its edges, seen from Jakarta: an income of 1,000,000
    on the 1st; 30,000 spent on 1 April at 06:30 there (31 March, 23:30
    UTC), 50,000 on 5 April, and 20,000 on 1 May at 02:00 there (30 April,
    19:00 UTC). *)
Definition monthEdgeState : AppState :=
  {| archives := [];
     fundHistory := [mkTx add "Gaji" 1000000 1711940400000 None None];
     budgets := [];
     dailyExpenses :=
       [mkTx remove "Sarapan" 30000 1711927800000 None (Some "Makanan");
        mkTx remove "Makan" 50000 1712311200000 None (Some "Makanan");
        mkTx remove "Bensin" 20000 1714503600000 None (Some "Transport")] |}.

(** A budget for building work, named "constructor", with 5,000 spent on
    5 April 2024, beside a daily expense of 20,000 for food on the same
    day. *)
Definition constructorState : AppState :=
  {| archives := []; fundHistory := [];
     budgets :=
       [mkBudget "constructor" 100000
          [mkTx remove "Semen" 5000 1712311200000 None None]];
     dailyExpenses :=
       [mkTx remove "Makan" 20000 1712311200000 None (Some "Makanan")] |}.

(** * Properties *)

(** ** Sums *)

Lemma sumZ_app (l1 l2 : list Z) : sumZ (l1 ++ l2) = sumZ l1 + sumZ l2.
Proof.
  induction l1 as [|x l1 IH]; simpl; [reflexivity | rewrite IH; lia].
Qed.

Lemma sumZ_perm (l1 l2 : list Z) : Permutation l1 l2 -> sumZ l1 = sumZ l2.
Proof.
  induction 1; simpl; lia.
Qed.

Lemma reduce_amounts (l : list GlobalTransaction) (a : Z) :
  fold_left (fun sum e => sum + amount e) l a = a + sumZ (map amount l).
Proof.
  revert a; induction l as [|e l IH]; intros a; simpl.
  - lia.
  - rewrite IH. lia.
Qed.

(** ** The stable sort *)

Section StableSortFacts.

Context {A : Type} (before : A -> A -> bool).

Lemma insert_sorted_perm (x : A) (l : list A) :
  Permutation (insert_sorted before x l) (x :: l).
Proof.
  induction l as [|y r IH]; simpl.
  - reflexivity.
  - destruct (before x y).
    + reflexivity.
    + rewrite IH. apply perm_swap.
Qed.

Lemma stable_sort_perm (l : list A) : Permutation (stable_sort before l) l.
Proof.
  induction l as [|x l IH]; simpl.
  - constructor.
  - rewrite insert_sorted_perm. now constructor.
Qed.

Lemma stable_sort_nil_inv (l : list A) : stable_sort before l = [] -> l = [].
Proof.
  intros H. apply Permutation_nil. rewrite <- H.
  apply stable_sort_perm.
Qed.

Hypothesis before_total : forall x y, before x y = true \/ before y x = true.

Lemma insert_sorted_Sorted (x : A) (l : list A) :
  Sorted (fun a b => before a b = true) l ->
  Sorted (fun a b => before a b = true) (insert_sorted before x l).
Proof.
  induction l as [|y r IH]; intros Hs; simpl.
  - repeat constructor.
  - destruct (before x y) eqn:Hxy.
    + constructor; [assumption | constructor; exact Hxy].
    + assert (Hyx : before y x = true)
        by (destruct (before_total x y); [congruence | assumption]).
      inversion Hs as [|? ? Hr Hhd]; subst.
      constructor; [now apply IH |].
      destruct r as [|z r']; simpl.
      * constructor; exact Hyx.
      * destruct (before x z); constructor; [exact Hyx |].
        inversion Hhd; assumption.
Qed.

Lemma stable_sort_Sorted (l : list A) :
  Sorted (fun a b => before a b = true) (stable_sort before l).
Proof.
  induction l as [|x l IH]; simpl.
  - constructor.
  - now apply insert_sorted_Sorted.
Qed.

End StableSortFacts.

(** ** Dictionaries *)

Lemma own_put_same (k : string) (v : Obj.prim) (o : Obj.t) :
  Obj.own k (Obj.put k v o) = Some v.
Proof.
  induction o as [|[k' v'] r IH]; simpl.
  - now rewrite String.eqb_refl.
  - destruct (String.eqb k k') eqn:E; simpl; rewrite E; [reflexivity | exact IH].
Qed.

Lemma own_put_other (k k' : string) (v : Obj.prim) (o : Obj.t) :
  k <> k' -> Obj.own k' (Obj.put k v o) = Obj.own k' o.
Proof.
  intros Hne. induction o as [|[k0 v0] r IH]; simpl.
  - apply String.eqb_neq in Hne. rewrite String.eqb_sym. now rewrite Hne.
  - destruct (String.eqb k k0) eqn:E; simpl.
    + apply String.eqb_eq in E. subst k0.
      destruct (String.eqb k' k) eqn:E'; [| reflexivity].
      apply String.eqb_eq in E'. congruence.
    + now rewrite IH.
Qed.

Lemma own_set_other (k k' : string) (v : Obj.prim) (o : Obj.t) :
  k <> k' -> Obj.own k' (Obj.set k v o) = Obj.own k' o.
Proof.
  intros Hne. unfold Obj.set.
  destruct (Obj.own k o); [now apply own_put_other |].
  destruct (String.eqb k Obj.protoAccessor); [reflexivity | now apply own_put_other].
Qed.

Lemma own_set_own (k : string) (v p : Obj.prim) (o : Obj.t) :
  Obj.own k o = Some p -> Obj.own k (Obj.set k v o) = Some v.
Proof.
  intros H. unfold Obj.set. rewrite H. apply own_put_same.
Qed.

Lemma plain_not_proto (k : string) :
  Obj.inherited k = false -> String.eqb k Obj.protoAccessor = false.
Proof.
  unfold Obj.inherited. intros H. now apply orb_false_iff in H.
Qed.

Lemma own_set_plain (k : string) (v : Obj.prim) (o : Obj.t) :
  Obj.inherited k = false -> Obj.own k (Obj.set k v o) = Some v.
Proof.
  intros H. unfold Obj.set. rewrite (plain_not_proto k H).
  destruct (Obj.own k o); apply own_put_same.
Qed.

Lemma own_None_iff (k : string) (o : Obj.t) :
  Obj.own k o = None <-> ~ In k (map fst o).
Proof.
  induction o as [|[k' v'] r IH]; simpl.
  - tauto.
  - destruct (String.eqb_spec k k') as [->|Hne].
    + split; [discriminate | intros H; exfalso; apply H; now left].
    + rewrite IH. intuition congruence.
Qed.

Lemma own_of_In (k : string) (v : Obj.prim) (o : Obj.t) :
  NoDup (map fst o) -> In (k, v) o -> Obj.own k o = Some v.
Proof.
  induction o as [|[k0 v0] r IH]; simpl; intros Hnd Hin; [destruct Hin |].
  inversion Hnd as [|? ? Hnotin Hnd']; subst.
  destruct Hin as [E|Hin].
  - injection E as -> ->. now rewrite String.eqb_refl.
  - destruct (String.eqb_spec k k0) as [->|Hne]; [| now apply IH].
    exfalso. apply Hnotin. apply in_map_iff. now exists (k0, v).
Qed.

Lemma put_keys_In (k k' : string) (v : Obj.prim) (o : Obj.t) :
  In k' (map fst (Obj.put k v o)) <-> k' = k \/ In k' (map fst o).
Proof.
  induction o as [|[k0 v0] r IH]; simpl.
  - intuition congruence.
  - destruct (String.eqb_spec k k0) as [->|Hne]; simpl.
    + intuition congruence.
    + rewrite IH. intuition congruence.
Qed.

Lemma put_keys_NoDup (k : string) (v : Obj.prim) (o : Obj.t) :
  NoDup (map fst o) -> NoDup (map fst (Obj.put k v o)).
Proof.
  induction o as [|[k0 v0] r IH]; simpl; intros Hnd.
  - repeat constructor. intros [].
  - inversion Hnd as [|? ? Hnotin Hnd']; subst.
    destruct (String.eqb_spec k k0) as [->|Hne]; simpl.
    + now constructor.
    + constructor; [| now apply IH].
      rewrite put_keys_In. intros [E|H]; [congruence | contradiction].
Qed.

Lemma set_keys_NoDup (k : string) (v : Obj.prim) (o : Obj.t) :
  NoDup (map fst o) -> NoDup (map fst (Obj.set k v o)).
Proof.
  intros Hnd. unfold Obj.set.
  destruct (Obj.own k o); [now apply put_keys_NoDup |].
  destruct (String.eqb k Obj.protoAccessor); [exact Hnd | now apply put_keys_NoDup].
Qed.

(** A dictionary that has no own [__proto__] gets none: what is written
    under that name is dropped, any other key is there afterwards. *)
Lemma set_keys_In (k k' : string) (v : Obj.prim) (o : Obj.t) :
  ~ In Obj.protoAccessor (map fst o) ->
  (In k' (map fst (Obj.set k v o))
   <-> (k' = k /\ k <> Obj.protoAccessor) \/ In k' (map fst o)).
Proof.
  intros Hno. unfold Obj.set.
  destruct (String.eqb_spec k Obj.protoAccessor) as [->|Hne].
  - apply own_None_iff in Hno. rewrite Hno. tauto.
  - destruct (Obj.own k o); rewrite put_keys_In; tauto.
Qed.

Lemma set_no_proto (k : string) (v : Obj.prim) (o : Obj.t) :
  ~ In Obj.protoAccessor (map fst o) ->
  ~ In Obj.protoAccessor (map fst (Obj.set k v o)).
Proof.
  intros Hno H. apply (set_keys_In k _ v o Hno) in H.
  destruct H as [(E & Hne)|H]; [congruence | contradiction].
Qed.

Lemma totalFor_none (key : GlobalTransaction -> string) (k : string)
    (l : list GlobalTransaction) :
  existsb (fun e => String.eqb (key e) k) l = false -> totalFor key k l = 0.
Proof.
  unfold totalFor. induction l as [|e l IH]; simpl; [reflexivity |].
  destruct (String.eqb (key e) k); simpl; [discriminate | exact IH].
Qed.

Section Grouping.

Variable key : GlobalTransaction -> string.

Lemma accumulate_own_other (o : Obj.t) (e : GlobalTransaction) (k : string) :
  key e <> k -> Obj.own k (accumulate key o e) = Obj.own k o.
Proof.
  intros Hne. unfold accumulate. rewrite own_set_other by assumption.
  destruct (Obj.falsy (Obj.get (key e) o)); [now apply own_set_other | reflexivity].
Qed.

(** The first record of a key that is not inherited starts its total. *)
Lemma accumulate_own_new (o : Obj.t) (e : GlobalTransaction) :
  Obj.inherited (key e) = false -> Obj.own (key e) o = None ->
  Obj.own (key e) (accumulate key o e) = Some (Obj.Num (amount e)).
Proof.
  intros Hp Ho. unfold accumulate, Obj.get. rewrite Ho, Hp. cbn [Obj.falsy].
  rewrite (own_set_plain _ _ _ Hp). cbn [Obj.plus].
  now rewrite (own_set_plain _ _ _ Hp).
Qed.

(** A total that is a number stays one. *)
Lemma accumulate_own_num (o : Obj.t) (e : GlobalTransaction) (n : Z) :
  Obj.own (key e) o = Some (Obj.Num n) ->
  Obj.own (key e) (accumulate key o e) = Some (Obj.Num (n + amount e)).
Proof.
  intros Ho. unfold accumulate, Obj.get. rewrite Ho. cbn [Obj.falsy].
  destruct (Z.eqb_spec n 0) as [->|Hn].
  - rewrite (own_set_own _ _ _ _ Ho). cbn [Obj.plus].
    erewrite own_set_own; [reflexivity | eapply own_set_own; exact Ho].
  - rewrite Ho. cbn [Obj.plus]. now rewrite (own_set_own _ _ _ _ Ho).
Qed.

Lemma fold_accumulate_own_num (l : list GlobalTransaction) (o : Obj.t)
    (k : string) (n : Z) :
  Obj.own k o = Some (Obj.Num n) ->
  Obj.own k (fold_left (accumulate key) l o) = Some (Obj.Num (n + totalFor key k l)).
Proof.
  unfold totalFor. revert o n; induction l as [|e l IH]; intros o n Ho; simpl.
  - rewrite Ho. do 2 f_equal. lia.
  - destruct (String.eqb (key e) k) eqn:E; simpl.
    + apply String.eqb_eq in E. subst k.
      rewrite (IH _ _ (accumulate_own_num o e n Ho)). do 2 f_equal. lia.
    + apply String.eqb_neq in E. apply IH. now rewrite accumulate_own_other.
Qed.

Lemma fold_accumulate_own_new (l : list GlobalTransaction) (o : Obj.t) (k : string) :
  Obj.inherited k = false -> Obj.own k o = None ->
  Obj.own k (fold_left (accumulate key) l o)
  = if existsb (fun e => String.eqb (key e) k) l
    then Some (Obj.Num (totalFor key k l)) else None.
Proof.
  intros Hp. revert o; induction l as [|e l IH]; intros o Ho; simpl.
  - exact Ho.
  - destruct (String.eqb (key e) k) eqn:E; simpl.
    + apply String.eqb_eq in E. subst k.
      rewrite (fold_accumulate_own_num l _ _ _ (accumulate_own_new o e Hp Ho)).
      unfold totalFor. simpl. now rewrite String.eqb_refl.
    + rewrite IH.
      * unfold totalFor. simpl. now rewrite E.
      * apply String.eqb_neq in E. now rewrite accumulate_own_other.
Qed.

(** Under a key that is not inherited, the dictionary holds the sum of the
    amounts of the records of that key, whatever the other keys are. *)
Lemma groupTotals_own (l : list GlobalTransaction) (k : string) :
  Obj.inherited k = false ->
  Obj.own k (groupTotals key l)
  = if existsb (fun e => String.eqb (key e) k) l
    then Some (Obj.Num (totalFor key k l)) else None.
Proof.
  intros Hp. unfold groupTotals. now apply fold_accumulate_own_new.
Qed.

Lemma groupTotals_or0 (l : list GlobalTransaction) (k : string) :
  Obj.inherited k = false ->
  Obj.or0 (Obj.get k (groupTotals key l)) = Obj.Prim (Obj.Num (totalFor key k l)).
Proof.
  intros Hp. unfold Obj.get. rewrite (groupTotals_own l k Hp), Hp.
  destruct (existsb _ l) eqn:E.
  - unfold Obj.or0. cbn [Obj.falsy].
    destruct (Z.eqb_spec (totalFor key k l) 0) as [->|_]; reflexivity.
  - now rewrite (totalFor_none key k l E).
Qed.

Lemma accumulate_keys_In (o : Obj.t) (e : GlobalTransaction) (k : string) :
  ~ In Obj.protoAccessor (map fst o) ->
  (In k (map fst (accumulate key o e))
   <-> (k = key e /\ key e <> Obj.protoAccessor) \/ In k (map fst o)).
Proof.
  intros Hno. unfold accumulate.
  destruct (Obj.falsy (Obj.get (key e) o)).
  - rewrite set_keys_In by now apply set_no_proto.
    rewrite set_keys_In by exact Hno. tauto.
  - now apply set_keys_In.
Qed.

Lemma accumulate_no_proto (o : Obj.t) (e : GlobalTransaction) :
  ~ In Obj.protoAccessor (map fst o) ->
  ~ In Obj.protoAccessor (map fst (accumulate key o e)).
Proof.
  intros Hno H. apply (accumulate_keys_In o e _ Hno) in H.
  destruct H as [(E & Hne)|H]; [congruence | contradiction].
Qed.

Lemma accumulate_keys_NoDup (o : Obj.t) (e : GlobalTransaction) :
  NoDup (map fst o) -> NoDup (map fst (accumulate key o e)).
Proof.
  intros Hnd. unfold accumulate. apply set_keys_NoDup.
  destruct (Obj.falsy (Obj.get (key e) o)); [now apply set_keys_NoDup | exact Hnd].
Qed.

Lemma fold_accumulate_keys (l : list GlobalTransaction) (o : Obj.t) :
  NoDup (map fst o) -> ~ In Obj.protoAccessor (map fst o) ->
  NoDup (map fst (fold_left (accumulate key) l o))
  /\ (forall k, In k (map fst (fold_left (accumulate key) l o)) <->
                In k (map fst o)
                \/ (In k (map key l) /\ k <> Obj.protoAccessor)).
Proof.
  revert o; induction l as [|e l IH]; intros o Hnd Hno; simpl.
  - split; [exact Hnd | tauto].
  - destruct (IH _ (accumulate_keys_NoDup o e Hnd) (accumulate_no_proto o e Hno))
      as (H1 & H2).
    split; [exact H1 |]. intros k. rewrite H2, (accumulate_keys_In o e k Hno).
    intuition congruence.
Qed.

(** The keys of the dictionary are the keys of the records, each once,
    except [__proto__], under which nothing is stored. *)
Lemma groupTotals_keys (l : list GlobalTransaction) :
  NoDup (map fst (groupTotals key l))
  /\ (forall k, In k (map fst (groupTotals key l)) <->
                In k (map key l) /\ k <> Obj.protoAccessor).
Proof.
  destruct (fold_accumulate_keys l Obj.empty (NoDup_nil _) (fun H => H)) as (H1 & H2).
  split; [exact H1 |]. intros k. rewrite (H2 k). simpl. tauto.
Qed.

Lemma groupTotals_entry (l : list GlobalTransaction) (k : string) (v : Obj.prim) :
  Obj.inherited k = false ->
  In (k, v) (groupTotals key l) -> v = Obj.Num (totalFor key k l).
Proof.
  intros Hp Hin.
  pose proof (own_of_In k v _ (proj1 (groupTotals_keys l)) Hin) as Ho.
  rewrite (groupTotals_own l k Hp) in Ho.
  destruct (existsb _ l); [now injection Ho as <- | discriminate Ho].
Qed.

End Grouping.

Lemma filter_split_perm {A : Type} (f : A -> bool) (l : list A) :
  Permutation (filter f l ++ filter (fun x => negb (f x)) l) l.
Proof.
  induction l as [|x l IH]; simpl.
  - constructor.
  - destruct (f x); simpl.
    + now constructor.
    + rewrite <- Permutation_middle. now constructor.
Qed.

Lemma entries_perm (o : Obj.t) : Permutation (Obj.entries o) o.
Proof.
  unfold Obj.entries.
  rewrite stable_sort_perm.
  apply (filter_split_perm (fun e => Obj.is_index (fst e))).
Qed.

(** ** The calendar *)

Lemma Zrange_In (n : nat) (a z : Z) :
  a <= z < a + Z.of_nat n -> In z (Zrange a n).
Proof.
  revert a; induction n as [|n IH]; intros a H; simpl.
  - lia.
  - destruct (Z.eq_dec a z) as [->|Hne]; [now left | right].
    apply IH. lia.
Qed.

Lemma Zrange_In_inv (n : nat) (a z : Z) :
  In z (Zrange a n) -> a <= z < a + Z.of_nat n.
Proof.
  revert a; induction n as [|n IH]; intros a H; simpl in H.
  - destruct H.
  - destruct H as [->|H]; [lia |]. apply IH in H. lia.
Qed.

Lemma LeapOf_isLeapYear (y : Z) :
  JSDate.LeapOf y = if isLeapYear y then 1 else 0.
Proof.
  unfold JSDate.LeapOf, JSDate.DaysInYear, isLeapYear.
  destruct (Z.eqb_spec (y mod 4) 0); destruct (Z.eqb_spec (y mod 100) 0);
    destruct (Z.eqb_spec (y mod 400) 0);
    try reflexivity; exfalso; Z.div_mod_to_equations; lia.
Qed.

Lemma DaysInYear_LeapOf (y : Z) : JSDate.DaysInYear y = 365 + JSDate.LeapOf y.
Proof.
  unfold JSDate.LeapOf, JSDate.DaysInYear.
  destruct (y mod 4 =? 0), (y mod 100 =? 0), (y mod 400 =? 0); reflexivity.
Qed.

Lemma LeapOf_cases (y : Z) : JSDate.LeapOf y = 0 \/ JSDate.LeapOf y = 1.
Proof.
  rewrite LeapOf_isLeapYear. destruct (isLeapYear y); auto.
Qed.

(** Each year starts where the one before ends. *)
Lemma DayFromYear_step (y : Z) :
  JSDate.DayFromYear (y + 1) = JSDate.DayFromYear y + JSDate.DaysInYear y.
Proof.
  unfold JSDate.DayFromYear, JSDate.DaysInYear.
  destruct (Z.eqb_spec (y mod 4) 0); destruct (Z.eqb_spec (y mod 100) 0);
    destruct (Z.eqb_spec (y mod 400) 0); cbn [negb];
    Z.div_mod_to_equations; lia.
Qed.

Lemma DayFromYear_mono (a b : Z) :
  a <= b -> JSDate.DayFromYear a <= JSDate.DayFromYear b.
Proof.
  intros H. unfold JSDate.DayFromYear. Z.div_mod_to_equations. lia.
Qed.

(** The estimate of [YearFromDay] is at most one year off. *)
Lemma YearFromDay_estimate (d : Z) :
  JSDate.DayFromYear (1970 + d * 400 / 146097 - 1) <= d
  < JSDate.DayFromYear (1970 + d * 400 / 146097 + 2).
Proof.
  unfold JSDate.DayFromYear. Z.div_mod_to_equations. lia.
Qed.

(** [YearFromDay d] is the year that day [d] lies in. *)
Lemma YearFromDay_spec (d : Z) :
  JSDate.DayFromYear (JSDate.YearFromDay d) <= d
  < JSDate.DayFromYear (JSDate.YearFromDay d + 1).
Proof.
  pose proof (YearFromDay_estimate d) as He.
  unfold JSDate.YearFromDay. cbv zeta.
  set (y := 1970 + d * 400 / 146097) in *.
  destruct (Z.ltb_spec d (JSDate.DayFromYear y)).
  - replace (y - 1 + 1) with y by lia. lia.
  - destruct (Z.leb_spec (JSDate.DayFromYear (y + 1)) d).
    + replace (y + 1 + 1) with (y + 2) by lia. lia.
    + lia.
Qed.

Lemma YearFromDay_unique (d y : Z) :
  JSDate.DayFromYear y <= d < JSDate.DayFromYear (y + 1) ->
  JSDate.YearFromDay d = y.
Proof.
  intros H. pose proof (YearFromDay_spec d) as Hs.
  set (y' := JSDate.YearFromDay d) in *.
  destruct (Z.lt_trichotomy y' y) as [L|[E|G]]; [| exact E |].
  - pose proof (DayFromYear_mono (y' + 1) y ltac:(lia)). lia.
  - pose proof (DayFromYear_mono (y + 1) y' ltac:(lia)). lia.
Qed.

Lemma DayWithinYear_range (t : Z) :
  0 <= JSDate.DayWithinYear t < 365 + JSDate.InLeapYear t.
Proof.
  unfold JSDate.DayWithinYear, JSDate.InLeapYear, JSDate.YearFromTime.
  pose proof (YearFromDay_spec (JSDate.Day t)) as Hs.
  rewrite DayFromYear_step, DaysInYear_LeapOf in Hs. lia.
Qed.

Lemma MonthOfYearDay_range (d L : Z) : 0 <= JSDate.MonthOfYearDay d L <= 11.
Proof.
  unfold JSDate.MonthOfYearDay.
  repeat match goal with |- context [if ?c then _ else _] => destruct c end; lia.
Qed.

Lemma DateOfYearDay_range (d L : Z) :
  (L = 0 \/ L = 1) -> 0 <= d < 365 + L ->
  1 <= JSDate.DateOfYearDay d L <= 31.
Proof.
  intros HL Hd. unfold JSDate.DateOfYearDay, JSDate.MonthOfYearDay.
  repeat match goal with
         | |- context [if ?a <? ?b then _ else _] => destruct (Z.ltb_spec a b)
         end; lia.
Qed.

(** The day of the month is a day of the month. *)
Lemma DateFromTime_range (t : Z) : 1 <= JSDate.DateFromTime t <= 31.
Proof.
  unfold JSDate.DateFromTime. apply DateOfYearDay_range.
  - apply LeapOf_cases.
  - apply DayWithinYear_range.
Qed.

Lemma Day_MakeDate (d : Z) : JSDate.Day (JSDate.MakeDate d 0) = d.
Proof.
  unfold JSDate.Day, JSDate.MakeDate, JSDate.msPerDay.
  rewrite Z.add_0_r. apply Z.div_mul. lia.
Qed.

Lemma LocalTime_UTC (tz t : Z) : JSDate.LocalTime tz (JSDate.UTC tz t) = t.
Proof. unfold JSDate.LocalTime, JSDate.UTC. lia. Qed.

(** The zone drops out of [new Date(y, m, 0).getDate()]. *)
Lemma getDate_fromFields (tz y m : Z) :
  JSDate.getDate tz (JSDate.fromFields tz y m 0)
  = lastDate (if (0 <=? y) && (y <=? 99) then 1900 + y else y) m.
Proof.
  unfold JSDate.getDate, JSDate.fromFields. rewrite LocalTime_UTC.
  unfold JSDate.DateFromTime, JSDate.DayWithinYear, JSDate.InLeapYear,
    JSDate.YearFromTime.
  rewrite Day_MakeDate. unfold lastDate. cbv zeta. reflexivity.
Qed.

Lemma MakeDay_in_year (y m : Z) :
  1 <= m <= 11 ->
  JSDate.MakeDay y m 0
  = JSDate.DayFromYear y + JSDate.DaysBeforeMonth (JSDate.LeapOf y) m - 1.
Proof.
  intros Hm. unfold JSDate.MakeDay.
  rewrite Z.div_small, Z.mod_small by lia.
  replace (y + 0) with y by lia. lia.
Qed.

Lemma MakeDay_december (y : Z) :
  JSDate.MakeDay y 12 0 = JSDate.DayFromYear (y + 1) - 1.
Proof.
  unfold JSDate.MakeDay. change (12 / 12) with 1. change (12 mod 12) with 0.
  cbn [JSDate.DaysBeforeMonth]. lia.
Qed.

Lemma month_1_to_11 (m : Z) :
  1 <= m <= 11 ->
  m = 1 \/ m = 2 \/ m = 3 \/ m = 4 \/ m = 5 \/ m = 6 \/ m = 7 \/ m = 8
  \/ m = 9 \/ m = 10 \/ m = 11.
Proof. lia. Qed.

Lemma DaysBeforeMonth_bounds (L m : Z) :
  (L = 0 \/ L = 1) -> 1 <= m <= 11 ->
  31 <= JSDate.DaysBeforeMonth L m <= 334 + L.
Proof.
  intros HL Hm. apply month_1_to_11 in Hm.
  repeat (destruct Hm as [-> | Hm]); try subst m;
    cbn [JSDate.DaysBeforeMonth]; lia.
Qed.

(** Day 0 of the month after month [m] is the last day of month [m]. *)
Lemma lastDate_calendar (y m : Z) :
  1 <= m <= 12 -> lastDate y m = calendarDaysInMonth y m.
Proof.
  intros Hm. unfold lastDate. cbv zeta.
  pose proof (DayFromYear_step y) as Hstep. rewrite DaysInYear_LeapOf in Hstep.
  destruct (Z.eq_dec m 12) as [->|Hne].
  - rewrite MakeDay_december.
    rewrite (YearFromDay_unique _ y)
      by (destruct (LeapOf_cases y); lia).
    replace (JSDate.DayFromYear (y + 1) - 1 - JSDate.DayFromYear y)
      with (364 + JSDate.LeapOf y) by lia.
    destruct (LeapOf_cases y) as [->| ->]; reflexivity.
  - assert (Hm' : 1 <= m <= 11) by lia.
    rewrite MakeDay_in_year by exact Hm'.
    pose proof (DaysBeforeMonth_bounds (JSDate.LeapOf y) m (LeapOf_cases y) Hm').
    rewrite (YearFromDay_unique _ y) by lia.
    replace (JSDate.DayFromYear y + JSDate.DaysBeforeMonth (JSDate.LeapOf y) m - 1
             - JSDate.DayFromYear y)
      with (JSDate.DaysBeforeMonth (JSDate.LeapOf y) m - 1) by lia.
    unfold calendarDaysInMonth. rewrite LeapOf_isLeapYear.
    apply month_1_to_11 in Hm'.
    destruct (isLeapYear y);
      repeat (destruct Hm' as [-> | Hm']); try subst m; reflexivity.
Qed.

(** The years 1 to 99, which [Date] reads as 1901 to 1999, have the leap
    years of 1901 to 1999. *)
Lemma isLeapYear_1900 (y : Z) :
  1 <= y <= 99 -> isLeapYear (1900 + y) = isLeapYear y.
Proof.
  intros Hy. unfold isLeapYear.
  destruct (Z.eqb_spec ((1900 + y) mod 4) 0);
    destruct (Z.eqb_spec ((1900 + y) mod 100) 0);
    destruct (Z.eqb_spec ((1900 + y) mod 400) 0);
    destruct (Z.eqb_spec (y mod 4) 0);
    destruct (Z.eqb_spec (y mod 100) 0);
    destruct (Z.eqb_spec (y mod 400) 0);
    try reflexivity; exfalso; Z.div_mod_to_equations; lia.
Qed.

(** [new Date(y, m, 0).getDate()] is the length of month [m] of year [y],
    in every zone, from the year 1 on. *)
Lemma getDate_last_day (tz y m : Z) :
  1 <= y -> 1 <= m <= 12 ->
  JSDate.getDate tz (JSDate.fromFields tz y m 0) = calendarDaysInMonth y m.
Proof.
  intros Hy Hm. rewrite getDate_fromFields, lastDate_calendar by exact Hm.
  destruct ((0 <=? y) && (y <=? 99)) eqn:E; [| reflexivity].
  apply andb_true_iff in E. destruct E as [_ E2]. apply Z.leb_le in E2.
  unfold calendarDaysInMonth. now rewrite isLeapYear_1900 by lia.
Qed.

(** ** Period keys *)

Lemma string_length_app (s r : string) :
  String.length (s ++ r) = (String.length s + String.length r)%nat.
Proof.
  induction s as [|c s IH]; simpl; [reflexivity | now rewrite IH].
Qed.

Lemma substring_0_0 (s : string) : String.substring 0 0 s = "".
Proof. destruct s; reflexivity. Qed.

Lemma substring_app_head (s r : string) :
  String.substring 0 (String.length s) (s ++ r) = s.
Proof.
  induction s as [|c s IH]; simpl.
  - apply substring_0_0.
  - now rewrite IH.
Qed.

Lemma substring_app_skip (s r : string) (n k : nat) :
  String.substring (String.length s + n) k (s ++ r) = String.substring n k r.
Proof.
  induction s as [|c s IH]; simpl; [reflexivity | exact IH].
Qed.

Lemma string_app_nil (s : string) : s ++ "" = s.
Proof.
  induction s as [|c s IH]; simpl; [reflexivity | now rewrite IH].
Qed.

Lemma yearDigits_table : forallb yearDigitsCheck (Zrange 0 (Z.to_nat 10000)) = true.
Proof. vm_compute. reflexivity. Qed.

Lemma monthDigits_table : forallb monthDigitsCheck (Zrange 0 100) = true.
Proof. vm_compute. reflexivity. Qed.

Lemma yearDigits (y : Z) :
  0 <= y <= 9999 ->
  String.length (JSDate.pad 4 y) = 4%nat
  /\ JS.all_digits (JSDate.pad 4 y) = true
  /\ JS.digits_value 0 (JSDate.pad 4 y) = y.
Proof.
  intros Hy. pose proof yearDigits_table as Ht.
  rewrite forallb_forall in Ht.
  specialize (Ht y (Zrange_In (Z.to_nat 10000) 0 y ltac:(lia))).
  unfold yearDigitsCheck in Ht.
  apply andb_true_iff in Ht. destruct Ht as [Ht H3].
  apply andb_true_iff in Ht. destruct Ht as [H1 H2].
  apply Nat.eqb_eq in H1. apply Z.eqb_eq in H3. auto.
Qed.

Lemma monthDigits (m : Z) :
  0 <= m <= 99 ->
  String.length (JSDate.pad 2 m) = 2%nat
  /\ JS.all_digits (JSDate.pad 2 m) = true
  /\ JS.digits_value 0 (JSDate.pad 2 m) = m.
Proof.
  intros Hm. pose proof monthDigits_table as Ht.
  rewrite forallb_forall in Ht.
  specialize (Ht m (Zrange_In 100 0 m ltac:(lia))).
  unfold monthDigitsCheck in Ht.
  apply andb_true_iff in Ht. destruct Ht as [Ht H3].
  apply andb_true_iff in Ht. destruct Ht as [H1 H2].
  apply Nat.eqb_eq in H1. apply Z.eqb_eq in H3. auto.
Qed.

(** [Number] reads back a string of digits that does not begin with a
    sign. *)
Lemma Number_digits (s : string) :
  JS.all_digits s = true -> JS.Number s = Some (JS.digits_value 0 s).
Proof.
  intros Hd. destruct s as [|c r]; [reflexivity |].
  unfold JS.Number.
  destruct (Ascii.eqb c "+") eqn:Ep.
  - apply Ascii.eqb_eq in Ep. subst c. discriminate Hd.
  - destruct (Ascii.eqb c "-") eqn:Em.
    + apply Ascii.eqb_eq in Em. subst c. discriminate Hd.
    + now rewrite Hd.
Qed.

Lemma ymKey_year (y m : Z) :
  0 <= y <= 9999 -> JS.Number (JS.slice 0 4 (ymKey y m)) = Some y.
Proof.
  intros Hy. destruct (yearDigits y Hy) as (Hl & Hd & Hv).
  unfold JS.slice, ymKey. change (4 - 0)%nat with 4%nat.
  set (yy := JSDate.pad 4 y) in *.
  replace 4%nat with (String.length yy) by exact Hl.
  rewrite substring_app_head.
  rewrite Number_digits by assumption. now rewrite Hv.
Qed.

Lemma ymKey_month (y m : Z) :
  0 <= y <= 9999 -> 0 <= m <= 99 ->
  JS.Number (JS.slice 5 7 (ymKey y m)) = Some m.
Proof.
  intros Hy Hm. destruct (yearDigits y Hy) as (Hl & _ & _).
  destruct (monthDigits m Hm) as (Hl2 & Hd & Hv).
  unfold JS.slice, ymKey. change (7 - 5)%nat with 2%nat.
  set (yy := JSDate.pad 4 y) in *. set (mm := JSDate.pad 2 m) in *.
  replace 5%nat with (String.length yy + 1)%nat by (rewrite Hl; reflexivity).
  rewrite substring_app_skip.
  change (String.substring 1 2 ("-" ++ mm)) with (String.substring 0 2 mm).
  replace (String.substring 0 2 mm)
    with (String.substring 0 (String.length mm) (mm ++ ""))
    by (rewrite Hl2, string_app_nil; reflexivity).
  rewrite substring_app_head.
  rewrite Number_digits by assumption. now rewrite Hv.
Qed.

Lemma ymKey_length (y m : Z) :
  0 <= y <= 9999 -> 0 <= m <= 99 -> String.length (ymKey y m) = 7%nat.
Proof.
  intros Hy Hm. destruct (yearDigits y Hy) as (Hl & _ & _).
  destruct (monthDigits m Hm) as (Hl2 & _ & _).
  unfold ymKey. rewrite !string_length_app. simpl String.length. lia.
Qed.

Lemma ymKey_not_all (y m : Z) :
  0 <= y <= 9999 -> 0 <= m <= 99 -> String.eqb (ymKey y m) "all" = false.
Proof.
  intros Hy Hm. apply String.eqb_neq. intros E.
  pose proof (ymKey_length y m Hy Hm) as Hl. rewrite E in Hl. discriminate Hl.
Qed.

Lemma daysInSelectedMonth_ymKey (tz y m : Z) :
  1 <= y <= 9999 -> 1 <= m <= 12 ->
  daysInSelectedMonth tz (ymKey y m) = Some (calendarDaysInMonth y m).
Proof.
  intros Hy Hm. unfold daysInSelectedMonth.
  rewrite ymKey_year by lia. rewrite ymKey_month by lia.
  unfold lastDayOf. rewrite getDate_last_day by lia. reflexivity.
Qed.

(** ** The ledger holds expenses only *)

Lemma filter_all {A : Type} (f : A -> bool) (l : list A) :
  Forall (fun x => f x = true) l -> filter f l = l.
Proof.
  induction 1 as [|x l Hx _ IH]; simpl; [reflexivity | now rewrite Hx, IH].
Qed.

Lemma Forall_filter_keep {A : Type} (P : A -> Prop) (f : A -> bool) (l : list A) :
  Forall P l -> Forall P (filter f l).
Proof.
  induction 1 as [|x l Hx _ IH]; simpl; [constructor |].
  destruct (f x); [now constructor | exact IH].
Qed.

Lemma Forall_flat_map_intro {A B : Type} (P : B -> Prop) (f : A -> list B)
    (l : list A) :
  (forall a, Forall P (f a)) -> Forall P (flat_map f l).
Proof.
  intros H. induction l as [|a l IH]; simpl; [constructor |].
  apply Forall_app. split; [apply H | exact IH].
Qed.

Lemma Forall_map_intro {A B : Type} (P : B -> Prop) (f : A -> B) (l : list A) :
  Forall (fun a => P (f a)) l -> Forall P (map f l).
Proof.
  induction 1; simpl; constructor; assumption.
Qed.

Lemma filter_holds {A : Type} (f : A -> bool) (l : list A) :
  Forall (fun x => f x = true) (filter f l).
Proof.
  induction l as [|x l IH]; simpl; [constructor |].
  destruct (f x) eqn:E; [now constructor | exact IH].
Qed.

Lemma allExpenses_remove (st : AppState) :
  Forall (fun e => is_remove e = true) (allExpenses st).
Proof.
  unfold allExpenses. repeat (apply Forall_app; split).
  - unfold archiveExpenses. apply Forall_flat_map_intro. intros a. apply filter_holds.
  - unfold fundExpenses. apply Forall_map_intro.
    apply (Forall_impl _ (P := fun x => is_remove x = true));
      [intros x Hx; exact Hx | apply filter_holds].
  - unfold budgetExpenses. apply Forall_flat_map_intro. intros b.
    apply Forall_map_intro. apply Forall_forall. reflexivity.
  - unfold dailyExpensesTagged. apply Forall_map_intro. apply Forall_forall. reflexivity.
Qed.

Lemma ledgerFor_remove (st : AppState) (sel : string) :
  Forall (fun e => is_remove e = true) (ledgerFor st sel).
Proof.
  unfold ledgerFor, filteredExpenses.
  destruct (String.eqb sel "all");
    [| apply Forall_filter_keep]; apply allExpenses_remove.
Qed.

(** ** Categorical aggregator *)

(** C4, at the failing input: the ledger of April 2024 holds 5,000 under
    the category "constructor" and 20,000 under "Makanan".  The dictionary
    inherits a property [constructor], so the loop does not start that
    category at 0 and appends the digits of 5000 to the text of the
    inherited function: the entry of the category is a string, and the
    totals that are numbers add up to 20,000, not to 25,000. *)
Lemma pieChartData_loses_inherited_category :
  map (fun e => (category e, amount e)) (ledgerFor constructorState "2024-04")
  = [(Some "constructor", 5000); (Some "Makanan", 20000)]
  /\ pieChartData (ledgerFor constructorState "2024-04")
     = [ {| pie_name := "constructor";
            value := Obj.Str "function Object() { [native code] }5000" |};
         {| pie_name := "Makanan"; value := Obj.Num 20000 |} ]
  /\ valuesSum (pieChartData (ledgerFor constructorState "2024-04")) = None
  /\ sumZ (map amount (ledgerFor constructorState "2024-04")) = 25000.
Proof.
  repeat split; vm_compute; reflexivity.
Qed.

(** ** Budget comparator *)

(** C6, at the failing input: the budget "constructor" of 100,000.  In
    April 2024, where 5,000 were spent on it, its row carries a string as
    the actual spend; in March 2024, where nothing was spent, its row
    carries the inherited function, not 0. *)
Lemma budgetComparisonData_inherited_name :
  budgetComparisonData (ledgerFor constructorState "2024-04")
    (budgets constructorState)
  = [ {| cmp_name := "constructor"; Dianggarkan := 100000;
         Terpakai := Obj.Prim (Obj.Str "function Object() { [native code] }5000") |} ]
  /\ ledgerFor constructorState "2024-03" = []
  /\ budgetComparisonData (ledgerFor constructorState "2024-03")
       (budgets constructorState)
     = [ {| cmp_name := "constructor"; Dianggarkan := 100000;
            Terpakai := Obj.Inherited "constructor" |} ].
Proof.
  repeat split; vm_compute; reflexivity.
Qed.

(** ** The sentinel period *)

(** C9. For every ledger and every fund history, the period "all" gives an
    empty daily trend and a total income of 0, whatever the fund history
    holds. *)
Theorem all_period_not_applicable (tz : Z) (filtered fundHist : list GlobalTransaction) :
  trendData tz "all" filtered = []
  /\ totalIncomeForMonth fundHist "all" = 0.
Proof.
  split; reflexivity.
Qed.

(** ** Daily trend builder *)

Lemma hasChar_app (c : ascii) (a b : string) :
  hasChar c (a ++ b) = hasChar c a || hasChar c b.
Proof.
  induction a as [|x a IH]; simpl; [reflexivity |].
  now rewrite IH, orb_assoc.
Qed.

Lemma inherited_no_dash (k : string) :
  Obj.inherited k = true -> hasChar "-" k = false.
Proof.
  unfold Obj.inherited. intros H. apply orb_true_iff in H.
  destruct H as [H|H].
  - apply String.eqb_eq in H. now subst k.
  - apply existsb_exists in H. destruct H as (n & Hn & E).
    apply String.eqb_eq in E. subst n.
    repeat (destruct Hn as [<-|Hn]; [reflexivity |]). destruct Hn.
Qed.

(** The key of a day of the series is never the name of an inherited
    property: it holds a hyphen. *)
Lemma trendDateStr_plain (selectedMonth : string) (i : Z) :
  Obj.inherited (trendDateStr selectedMonth i) = false.
Proof.
  destruct (Obj.inherited (trendDateStr selectedMonth i)) eqn:E; [| reflexivity].
  apply inherited_no_dash in E. unfold trendDateStr in E.
  rewrite !hasChar_app in E. cbn [hasChar Ascii.eqb] in E.
  rewrite orb_true_r in E. discriminate E.
Qed.

Lemma trendData_entries (tz : Z) (selectedMonth : string)
    (filtered : list GlobalTransaction) :
  String.eqb selectedMonth "all" = false ->
  trendData tz selectedMonth filtered
  = map (fun i => {| day := JS.toString i;
                     total := Obj.Prim (Obj.Num
                                (totalFor (localDateKey tz)
                                   (trendDateStr selectedMonth i) filtered)) |})
        (loop_1_to (daysInSelectedMonth tz selectedMonth)).
Proof.
  intros Hne. unfold trendData. rewrite Hne.
  apply map_ext. intros i.
  now rewrite (groupTotals_or0 (localDateKey tz) filtered _
                 (trendDateStr_plain selectedMonth i)).
Qed.

Lemma totalsSum_numbers {A : Type} (f : A -> string) (g : A -> Z) (l : list A) :
  totalsSum (map (fun i => {| day := f i; total := Obj.Prim (Obj.Num (g i)) |}) l)
  = Some (sumZ (map g l)).
Proof.
  unfold totalsSum, sumZ. induction l as [|x l IH]; [reflexivity |].
  cbn [map sumNumbers fold_right total valueNumber primNumber] in *.
  now rewrite IH.
Qed.

Lemma Zrange_seq (a : nat) (n : nat) :
  map Z.of_nat (seq a n) = Zrange (Z.of_nat a) n.
Proof.
  revert a; induction n as [|n IH]; intros a; simpl; [reflexivity |].
  f_equal. rewrite IH. f_equal. lia.
Qed.

Lemma Zrange_length (a : Z) (n : nat) : List.length (Zrange a n) = n.
Proof.
  revert a; induction n as [|n IH]; intros a; simpl; [reflexivity | now rewrite IH].
Qed.

(** ** Click-to-detail query *)

Lemma StronglySorted_weaken {A : Type} (R R' : A -> A -> Prop) (l : list A) :
  (forall a b, R a b -> R' a b) -> StronglySorted R l -> StronglySorted R' l.
Proof.
  intros Hw. induction 1 as [|a l Hs IH Hall]; constructor.
  - exact IH.
  - eapply Forall_impl; [| exact Hall]. intros b. apply Hw.
Qed.

Lemma byAmountDesc_total (a b : GlobalTransaction) :
  byAmountDesc a b = true \/ byAmountDesc b a = true.
Proof.
  unfold byAmountDesc.
  destruct (Z.leb_spec (amount b - amount a) 0); [now left | right].
  apply Z.leb_le. lia.
Qed.

Lemma sorted_by_amount (l : list GlobalTransaction) :
  StronglySorted (fun a b => amount b <= amount a) (stable_sort byAmountDesc l).
Proof.
  apply (StronglySorted_weaken (fun a b => byAmountDesc a b = true)).
  - intros a b H. unfold byAmountDesc in H. apply Z.leb_le in H. lia.
  - apply Sorted_StronglySorted.
    + intros a b c Hab Hbc. unfold byAmountDesc in *.
      apply Z.leb_le in Hab, Hbc. apply Z.leb_le. lia.
    + apply stable_sort_Sorted. exact byAmountDesc_total.
Qed.

(** The resolver of the aggregators and of the detail query reads the
    category field, and takes the fallback label for a missing or empty
    one. *)
Lemma categoryOf_resolved (e : GlobalTransaction) :
  categoryOf e = resolvedCategory e.
Proof.
  unfold categoryOf, JS.str_or, resolvedCategory, fallbackLabel.
  destruct (category e) as [c|]; reflexivity.
Qed.

Lemma filter_categoryOf (c : string) (l : list GlobalTransaction) :
  filter (fun e => String.eqb (categoryOf e) c) l = filter (inCategory c) l.
Proof.
  apply filter_ext. intros e. unfold inCategory. now rewrite categoryOf_resolved.
Qed.

(** C8. For every category name and every filtered expense set, the
    click-to-detail query returns the filtered records whose category
    field is that name, or is missing or empty when the name is the
    fallback label: each such record as often as it occurs and no other
    record, ordered by amount from the largest down; when no record
    matches, the list is empty. *)
Theorem handlePieClick_detail (filtered : list GlobalTransaction) (d : PieEntry) :
  pie_name d <> "" ->
  exists txs,
    handlePieClick filtered (Some d)
    = Some {| detail_category := pie_name d; detail_transactions := txs |}
    /\ Permutation txs (filter (inCategory (pie_name d)) filtered)
    /\ (forall e, In e txs <->
                  In e filtered
                  /\ (category e = Some (pie_name d)
                      \/ (pie_name d = fallbackLabel
                          /\ (category e = None \/ category e = Some ""))))
    /\ StronglySorted (fun a b => amount b <= amount a) txs
    /\ (Forall (fun e => resolvedCategory e <> pie_name d) filtered -> txs = []).
Proof.
  intros Hname.
  exists (stable_sort byAmountDesc (filter (inCategory (pie_name d)) filtered)).
  split; [| split; [| split; [| split]]].
  - unfold handlePieClick. apply String.eqb_neq in Hname. rewrite Hname.
    cbv zeta. now rewrite filter_categoryOf.
  - apply stable_sort_perm.
  - intros e. split.
    + intros He. apply (Permutation_in _ (stable_sort_perm _ _)) in He.
      apply filter_In in He. destruct He as (Hin & Hc). split; [exact Hin |].
      unfold inCategory, resolvedCategory in Hc. apply String.eqb_eq in Hc.
      destruct (category e) as [c|]; [| right; split; [now symmetry | now left]].
      destruct (String.eqb_spec c "") as [E|Hne].
      * right. split; [now symmetry | right; now rewrite E].
      * left. now rewrite Hc.
    + intros (Hin & Hc).
      apply (Permutation_in _ (Permutation_sym (stable_sort_perm _ _))).
      apply filter_In. split; [exact Hin |].
      unfold inCategory, resolvedCategory. apply String.eqb_eq.
      destruct Hc as [Hc|(Hf & [Hc|Hc])]; rewrite Hc.
      * apply String.eqb_neq in Hname. now rewrite Hname.
      * now symmetry.
      * now symmetry.
  - apply sorted_by_amount.
  - intros Hnone.
    replace (filter (inCategory (pie_name d)) filtered) with (@nil GlobalTransaction);
      [reflexivity |].
    symmetry. induction Hnone as [|e l He _ IH]; [reflexivity |].
    cbn [filter]. unfold inCategory at 1.
    apply String.eqb_neq in He. now rewrite He.
Qed.

(** ** Period selector: the options *)

Lemma has_In (x : string) (s : StrSet.t) : StrSet.has x s = true <-> In x s.
Proof.
  unfold StrSet.has. rewrite existsb_exists. split.
  - intros (y & Hy & E). apply String.eqb_eq in E. now subst y.
  - intros H. exists x. split; [exact H | apply String.eqb_refl].
Qed.

Lemma add_In (x y : string) (s : StrSet.t) :
  In y (StrSet.add x s) <-> y = x \/ In y s.
Proof.
  unfold StrSet.add. destruct (StrSet.has x s) eqn:E.
  - apply has_In in E. split; [now right | intros [->|H]; assumption].
  - rewrite in_app_iff. simpl. intuition congruence.
Qed.

Lemma add_NoDup (x : string) (s : StrSet.t) : NoDup s -> NoDup (StrSet.add x s).
Proof.
  intros Hs. unfold StrSet.add. destruct (StrSet.has x s) eqn:E; [exact Hs |].
  assert (Hx : ~ In x s) by (intros H; apply has_In in H; congruence).
  apply NoDup_rev in Hs.
  rewrite <- (rev_involutive (s ++ [x])). apply NoDup_rev.
  rewrite rev_app_distr. simpl. constructor; [| exact Hs].
  now rewrite <- in_rev.
Qed.

Lemma fold_add_In (l : list string) (s : StrSet.t) (y : string) :
  In y (fold_left (fun s x => StrSet.add x s) l s) <-> In y s \/ In y l.
Proof.
  revert s; induction l as [|x l IH]; intros s; simpl.
  - tauto.
  - rewrite IH, add_In. intuition congruence.
Qed.

Lemma fold_add_NoDup (l : list string) (s : StrSet.t) :
  NoDup s -> NoDup (fold_left (fun s x => StrSet.add x s) l s).
Proof.
  revert s; induction l as [|x l IH]; intros s Hs; simpl.
  - exact Hs.
  - apply IH. now apply add_NoDup.
Qed.

Lemma of_list_In (l : list string) (y : string) : In y (StrSet.of_list l) <-> In y l.
Proof.
  unfold StrSet.of_list. rewrite fold_add_In. simpl. tauto.
Qed.

Lemma of_list_NoDup (l : list string) : NoDup (StrSet.of_list l).
Proof.
  apply fold_add_NoDup. constructor.
Qed.

(** ** The order of strings *)

Lemma ascii_compare_Z (a b : ascii) :
  Ascii.compare a b = (Z.of_N (N_of_ascii a) ?= Z.of_N (N_of_ascii b)).
Proof.
  unfold Ascii.compare. now rewrite N2Z.inj_compare.
Qed.

Lemma string_compare_refl (s : string) : String.compare s s = Eq.
Proof.
  induction s as [|c s IH]; simpl; [reflexivity |].
  rewrite ascii_compare_Z, Z.compare_refl. exact IH.
Qed.

Lemma string_compare_lt_trans (a b c : string) :
  String.compare a b = Lt -> String.compare b c = Lt -> String.compare a c = Lt.
Proof.
  revert b c; induction a as [|x a IH]; intros [|y b] [|z c]; simpl;
    try congruence.
  rewrite !ascii_compare_Z.
  destruct (Z.compare_spec (Z.of_N (N_of_ascii x)) (Z.of_N (N_of_ascii y)));
    destruct (Z.compare_spec (Z.of_N (N_of_ascii y)) (Z.of_N (N_of_ascii z)));
    destruct (Z.compare_spec (Z.of_N (N_of_ascii x)) (Z.of_N (N_of_ascii z)));
    try congruence; try lia.
  apply IH.
Qed.

Lemma string_ltb_lt (a b : string) :
  String.ltb a b = true <-> String.compare a b = Lt.
Proof.
  unfold String.ltb. destruct (String.compare a b); split; congruence.
Qed.

Lemma string_leb_cases (a b : string) :
  String.leb a b = true <-> a = b \/ String.compare a b = Lt.
Proof.
  unfold String.leb. destruct (String.compare a b) eqn:E; split;
    try congruence; auto.
  - intros _. left. now apply String.compare_eq_iff.
  - intros [->|H]; [| discriminate H]. rewrite string_compare_refl in E. discriminate E.
Qed.

Lemma string_leb_trans (a b c : string) :
  String.leb a b = true -> String.leb b c = true -> String.leb a c = true.
Proof.
  rewrite !string_leb_cases. intros [->|H1] [->|H2]; auto.
  right. eapply string_compare_lt_trans; eassumption.
Qed.

(** A sorted list without repetition is strictly sorted. *)
Lemma strictly_sorted (l : list string) :
  StronglySorted (fun a b => String.leb a b = true) l -> NoDup l ->
  StronglySorted (fun a b => String.ltb a b = true) l.
Proof.
  induction 1 as [|a l Hs IH Hall]; intros Hnd; constructor.
  - apply IH. now inversion Hnd.
  - inversion Hnd as [|? ? Hnotin _]; subst.
    rewrite Forall_forall in *. intros b Hb.
    apply string_ltb_lt. specialize (Hall b Hb).
    apply string_leb_cases in Hall. destruct Hall as [->|H]; [contradiction | exact H].
Qed.

Lemma StronglySorted_snoc {A : Type} (R : A -> A -> Prop) (l : list A) (x : A) :
  StronglySorted R l -> Forall (fun y => R y x) l -> StronglySorted R (l ++ [x]).
Proof.
  induction 1 as [|a l Hs IH Hall]; intros Hx; simpl.
  - repeat constructor.
  - inversion Hx; subst. constructor.
    + now apply IH.
    + apply Forall_app. split; [exact Hall | now repeat constructor].
Qed.

Lemma StronglySorted_rev {A : Type} (R : A -> A -> Prop) (l : list A) :
  StronglySorted R l -> StronglySorted (fun a b => R b a) (rev l).
Proof.
  induction 1 as [|a l Hs IH Hall]; simpl.
  - constructor.
  - apply StronglySorted_snoc; [exact IH |].
    apply Forall_forall. intros y Hy. apply in_rev in Hy.
    rewrite Forall_forall in Hall. now apply Hall.
Qed.

(** The default sort puts distinct strings in strictly ascending order. *)
Lemma sort_strings_strict (l : list string) :
  NoDup l -> StronglySorted (fun a b => String.ltb a b = true)
               (stable_sort String.leb l).
Proof.
  intros Hnd. apply strictly_sorted.
  - apply Sorted_StronglySorted.
    + intros a b c. apply string_leb_trans.
    + apply stable_sort_Sorted. exact String.leb_total.
  - eapply Permutation_NoDup; [| exact Hnd].
    symmetry. apply stable_sort_perm.
Qed.

(** ** The order of month keys is the order of months *)

Lemma digits_value_acc (s : string) (acc : Z) :
  JS.digits_value acc s
  = acc * 10 ^ Z.of_nat (String.length s) + JS.digits_value 0 s.
Proof.
  revert acc; induction s as [|c s IH]; intros acc.
  - simpl. lia.
  - cbn [JS.digits_value String.length].
    rewrite IH. rewrite (IH (10 * 0 + _)).
    rewrite Nat2Z.inj_succ, Z.pow_succ_r by lia. ring.
Qed.

Lemma digit_range (c : ascii) :
  JS.is_digit c = true -> 0 <= Z.of_nat (nat_of_ascii c) - 48 <= 9.
Proof.
  unfold JS.is_digit. intros H. apply andb_true_iff in H. destruct H as [H1 H2].
  apply Nat.leb_le in H1, H2. lia.
Qed.

Lemma digits_value_bound (s : string) :
  JS.all_digits s = true ->
  0 <= JS.digits_value 0 s < 10 ^ Z.of_nat (String.length s).
Proof.
  induction s as [|c s IH]; intros Hd.
  - simpl. lia.
  - cbn [JS.all_digits] in Hd. apply andb_true_iff in Hd. destruct Hd as [Hc Hs].
    cbn [JS.digits_value String.length].
    rewrite digits_value_acc. specialize (IH Hs). pose proof (digit_range c Hc).
    rewrite Nat2Z.inj_succ, Z.pow_succ_r by lia.
    nia.
Qed.

Lemma digits_compare (s1 s2 : string) :
  String.length s1 = String.length s2 ->
  JS.all_digits s1 = true -> JS.all_digits s2 = true ->
  String.compare s1 s2 = (JS.digits_value 0 s1 ?= JS.digits_value 0 s2).
Proof.
  revert s2; induction s1 as [|c1 s1 IH]; intros [|c2 s2] Hl H1 H2;
    try discriminate Hl.
  - reflexivity.
  - cbn [JS.all_digits] in H1, H2.
    apply andb_true_iff in H1, H2. destruct H1 as [Hc1 Hs1], H2 as [Hc2 Hs2].
    injection Hl as Hl.
    cbn [String.compare JS.digits_value].
    rewrite (digits_value_acc s1), (digits_value_acc s2), <- Hl.
    pose proof (digits_value_bound s1 Hs1) as B1.
    pose proof (digits_value_bound s2 Hs2) as B2. rewrite <- Hl in B2.
    rewrite ascii_compare_Z, <- !N_nat_Z.
    change (N.to_nat (N_of_ascii c1)) with (nat_of_ascii c1).
    change (N.to_nat (N_of_ascii c2)) with (nat_of_ascii c2).
    set (d1 := Z.of_nat (nat_of_ascii c1)). set (d2 := Z.of_nat (nat_of_ascii c2)).
    set (P := 10 ^ Z.of_nat (String.length s1)) in *.
    destruct (Z.compare_spec d1 d2) as [E|L|G].
    + rewrite E, Z.add_compare_mono_l. now apply IH.
    + symmetry. apply Z.compare_lt_iff. nia.
    + symmetry. apply Z.compare_gt_iff. nia.
Qed.

Lemma string_compare_app (a a' r r' : string) :
  String.length a = String.length a' ->
  String.compare (a ++ r) (a' ++ r')
  = match String.compare a a' with
    | Eq => String.compare r r'
    | c => c
    end.
Proof.
  revert a'; induction a as [|x a IH]; intros [|y a'] Hl; try discriminate Hl.
  - reflexivity.
  - injection Hl as Hl. simpl. destruct (Ascii.compare x y); auto.
Qed.

Lemma string_app_assoc (a b c : string) : (a ++ b) ++ c = a ++ b ++ c.
Proof.
  induction a as [|x a IH]; simpl; [reflexivity | now rewrite IH].
Qed.

Lemma ymKey_compare (y1 m1 y2 m2 : Z) :
  0 <= y1 <= 9999 -> 0 <= y2 <= 9999 -> 0 <= m1 <= 99 -> 0 <= m2 <= 99 ->
  String.compare (ymKey y1 m1) (ymKey y2 m2)
  = match y1 ?= y2 with
    | Eq => m1 ?= m2
    | c => c
    end.
Proof.
  intros Hy1 Hy2 Hm1 Hm2.
  destruct (yearDigits y1 Hy1) as (Ly1 & Dy1 & Vy1).
  destruct (yearDigits y2 Hy2) as (Ly2 & Dy2 & Vy2).
  destruct (monthDigits m1 Hm1) as (Lm1 & Dm1 & Vm1).
  destruct (monthDigits m2 Hm2) as (Lm2 & Dm2 & Vm2).
  unfold ymKey.
  rewrite string_compare_app by congruence.
  rewrite digits_compare by congruence. rewrite Vy1, Vy2.
  destruct (y1 ?= y2); try reflexivity.
  rewrite (string_compare_app "-" "-") by reflexivity.
  cbn [String.compare]. rewrite ascii_compare_Z, Z.compare_refl.
  rewrite digits_compare by congruence. now rewrite Vm1, Vm2.
Qed.

Lemma monthKey_ymKey (t : Z) :
  0 <= JSDate.YearFromTime t <= 9999 ->
  monthKey t = ymKey (JSDate.YearFromTime t) (JSDate.MonthFromTime t + 1).
Proof.
  intros Hy. unfold monthKey, JSDate.toISOString, JSDate.isoYear, JS.slice.
  replace ((0 <=? JSDate.YearFromTime t) && (JSDate.YearFromTime t <=? 9999))
    with true by (symmetry; apply andb_true_iff; split; apply Z.leb_le; lia).
  pose proof (MonthOfYearDay_range (JSDate.DayWithinYear t) (JSDate.InLeapYear t)) as Hm.
  fold (JSDate.MonthFromTime t) in Hm.
  pose proof (ymKey_length (JSDate.YearFromTime t) (JSDate.MonthFromTime t + 1)
                Hy ltac:(lia)) as Hl.
  change (7 - 0)%nat with 7%nat.
  set (rest := "-" ++ JSDate.pad 2 (JSDate.DateFromTime t) ++ _).
  replace (JSDate.pad 4 (JSDate.YearFromTime t) ++ "-"
           ++ JSDate.pad 2 (JSDate.MonthFromTime t + 1) ++ rest)
    with (ymKey (JSDate.YearFromTime t) (JSDate.MonthFromTime t + 1) ++ rest)
    by (unfold ymKey; now rewrite !string_app_assoc).
  rewrite <- Hl at 1. apply substring_app_head.
Qed.

Lemma monthKey_order (t1 t2 : Z) :
  0 <= JSDate.YearFromTime t1 <= 9999 -> 0 <= JSDate.YearFromTime t2 <= 9999 ->
  (String.ltb (monthKey t1) (monthKey t2) = true <-> monthIndex t1 < monthIndex t2).
Proof.
  intros H1 H2. rewrite !monthKey_ymKey by assumption.
  pose proof (MonthOfYearDay_range (JSDate.DayWithinYear t1) (JSDate.InLeapYear t1)) as M1.
  pose proof (MonthOfYearDay_range (JSDate.DayWithinYear t2) (JSDate.InLeapYear t2)) as M2.
  fold (JSDate.MonthFromTime t1) in M1. fold (JSDate.MonthFromTime t2) in M2.
  rewrite string_ltb_lt, ymKey_compare by lia.
  unfold monthIndex.
  destruct (Z.compare_spec (JSDate.YearFromTime t1) (JSDate.YearFromTime t2));
    [destruct (Z.compare_spec (JSDate.MonthFromTime t1 + 1) (JSDate.MonthFromTime t2 + 1)) | |];
    split; intros; try congruence; try lia.
Qed.

(** ** Date keys name calendar days *)

Lemma yearNumeric_table :
  forallb yearNumericCheck (Zrange 1000 (Z.to_nat 9000)) = true.
Proof. vm_compute. reflexivity. Qed.

Lemma toString_four_digits (y : Z) :
  1000 <= y <= 9999 -> JS.toString y = JSDate.pad 4 y.
Proof.
  intros Hy. pose proof yearNumeric_table as Ht.
  rewrite forallb_forall in Ht.
  specialize (Ht y (Zrange_In (Z.to_nat 9000) 1000 y ltac:(lia))).
  now apply String.eqb_eq in Ht.
Qed.

Lemma string_eqb_compare (a b : string) :
  String.eqb a b = match String.compare a b with Eq => true | _ => false end.
Proof.
  destruct (String.eqb_spec a b) as [->|Hne].
  - now rewrite string_compare_refl.
  - destruct (String.compare a b) eqn:E; try reflexivity.
    apply String.compare_eq_iff in E. contradiction.
Qed.

Lemma Z_eqb_compare (a b : Z) :
  (a =? b) = match a ?= b with Eq => true | _ => false end.
Proof.
  destruct (Z.eqb_spec a b) as [->|Hne].
  - now rewrite Z.compare_refl.
  - destruct (Z.compare_spec a b); try reflexivity. contradiction.
Qed.

Lemma dateKey_eqb (y1 m1 d1 y2 m2 d2 : Z) :
  0 <= y1 <= 9999 -> 0 <= y2 <= 9999 ->
  0 <= m1 <= 99 -> 0 <= m2 <= 99 -> 0 <= d1 <= 99 -> 0 <= d2 <= 99 ->
  String.eqb (dateKey y1 m1 d1) (dateKey y2 m2 d2)
  = (y1 =? y2) && (m1 =? m2) && (d1 =? d2).
Proof.
  intros Hy1 Hy2 Hm1 Hm2 Hd1 Hd2.
  destruct (monthDigits d1 Hd1) as (L1 & D1 & V1).
  destruct (monthDigits d2 Hd2) as (L2 & D2 & V2).
  rewrite string_eqb_compare, !Z_eqb_compare. unfold dateKey.
  rewrite string_compare_app by (rewrite !ymKey_length by assumption; reflexivity).
  rewrite ymKey_compare by assumption.
  destruct (y1 ?= y2); try reflexivity.
  destruct (m1 ?= m2); try reflexivity.
  rewrite (string_compare_app "-" "-") by reflexivity.
  cbn [String.compare]. rewrite ascii_compare_Z, Z.compare_refl.
  rewrite digits_compare by congruence. now rewrite V1, V2.
Qed.

Lemma trendDateStr_dateKey (y m i : Z) :
  trendDateStr (ymKey y m) i = dateKey y m i.
Proof. reflexivity. Qed.

Lemma localDateKey_dateKey (tz : Z) (e : GlobalTransaction) :
  1000 <= JSDate.getFullYear tz (timestamp e) <= 9999 ->
  localDateKey tz e
  = dateKey (JSDate.getFullYear tz (timestamp e))
            (JSDate.getMonth tz (timestamp e) + 1)
            (JSDate.getDate tz (timestamp e)).
Proof.
  intros Hy. unfold localDateKey, JSDate.toLocaleDateString_frCA. cbv zeta.
  fold (JSDate.getFullYear tz (timestamp e)).
  fold (JSDate.getMonth tz (timestamp e)).
  fold (JSDate.getDate tz (timestamp e)).
  replace (1 <=? JSDate.getFullYear tz (timestamp e)) with true
    by (symmetry; apply Z.leb_le; lia).
  rewrite toString_four_digits by exact Hy.
  unfold dateKey, ymKey. now rewrite !string_app_assoc.
Qed.

(** In the years of four digits, a record is filed under the key of a day
    exactly when it is dated on that day in local time. *)
Lemma localDateKey_onLocalDay (tz y m i : Z) (e : GlobalTransaction) :
  1000 <= JSDate.getFullYear tz (timestamp e) <= 9999 ->
  0 <= y <= 9999 -> 0 <= m <= 99 -> 0 <= i <= 99 ->
  String.eqb (localDateKey tz e) (trendDateStr (ymKey y m) i)
  = onLocalDay tz y m i e.
Proof.
  intros He Hy Hm Hi.
  rewrite localDateKey_dateKey by exact He. rewrite trendDateStr_dateKey.
  pose proof (MonthOfYearDay_range
                (JSDate.DayWithinYear (JSDate.LocalTime tz (timestamp e)))
                (JSDate.InLeapYear (JSDate.LocalTime tz (timestamp e)))) as HM.
  pose proof (DateFromTime_range (JSDate.LocalTime tz (timestamp e))) as HD.
  apply dateKey_eqb; try assumption; try lia.
  - unfold JSDate.getMonth, JSDate.MonthFromTime. lia.
  - unfold JSDate.getDate. lia.
Qed.

Lemma totalFor_onLocalDay (tz y m i : Z) (filtered : list GlobalTransaction) :
  Forall (fun e => 1000 <= JSDate.getFullYear tz (timestamp e) <= 9999) filtered ->
  0 <= y <= 9999 -> 0 <= m <= 99 -> 0 <= i <= 99 ->
  totalFor (localDateKey tz) (trendDateStr (ymKey y m) i) filtered
  = sumZ (map amount (filter (onLocalDay tz y m i) filtered)).
Proof.
  intros Hall Hy Hm Hi. unfold totalFor. do 2 f_equal.
  apply filter_ext_in. intros e He.
  rewrite Forall_forall in Hall.
  apply localDateKey_onLocalDay; auto.
Qed.

(** ** Daily trend builder: the series of a month *)

Lemma calendarDaysInMonth_bounds (y m : Z) :
  1 <= m <= 12 -> 28 <= calendarDaysInMonth y m <= 31.
Proof.
  intros Hm.
  assert (Hc : m = 1 \/ m = 2 \/ m = 3 \/ m = 4 \/ m = 5 \/ m = 6 \/ m = 7
               \/ m = 8 \/ m = 9 \/ m = 10 \/ m = 11 \/ m = 12) by lia.
  unfold calendarDaysInMonth.
  repeat (destruct Hc as [-> | Hc]); try subst m; try lia;
    destruct (isLeapYear y); lia.
Qed.

Lemma trendData_ymKey (tz y m : Z) (filtered : list GlobalTransaction) :
  1 <= y <= 9999 -> 1 <= m <= 12 ->
  trendData tz (ymKey y m) filtered
  = map (fun i => {| day := JS.toString i;
                     total := Obj.Prim (Obj.Num
                                (totalFor (localDateKey tz)
                                   (trendDateStr (ymKey y m) i) filtered)) |})
        (Zrange 1 (Z.to_nat (calendarDaysInMonth y m))).
Proof.
  intros Hy Hm.
  rewrite trendData_entries by (apply ymKey_not_all; lia).
  rewrite daysInSelectedMonth_ymKey by assumption.
  unfold loop_1_to. now rewrite (Zrange_seq 1).
Qed.

(** C5. For the key of month [m] of year [y], the daily trend has one entry
    per day 1, 2, ..., up to the calendar length of the month (29 for
    February of a leap year, 28 otherwise), in ascending order; the entry of
    day [i] carries the sum of the filtered amounts filed under the key of
    that day, which is 0 when there is none.  For records of the years 1000
    to 9999 these are the amounts of the records dated on that day in local
    time. *)
Theorem trendData_month (tz y m : Z) (filtered : list GlobalTransaction) :
  1 <= y <= 9999 -> 1 <= m <= 12 ->
  trendData tz (ymKey y m) filtered
  = map (fun i => {| day := JS.toString i;
                     total := Obj.Prim (Obj.Num
                                (totalFor (localDateKey tz)
                                   (trendDateStr (ymKey y m) i) filtered)) |})
        (Zrange 1 (Z.to_nat (calendarDaysInMonth y m)))
  /\ Z.of_nat (List.length (trendData tz (ymKey y m) filtered))
     = calendarDaysInMonth y m
  /\ calendarDaysInMonth y 2 = (if isLeapYear y then 29 else 28)
  /\ (Forall (fun e => 1000 <= JSDate.getFullYear tz (timestamp e) <= 9999)
             filtered ->
      forall i, 1 <= i <= calendarDaysInMonth y m ->
        totalFor (localDateKey tz) (trendDateStr (ymKey y m) i) filtered
        = sumZ (map amount (filter (onLocalDay tz y m i) filtered))).
Proof.
  intros Hy Hm.
  pose proof (trendData_ymKey tz y m filtered Hy Hm) as E.
  pose proof (calendarDaysInMonth_bounds y m Hm) as Hb.
  split; [exact E |]. split; [| split; [reflexivity |]].
  - rewrite E, length_map, Zrange_length. lia.
  - intros Hall i Hi. apply totalFor_onLocalDay; [exact Hall | lia ..].
Qed.

(** ** At offset 0 the daily series keeps every filtered amount *)

Lemma prefix_same_length (p s r : string) :
  String.length p = String.length s ->
  String.prefix p (s ++ r) = String.eqb p s.
Proof.
  revert s; induction p as [|a p IH]; intros [|b s] Hl; try discriminate Hl.
  - destruct r; reflexivity.
  - injection Hl as Hl. cbn [String.prefix append String.eqb].
    destruct (ascii_dec a b) as [->|Hne].
    + rewrite Ascii.eqb_refl. now apply IH.
    + apply Ascii.eqb_neq in Hne. now rewrite Hne.
Qed.

Lemma toISOString_ymKey (t : Z) :
  0 <= JSDate.YearFromTime t <= 9999 ->
  exists rest,
    JSDate.toISOString t
    = ymKey (JSDate.YearFromTime t) (JSDate.MonthFromTime t + 1) ++ rest.
Proof.
  intros Hy. unfold JSDate.toISOString, JSDate.isoYear.
  replace ((0 <=? JSDate.YearFromTime t) && (JSDate.YearFromTime t <=? 9999))
    with true by (symmetry; apply andb_true_iff; split; apply Z.leb_le; lia).
  eexists. unfold ymKey. rewrite !string_app_assoc. reflexivity.
Qed.

Lemma ymKey_eqb (y1 m1 y2 m2 : Z) :
  0 <= y1 <= 9999 -> 0 <= y2 <= 9999 -> 0 <= m1 <= 99 -> 0 <= m2 <= 99 ->
  String.eqb (ymKey y1 m1) (ymKey y2 m2) = (y1 =? y2) && (m1 =? m2).
Proof.
  intros Hy1 Hy2 Hm1 Hm2.
  rewrite string_eqb_compare, !Z_eqb_compare, ymKey_compare by assumption.
  destruct (y1 ?= y2); reflexivity.
Qed.

(** The period filter selects by the year and month in UTC. *)
Lemma inMonth_ymKey (y m : Z) (e : GlobalTransaction) :
  0 <= y <= 9999 -> 0 <= m <= 99 ->
  0 <= JSDate.YearFromTime (timestamp e) <= 9999 ->
  inMonth (ymKey y m) e
  = (y =? JSDate.YearFromTime (timestamp e))
    && (m =? JSDate.MonthFromTime (timestamp e) + 1).
Proof.
  intros Hy Hm He. unfold inMonth, JS.startsWith.
  destruct (toISOString_ymKey _ He) as (rest & ->).
  pose proof (MonthOfYearDay_range (JSDate.DayWithinYear (timestamp e))
                (JSDate.InLeapYear (timestamp e))) as HM.
  fold (JSDate.MonthFromTime (timestamp e)) in HM.
  rewrite prefix_same_length by (rewrite !ymKey_length by lia; reflexivity).
  apply ymKey_eqb; lia.
Qed.

(** The day of the month is at most the length of the month. *)
Lemma DateFromTime_le_month (t : Z) :
  JSDate.DateFromTime t
  <= calendarDaysInMonth (JSDate.YearFromTime t) (JSDate.MonthFromTime t + 1).
Proof.
  pose proof (DayWithinYear_range t) as Hd.
  unfold JSDate.DateFromTime, JSDate.MonthFromTime, JSDate.DateOfYearDay,
    JSDate.MonthOfYearDay, calendarDaysInMonth.
  unfold JSDate.InLeapYear in *. rewrite LeapOf_isLeapYear in *.
  destruct (isLeapYear (JSDate.YearFromTime t));
    repeat match goal with
           | |- context [if ?a <? ?b then _ else _] => destruct (Z.ltb_spec a b)
           end; cbn; lia.
Qed.

Lemma sum_no_day (d a : Z) (n : nat) (s : Z) :
  d < s -> sumZ (map (fun i => if d =? i then a else 0) (Zrange s n)) = 0.
Proof.
  unfold sumZ. revert s; induction n as [|n IH]; intros s H; [reflexivity |].
  cbn [Zrange map fold_right].
  destruct (Z.eqb_spec d s); [lia |]. rewrite IH by lia. reflexivity.
Qed.

Lemma sum_over_days (d a : Z) (n : nat) (s : Z) :
  s <= d < s + Z.of_nat n ->
  sumZ (map (fun i => if d =? i then a else 0) (Zrange s n)) = a.
Proof.
  revert s; induction n as [|n IH]; intros s H; [lia |].
  destruct (Z.eq_dec d s) as [->|Hne].
  - pose proof (sum_no_day s a n (s + 1) ltac:(lia)) as E.
    unfold sumZ in *. cbn [Zrange map fold_right].
    rewrite Z.eqb_refl, E. lia.
  - specialize (IH (s + 1) ltac:(lia)).
    unfold sumZ in *. cbn [Zrange map fold_right].
    apply Z.eqb_neq in Hne. rewrite Hne, IH. lia.
Qed.

Lemma daily_totals_cons (f : GlobalTransaction -> Z) (e : GlobalTransaction)
    (l : list GlobalTransaction) (days : list Z) :
  sumZ (map (fun i => sumZ (map amount (filter (fun x => f x =? i) (e :: l)))) days)
  = sumZ (map (fun i => if f e =? i then amount e else 0) days)
    + sumZ (map (fun i => sumZ (map amount (filter (fun x => f x =? i) l))) days).
Proof.
  unfold sumZ. induction days as [|i r IH]; [reflexivity |].
  cbn [map fold_right]. rewrite IH. cbn [filter].
  destruct (f e =? i); cbn [map fold_right]; lia.
Qed.

Lemma daily_totals_sum (f : GlobalTransaction -> Z) (n : nat)
    (l : list GlobalTransaction) :
  Forall (fun e => 1 <= f e < 1 + Z.of_nat n) l ->
  sumZ (map (fun i => sumZ (map amount (filter (fun e => f e =? i) l)))
            (Zrange 1 n))
  = sumZ (map amount l).
Proof.
  induction 1 as [|e l He _ IH].
  - unfold sumZ. cbn [filter map fold_right].
    induction (Zrange 1 n) as [|i r IHr]; [reflexivity |].
    cbn [map fold_right]. now rewrite IHr.
  - rewrite daily_totals_cons, IH, (sum_over_days (f e) (amount e) n 1 He).
    reflexivity.
Qed.

(** With no offset between local time and UTC, the daily totals of a month
    add up to the filtered amounts (for records of the years 1000 to
    9999): the amounts lost in another zone are lost to the offset. *)
Lemma trendData_conserves_at_offset_0 (y m : Z) (ledger : list GlobalTransaction) :
  1000 <= y <= 9999 -> 1 <= m <= 12 ->
  Forall (fun e => 1000 <= JSDate.YearFromTime (timestamp e) <= 9999) ledger ->
  totalsSum (trendData 0 (ymKey y m) (filteredExpenses (ymKey y m) ledger))
  = Some (sumZ (map amount (filteredExpenses (ymKey y m) ledger))).
Proof.
  intros Hy Hm Hall.
  assert (Hloc : forall t, JSDate.LocalTime 0 t = t)
    by (intros t; unfold JSDate.LocalTime; lia).
  unfold filteredExpenses. rewrite ymKey_not_all by lia.
  set (fe := filter (inMonth (ymKey y m)) ledger).
  assert (Hfe : Forall (fun e => 1000 <= JSDate.YearFromTime (timestamp e) <= 9999
                                 /\ JSDate.YearFromTime (timestamp e) = y
                                 /\ JSDate.MonthFromTime (timestamp e) + 1 = m) fe).
  { apply Forall_forall. intros e He. apply filter_In in He. destruct He as [Hin Hmo].
    rewrite Forall_forall in Hall. specialize (Hall e Hin).
    rewrite inMonth_ymKey in Hmo by lia.
    apply andb_true_iff in Hmo. destruct Hmo as [H1 H2].
    apply Z.eqb_eq in H1, H2. lia. }
  pose proof (calendarDaysInMonth_bounds y m Hm) as Hb.
  rewrite (trendData_ymKey 0 y m fe ltac:(lia) Hm), totalsSum_numbers. f_equal.
  rewrite <- (daily_totals_sum (fun e => JSDate.DateFromTime (timestamp e))
                (Z.to_nat (calendarDaysInMonth y m)) fe).
  - f_equal. apply map_ext_in. intros i Hi.
    unfold totalFor. do 2 f_equal. apply filter_ext_in. intros e He.
    rewrite Forall_forall in Hfe. destruct (Hfe e He) as (Hr & HY & HM).
    assert (Hi' : 0 <= i <= 99) by (apply Zrange_In_inv in Hi; lia).
    rewrite localDateKey_onLocalDay; try lia.
    + unfold onLocalDay, JSDate.getFullYear, JSDate.getMonth, JSDate.getDate.
      rewrite !Hloc, HY, HM, !Z.eqb_refl. reflexivity.
    + unfold JSDate.getFullYear. now rewrite Hloc.
  - eapply Forall_impl; [| exact Hfe]. intros e (Hr & HY & HM).
    pose proof (DateFromTime_range (timestamp e)).
    pose proof (DateFromTime_le_month (timestamp e)) as Hle.
    rewrite HY, HM in Hle. lia.
Qed.

(** C3, at the failing input: the expense of 31 January 23:30 UTC passes the
    filter of January 2024; in the zone of Jakarta the trend builder files
    it under 1 February, a day the January series does not have, and the
    daily totals add up to 0 instead of 50,000.  At offset 0 the same
    expense is counted, as [trendData_conserves_at_offset_0] says of every
    ledger. *)
Lemma trendData_drops_boundary_expense :
  filteredExpenses "2024-01" [boundaryExpense] = [boundaryExpense]
  /\ localDateKey wib boundaryExpense = "2024-02-01"
  /\ List.length (trendData wib "2024-01" [boundaryExpense]) = 31%nat
  /\ totalsSum (trendData wib "2024-01" [boundaryExpense]) = Some 0
  /\ sumZ (map amount [boundaryExpense]) = 50000
  /\ totalsSum (trendData 0 "2024-01" [boundaryExpense]) = Some 50000.
Proof.
  repeat split; vm_compute; reflexivity.
Qed.

(** ** Period selector: the available periods *)

Lemma monthOptions_shape (now : Z) (ledger : list GlobalTransaction) :
  exists options,
    monthOptions now ledger = "all" :: rev (stable_sort String.leb options)
    /\ NoDup options
    /\ (forall k, In k options <->
          (exists e, In e ledger /\ monthKey (timestamp e) = k)
          \/ (ledger = [] /\ k = monthKey now)).
Proof.
  destruct ledger as [|e0 l].
  - exists [monthKey now]. split; [reflexivity |]. split.
    + repeat constructor. intros [].
    + intros k. simpl. split.
      * intros [<-|[]]. now right.
      * intros [(e & [] & _)|[_ ->]]. now left.
  - set (ledger := e0 :: l).
    set (keys := map (fun t => monthKey (timestamp t)) ledger).
    exists (StrSet.of_list keys).
    assert (Hin : In (monthKey (timestamp e0)) (StrSet.of_list keys))
      by (apply of_list_In; now left).
    split; [| split].
    + unfold monthOptions. fold keys.
      destruct (StrSet.of_list keys) as [|k0 ks] eqn:E; [destruct Hin |].
      reflexivity.
    + apply of_list_NoDup.
    + intros k. rewrite of_list_In. unfold keys. rewrite in_map_iff. split.
      * intros (e & He & Hi). left. now exists e.
      * intros [(e & Hi & He)|[Hnil _]]; [now exists e | discriminate Hnil].
Qed.

(** C7. For every ledger, the available periods are the sentinel "all"
    followed by the distinct year-month keys of the ledger's timestamps in
    strictly descending order, which for the years 0 to 9999 is the order
    of the months from the most recent one back; an empty ledger gives the
    sentinel and the key of the current month. *)
Theorem monthOptions_spec (now : Z) (ledger : list GlobalTransaction) :
  monthOptions now ledger = "all" :: tl (monthOptions now ledger)
  /\ StronglySorted (fun a b => String.ltb b a = true)
       (tl (monthOptions now ledger))
  /\ (forall k, In k (tl (monthOptions now ledger)) <->
        (exists e, In e ledger /\ monthKey (timestamp e) = k)
        \/ (ledger = [] /\ k = monthKey now))
  /\ monthOptions now [] = ["all"; monthKey now]
  /\ (forall t1 t2,
        0 <= JSDate.YearFromTime t1 <= 9999 ->
        0 <= JSDate.YearFromTime t2 <= 9999 ->
        (String.ltb (monthKey t1) (monthKey t2) = true
         <-> monthIndex t1 < monthIndex t2)).
Proof.
  destruct (monthOptions_shape now ledger) as (options & E & Hnd & Hin).
  rewrite E. cbn [tl].
  split; [reflexivity |]. split; [| split; [| split]].
  - apply (StronglySorted_rev (fun a b => String.ltb a b = true)).
    now apply sort_strings_strict.
  - intros k. rewrite <- Hin, <- in_rev.
    split; apply Permutation_in;
      [| symmetry]; apply stable_sort_perm.
  - reflexivity.
  - exact monthKey_order.
Qed.

(** ** Ledger normalizer *)

Lemma str_or_nonempty (x : option string) (d : string) :
  d <> "" -> JS.str_or x d <> "".
Proof.
  intros Hd. unfold JS.str_or. destruct x as [c|]; [| exact Hd].
  destruct (String.eqb c "") eqn:E; [exact Hd | now apply String.eqb_neq].
Qed.

Lemma categoryOf_nonempty (e : GlobalTransaction) : categoryOf e <> "".
Proof.
  unfold categoryOf. apply str_or_nonempty. discriminate.
Qed.

(** C2, against the claim as stated: an archived expense stored without a
    category is in the ledger as it was stored, so a ledger record can have
    no category; and the history of a budget without a name enters the
    ledger with the empty category. *)
Lemma ledger_keeps_missing_category :
  In archivedUncategorized (allExpenses archiveState)
  /\ category archivedUncategorized = None
  /\ ~ Forall (fun e => hasCategory e = true) (allExpenses archiveState)
  /\ map category (allExpenses unnamedBudgetState) = [Some ""].
Proof.
  split; [now left |]. split; [reflexivity |]. split; [| reflexivity].
  intros H. inversion H as [|? ? Hc _]; subst. discriminate Hc.
Qed.

Lemma pieChartData_perm (filtered : list GlobalTransaction) :
  Permutation (pieChartData filtered)
    (map (fun nv => {| pie_name := fst nv; value := snd nv |})
         (groupTotals categoryOf filtered)).
Proof.
  unfold pieChartData. rewrite stable_sort_perm.
  apply Permutation_map. apply entries_perm.
Qed.

Lemma pieChartData_names (filtered : list GlobalTransaction) :
  Permutation (map pie_name (pieChartData filtered))
    (map fst (groupTotals categoryOf filtered)).
Proof.
  rewrite (Permutation_map pie_name (pieChartData_perm filtered)).
  rewrite map_map. reflexivity.
Qed.

(** The groups of the breakdown are the resolved categories of the
    records, except [__proto__]. *)
Lemma pieChartData_has (filtered : list GlobalTransaction) (c : string) :
  In c (map pie_name (pieChartData filtered))
  <-> In c (map resolvedCategory filtered) /\ c <> Obj.protoAccessor.
Proof.
  rewrite (map_ext resolvedCategory categoryOf)
    by (intros e; symmetry; apply categoryOf_resolved).
  rewrite <- (proj2 (groupTotals_keys categoryOf filtered) c).
  split; apply Permutation_in; [| symmetry]; apply pieChartData_names.
Qed.

Lemma totalFor_categoryOf (c : string) (l : list GlobalTransaction) :
  totalFor categoryOf c l = categoryTotal c l.
Proof.
  unfold totalFor, categoryTotal. now rewrite filter_categoryOf.
Qed.

(** An entry whose name is not inherited carries the sum of the amounts of
    its category. *)
Lemma pieChartData_entry (filtered : list GlobalTransaction) (p : PieEntry) :
  In p (pieChartData filtered) ->
  Obj.inherited (pie_name p) = false ->
  value p = Obj.Num (categoryTotal (pie_name p) filtered).
Proof.
  intros Hin Hp.
  apply (Permutation_in _ (pieChartData_perm filtered)) in Hin.
  apply in_map_iff in Hin. destruct Hin as ([k v] & <- & Hin).
  cbn [pie_name value fst snd] in *.
  rewrite <- totalFor_categoryOf. now apply (groupTotals_entry categoryOf).
Qed.

Lemma resolvedCategory_nonempty (e : GlobalTransaction) :
  resolvedCategory e <> "".
Proof.
  rewrite <- categoryOf_resolved. apply categoryOf_nonempty.
Qed.

(** C2, amended. For every application state and period, no group of the
    categorical breakdown has an empty name, and a ledger record whose
    category is missing or empty is counted in the group of the fallback
    label "Lain-lain", whose total is the sum of the amounts of the records
    that have no category or carry that label.  In the ledger itself, the categories are, in ledger
    order: those of the archived debit records as they are stored, the
    fixed label for each debit record of the fund history, for each record
    of a budget's history the name of that budget, and for each daily
    expense its source category, or "Harian" when that is missing or
    empty. *)
Theorem allExpenses_categories (st : AppState) :
  (forall selectedMonth,
     Forall (fun p => pie_name p <> "")
            (pieChartData (ledgerFor st selectedMonth)))
  /\ (forall selectedMonth e,
        In e (ledgerFor st selectedMonth) -> hasCategory e = false ->
        inCategory fallbackLabel e = true
        /\ In {| pie_name := fallbackLabel;
                 value := Obj.Num (categoryTotal fallbackLabel
                                     (ledgerFor st selectedMonth)) |}
              (pieChartData (ledgerFor st selectedMonth)))
  /\ map category (allExpenses st)
     = (map category
            (flat_map (fun a => filter is_remove (transactions a)) (archives st))
        ++ map (fun _ => Some "Pengeluaran Umum") (filter is_remove (fundHistory st))
        ++ flat_map (fun b => map (fun _ => Some (name b)) (history b)) (budgets st)
        ++ map (fun t => Some (dailyCategory t)) (dailyExpenses st))%list.
Proof.
  split; [| split].
  - intros sel. apply Forall_forall. intros p Hp.
    assert (Hn : In (pie_name p) (map pie_name (pieChartData (ledgerFor st sel))))
      by now apply in_map.
    apply pieChartData_has in Hn. destruct Hn as (Hn & _).
    apply in_map_iff in Hn. destruct Hn as (e & <- & _).
    apply resolvedCategory_nonempty.
  - intros sel e He Hc.
    assert (Hr : resolvedCategory e = fallbackLabel).
    { unfold hasCategory in Hc. unfold resolvedCategory.
      destruct (category e) as [c|]; [| reflexivity].
      apply negb_false_iff in Hc. now rewrite Hc. }
    split; [unfold inCategory; rewrite Hr; reflexivity |].
    assert (Hn : In fallbackLabel (map pie_name (pieChartData (ledgerFor st sel)))).
    { apply pieChartData_has. split; [| discriminate].
      apply in_map_iff. exists e. split; [exact Hr | exact He]. }
    apply in_map_iff in Hn. destruct Hn as (p & Hp & Hin).
    pose proof (pieChartData_entry _ p Hin) as Hv.
    rewrite Hp in Hv. specialize (Hv eq_refl).
    destruct p as [pn pv]. cbn [pie_name value] in *. now subst pn pv.
  - unfold allExpenses, archiveExpenses, fundExpenses, budgetExpenses,
      dailyExpensesTagged.
    rewrite !map_app. f_equal. f_equal; [| f_equal].
    + rewrite map_map. reflexivity.
    + induction (budgets st) as [|b bs IH]; simpl; [reflexivity |].
      now rewrite map_app, map_map, IH.
    + rewrite map_map. apply map_ext. intros t. cbn [category as_expense].
      unfold JS.str_or, dailyCategory. destruct (sourceCategory t); reflexivity.
Qed.

(** ** Forecast engine *)

(** In the current month with an income, the engine either reports that
    nothing was spent or sends the request with the four figures. *)
Lemma fetchForecast_current (tz today y m : Z)
    (filtered : list GlobalTransaction) (income : Z) :
  1 <= y <= 9999 -> 1 <= m <= 12 ->
  JSDate.getFullYear tz today = y -> JSDate.getMonth tz today = m - 1 ->
  income <> 0 ->
  fetchForecast tz today (ymKey y m) filtered income
  = if sumZ (map amount filtered) =? 0 then ForecastMessage msgZeroSpend
    else ForecastRequest
           (forecastPrompt income (sumZ (map amount filtered))
              (JSDate.getDate tz today) (calendarDaysInMonth y m)).
Proof.
  intros Hy Hm HY HM Hinc.
  unfold fetchForecast. cbv zeta.
  rewrite ymKey_not_all by lia.
  rewrite ymKey_year by lia. rewrite ymKey_month by lia.
  cbn [option_map num_eq lastDayOf JS.num_or0].
  rewrite HY, HM, !Z.eqb_refl. cbn [andb negb].
  apply Z.eqb_neq in Hinc. rewrite Hinc.
  rewrite reduce_amounts, Z.add_0_l.
  replace (m - 1 + 1) with m by lia.
  rewrite getDate_last_day by lia. reflexivity.
Qed.

Lemma interpolated_forecastPrompt (a b c d : Z) :
  interpolated (forecastPrompt a b c d) = [a; b; c; d].
Proof. reflexivity. Qed.

(** C1, against the claim as stated: for an income of 1,000,000, a spend of
    300,000, day 10 of a month of 30 days, the request of the engine holds
    the four figures it was computed from and neither the projected total
    900,000 nor the difference 100,000; the sequence 900000 does not occur
    in its text. *)
Lemma forecast_request_has_no_projection :
  forecastFor wib april10 aprilState "2024-04"
  = ForecastRequest (forecastPrompt 1000000 300000 10 30)
  /\ specDailyRate 300000 10 = 30000
  /\ specProjectedTotal 300000 10 30 = 900000
  /\ specDelta 1000000 300000 10 30 = 100000
  /\ String.index 0 "900000"
       (templateText (forecastPrompt 1000000 300000 10 30)) = None
  /\ ~ carriesProjection (forecastFor wib april10 aprilState "2024-04")
         1000000 300000 10 30.
Proof.
  assert (E : forecastFor wib april10 aprilState "2024-04"
              = ForecastRequest (forecastPrompt 1000000 300000 10 30))
    by (vm_compute; reflexivity).
  split; [exact E |].
  split; [reflexivity |]. split; [reflexivity |]. split; [reflexivity |].
  split; [vm_compute; reflexivity |].
  intros (p & Hp & Hproj & _). rewrite E in Hp. injection Hp as <-.
  rewrite interpolated_forecastPrompt in Hproj.
  change (specProjectedTotal 300000 10 30) with 900000 in Hproj.
  simpl in Hproj. intuition discriminate.
Qed.

(** C1, amended. In the current month, with an income and a spend other
    than 0, the engine computes the spend so far, the day of the month of
    "now" and the number of days of the month, and sends them with the
    income as the four figures of a request to the text-generation
    service, which is asked to work out the projection; the engine computes
    no daily rate, projected total or difference. *)
Theorem fetchForecast_computed (tz today y m : Z)
    (filtered : list GlobalTransaction) (income : Z) :
  1 <= y <= 9999 -> 1 <= m <= 12 ->
  JSDate.getFullYear tz today = y -> JSDate.getMonth tz today = m - 1 ->
  income <> 0 -> sumZ (map amount filtered) <> 0 ->
  fetchForecast tz today (ymKey y m) filtered income
  = ForecastRequest
      (forecastPrompt income (sumZ (map amount filtered))
         (JSDate.getDate tz today) (calendarDaysInMonth y m))
  /\ interpolated
       (forecastPrompt income (sumZ (map amount filtered))
          (JSDate.getDate tz today) (calendarDaysInMonth y m))
     = [income; sumZ (map amount filtered); JSDate.getDate tz today;
        calendarDaysInMonth y m].
Proof.
  intros Hy Hm HY HM Hinc Hspend. split; [| reflexivity].
  rewrite fetchForecast_current by assumption.
  apply Z.eqb_neq in Hspend. now rewrite Hspend.
Qed.

Lemma amounts_split (f g : GlobalTransaction -> bool) (l : list GlobalTransaction) :
  sumZ (map amount (filter f l))
  = sumZ (map amount (filter (fun e => f e && g e) l))
    + sumZ (map amount (filter (fun e => f e && negb (g e)) l)).
Proof.
  induction l as [|e l IH]; simpl; [reflexivity |].
  destruct (f e), (g e); simpl; lia.
Qed.

(** The period filter selects by the year and month in UTC, whatever the
    year of the record. *)
Lemma inMonth_expanded_year (y m : Z) (e : GlobalTransaction) :
  0 <= y <= 9999 ->
  ~ 0 <= JSDate.YearFromTime (timestamp e) <= 9999 ->
  inMonth (ymKey y m) e = false.
Proof.
  intros Hy He. destruct (yearDigits y Hy) as (Hl & Hd & _).
  unfold inMonth, JS.startsWith, JSDate.toISOString, JSDate.isoYear, ymKey.
  replace ((0 <=? JSDate.YearFromTime (timestamp e))
           && (JSDate.YearFromTime (timestamp e) <=? 9999)) with false
    by (symmetry; apply andb_false_iff;
        destruct (Z.leb_spec 0 (JSDate.YearFromTime (timestamp e)));
        [right; apply Z.leb_gt; lia | now left]).
  destruct (JSDate.pad 4 y) as [|c r]; [discriminate Hl |].
  cbn [JS.all_digits] in Hd. apply andb_true_iff in Hd. destruct Hd as (Hc & _).
  destruct (JSDate.YearFromTime (timestamp e) <? 0);
    cbn [append String.prefix];
    match goal with
    | |- context [ascii_dec c ?x] => destruct (ascii_dec c x) as [->|Hne]
    end; try reflexivity; discriminate Hc.
Qed.

Lemma inMonth_inUtcMonth (y m : Z) (e : GlobalTransaction) :
  0 <= y <= 9999 -> 0 <= m <= 99 ->
  inMonth (ymKey y m) e = inUtcMonth y m e.
Proof.
  intros Hy Hm. unfold inUtcMonth.
  rewrite (Z.eqb_sym (JSDate.YearFromTime (timestamp e))),
    (Z.eqb_sym (JSDate.MonthFromTime (timestamp e) + 1)).
  destruct (Z_le_dec 0 (JSDate.YearFromTime (timestamp e))) as [H0|H0];
    [destruct (Z_le_dec (JSDate.YearFromTime (timestamp e)) 9999) as [H1|H1] |].
  - apply inMonth_ymKey; lia.
  - rewrite inMonth_expanded_year by lia.
    destruct (Z.eqb_spec y (JSDate.YearFromTime (timestamp e))); [lia | reflexivity].
  - rewrite inMonth_expanded_year by lia.
    destruct (Z.eqb_spec y (JSDate.YearFromTime (timestamp e))); [lia | reflexivity].
Qed.

(** C10, against the claim as stated.  In Jakarta on 10 April 2024 the
    engine takes April as the current month and sends 70,000 as the spend
    so far: the 30,000 of 1 April, 06:30 in Jakarta, are not in it (in UTC
    that is 31 March), and the 20,000 of 1 May, 02:00 in Jakarta, are (in
    UTC that is 30 April); the records dated in April by the clock that
    makes April current add up to 80,000.  And the engine forms no daily
    rate: 7,000, the quotient of 70,000 by 10 days, is not among the
    figures of the request. *)
Lemma forecast_spend_not_by_local_month :
  JSDate.getFullYear wib april10 = 2024
  /\ JSDate.getMonth wib april10 + 1 = 4
  /\ forecastFor wib april10 monthEdgeState "2024-04"
     = ForecastRequest (forecastPrompt 1000000 70000 10 30)
  /\ map amount (filter (inLocalMonth wib 2024 4) (allExpenses monthEdgeState))
     = [30000; 50000]
  /\ map amount (filter (inUtcMonth 2024 4) (allExpenses monthEdgeState))
     = [50000; 20000]
  /\ specDailyRate 70000 10 = 7000
  /\ ~ In (specDailyRate 70000 10)
         (interpolated (forecastPrompt 1000000 70000 10 30)).
Proof.
  repeat (split; [vm_compute; reflexivity |]).
  rewrite interpolated_forecastPrompt. vm_compute. intuition discriminate.
Qed.

(** C10, amended. When the month that the local clock takes as the current
    one is selected and there is an income, the spend that decides between
    "nothing spent" and a request, and that is sent as the spend so far
    with the income, the day of the month and the length of the month (no
    daily rate is formed), is the sum of the amounts of all ledger records
    dated in the selected month in UTC: those dated up to "now" and those
    dated after it. *)
Theorem forecast_spend_whole_month (tz today y m : Z) (st : AppState) :
  1 <= y <= 9999 -> 1 <= m <= 12 ->
  JSDate.getFullYear tz today = y -> JSDate.getMonth tz today = m - 1 ->
  totalIncomeForMonth (fundHistory st) (ymKey y m) <> 0 ->
  let spend :=
    sumZ (map amount (filter (inUtcMonth y m) (allExpenses st))) in
  forecastFor tz today st (ymKey y m)
  = (if spend =? 0 then ForecastMessage msgZeroSpend
     else ForecastRequest
            (forecastPrompt (totalIncomeForMonth (fundHistory st) (ymKey y m))
               spend (JSDate.getDate tz today) (calendarDaysInMonth y m)))
  /\ (forall p, forecastFor tz today st (ymKey y m) = ForecastRequest p ->
        interpolated p
        = [totalIncomeForMonth (fundHistory st) (ymKey y m); spend;
           JSDate.getDate tz today; calendarDaysInMonth y m])
  /\ spend
     = sumZ (map amount
               (filter (fun e => inUtcMonth y m e && (timestamp e <=? today))
                       (allExpenses st)))
       + sumZ (map amount
                 (filter (fun e => inUtcMonth y m e && (today <? timestamp e))
                         (allExpenses st))).
Proof.
  intros Hy Hm HY HM Hinc spend.
  assert (E : forecastFor tz today st (ymKey y m)
              = (if spend =? 0 then ForecastMessage msgZeroSpend
                 else ForecastRequest
                        (forecastPrompt
                           (totalIncomeForMonth (fundHistory st) (ymKey y m))
                           spend (JSDate.getDate tz today)
                           (calendarDaysInMonth y m)))).
  { unfold forecastFor. rewrite fetchForecast_current by assumption.
    unfold ledgerFor, filteredExpenses. rewrite ymKey_not_all by lia.
    unfold spend.
    rewrite (filter_ext (inMonth (ymKey y m)) (inUtcMonth y m))
      by (intros e; apply inMonth_inUtcMonth; lia).
    reflexivity. }
  split; [exact E |]. split.
  - intros p Hp. rewrite E in Hp.
    destruct (spend =? 0); [discriminate Hp |].
    injection Hp as <-. apply interpolated_forecastPrompt.
  - unfold spend.
    rewrite (amounts_split (inUtcMonth y m) (fun e => timestamp e <=? today)).
    do 3 f_equal. apply filter_ext. intros e.
    now rewrite Z.ltb_antisym.
Qed.

(** ** The properties at the sample inputs *)

(** February 2024 has 29 entries, and the expense of 1 February, 06:30 in
    Jakarta, is counted on day 1. *)
Lemma trendData_month_witness :
  1 <= 2024 <= 9999 /\ 1 <= 2 <= 12
  /\ Forall (fun e => 1000 <= JSDate.getFullYear wib (timestamp e) <= 9999)
        [boundaryExpense]
  /\ 1 <= 1 <= calendarDaysInMonth 2024 2
  /\ Z.of_nat (List.length (trendData wib (ymKey 2024 2) [boundaryExpense]))
     = calendarDaysInMonth 2024 2
  /\ totalFor (localDateKey wib) (trendDateStr (ymKey 2024 2) 1) [boundaryExpense]
     = sumZ (map amount (filter (onLocalDay wib 2024 2 1) [boundaryExpense])).
Proof.
  assert (Hy : 1 <= 2024 <= 9999) by lia.
  assert (Hm : 1 <= 2 <= 12) by lia.
  assert (Hall : Forall (fun e => 1000 <= JSDate.getFullYear wib (timestamp e) <= 9999)
                   [boundaryExpense])
    by (repeat constructor; vm_compute; discriminate).
  assert (Hi : 1 <= 1 <= calendarDaysInMonth 2024 2)
    by (split; vm_compute; discriminate).
  repeat (split; [assumption |]).
  split.
  - exact (proj1 (proj2 (trendData_month wib 2024 2 [boundaryExpense] Hy Hm))).
  - exact (proj2 (proj2 (proj2 (trendData_month wib 2024 2 [boundaryExpense] Hy Hm)))
             Hall 1 Hi).
Defined.

(** January 2024 sorts before April 2024, and is the earlier month. *)
Lemma monthOptions_witness :
  0 <= JSDate.YearFromTime 1706743800000 <= 9999
  /\ 0 <= JSDate.YearFromTime april10 <= 9999
  /\ (String.ltb (monthKey 1706743800000) (monthKey april10) = true
      <-> monthIndex 1706743800000 < monthIndex april10).
Proof.
  assert (H1 : 0 <= JSDate.YearFromTime 1706743800000 <= 9999)
    by (vm_compute; split; discriminate).
  assert (H2 : 0 <= JSDate.YearFromTime april10 <= 9999)
    by (vm_compute; split; discriminate).
  split; [exact H1 |]. split; [exact H2 |].
  exact (proj2 (proj2 (proj2 (proj2 (monthOptions_spec april10 [boundaryExpense]))))
           1706743800000 april10 H1 H2).
Defined.

(** A click on the food slice gives the two records for food, the larger
    first. *)
Lemma handlePieClick_witness :
  "Makanan" <> ""
  /\ exists txs,
       handlePieClick detailLedger (Some (mkPie "Makanan" (Obj.Num 250000)))
       = Some {| detail_category := "Makanan"; detail_transactions := txs |}
       /\ Permutation txs [boundaryExpense; foodExpense]
       /\ StronglySorted (fun a b => amount b <= amount a) txs.
Proof.
  assert (Hn : "Makanan" <> "") by discriminate.
  split; [exact Hn |].
  destruct (handlePieClick_detail detailLedger (mkPie "Makanan" (Obj.Num 250000)) Hn)
    as (txs & E & P & _ & S & _).
  exists txs. split; [exact E |]. split; [exact P | exact S].
Defined.

(** April 2024 on the 10th: the request with the four figures. *)
Lemma fetchForecast_computed_witness :
  JSDate.getFullYear wib april10 = 2024
  /\ JSDate.getMonth wib april10 = 4 - 1
  /\ 1000000 <> 0
  /\ sumZ (map amount (ledgerFor aprilState (ymKey 2024 4))) <> 0
  /\ fetchForecast wib april10 (ymKey 2024 4)
       (ledgerFor aprilState (ymKey 2024 4)) 1000000
     = ForecastRequest
         (forecastPrompt 1000000
            (sumZ (map amount (ledgerFor aprilState (ymKey 2024 4))))
            (JSDate.getDate wib april10) (calendarDaysInMonth 2024 4)).
Proof.
  assert (HY : JSDate.getFullYear wib april10 = 2024) by (vm_compute; reflexivity).
  assert (HM : JSDate.getMonth wib april10 = 4 - 1) by (vm_compute; reflexivity).
  assert (Hi : 1000000 <> 0) by discriminate.
  assert (Hs : sumZ (map amount (ledgerFor aprilState (ymKey 2024 4))) <> 0)
    by (vm_compute; discriminate).
  repeat (split; [assumption |]).
  exact (proj1 (fetchForecast_computed wib april10 2024 4
                  (ledgerFor aprilState (ymKey 2024 4)) 1000000
                  ltac:(lia) ltac:(lia) HY HM Hi Hs)).
Defined.

(** April 2024 on the 10th: the 100,000 entered for the 25th is part of the
    spend of 300,000 that is sent. *)
Lemma forecast_spend_witness :
  JSDate.getFullYear wib april10 = 2024
  /\ JSDate.getMonth wib april10 = 4 - 1
  /\ totalIncomeForMonth (fundHistory aprilState) (ymKey 2024 4) <> 0
  /\ forecastFor wib april10 aprilState (ymKey 2024 4)
     = (if sumZ (map amount (filter (inUtcMonth 2024 4) (allExpenses aprilState)))
           =? 0
        then ForecastMessage msgZeroSpend
        else ForecastRequest
               (forecastPrompt
                  (totalIncomeForMonth (fundHistory aprilState) (ymKey 2024 4))
                  (sumZ (map amount
                           (filter (inUtcMonth 2024 4) (allExpenses aprilState))))
                  (JSDate.getDate wib april10) (calendarDaysInMonth 2024 4)))
  /\ sumZ (map amount (filter (inUtcMonth 2024 4) (allExpenses aprilState)))
     = sumZ (map amount
               (filter (fun e => inUtcMonth 2024 4 e && (timestamp e <=? april10))
                       (allExpenses aprilState)))
       + sumZ (map amount
                 (filter (fun e => inUtcMonth 2024 4 e && (april10 <? timestamp e))
                         (allExpenses aprilState))).
Proof.
  assert (HY : JSDate.getFullYear wib april10 = 2024) by (vm_compute; reflexivity).
  assert (HM : JSDate.getMonth wib april10 = 4 - 1) by (vm_compute; reflexivity).
  assert (Hi : totalIncomeForMonth (fundHistory aprilState) (ymKey 2024 4) <> 0)
    by (vm_compute; discriminate).
  repeat (split; [assumption |]).
  split.
  - exact (proj1 (forecast_spend_whole_month wib april10 2024 4 aprilState
                    ltac:(lia) ltac:(lia) HY HM Hi)).
  - exact (proj2 (proj2 (forecast_spend_whole_month wib april10 2024 4 aprilState
                           ltac:(lia) ltac:(lia) HY HM Hi))).
Defined.

(** The sample inputs, evaluated. *)
Example april_spend_parts :
  sumZ (map amount (filter (inUtcMonth 2024 4) (allExpenses aprilState))) = 300000
  /\ sumZ (map amount
             (filter (fun e => inUtcMonth 2024 4 e && (april10 <? timestamp e))
                     (allExpenses aprilState))) = 100000
  /\ forecastFor wib april10 aprilState "2024-04"
     = ForecastRequest (forecastPrompt 1000000 300000 10 30)
  /\ totalIncomeForMonth (fundHistory aprilState) "2024-04" = 1000000
  /\ JSDate.getDate wib april10 = 10
  /\ ymKey 2024 4 = "2024-04".
Proof.
  repeat split; vm_compute; reflexivity.
Qed.

Example february_lengths :
  List.length (trendData wib "2024-02" []) = 29%nat
  /\ List.length (trendData wib "2023-02" []) = 28%nat
  /\ List.length (trendData wib "1900-02" []) = 28%nat
  /\ List.length (trendData wib "2000-02" []) = 29%nat
  /\ List.length (trendData wib "2024-12" []) = 31%nat.
Proof.
  repeat split; vm_compute; reflexivity.
Qed.

Example pieChartData_sample :
  pieChartData (allExpenses aprilState)
  = [ {| pie_name := "Makanan"; value := Obj.Num 200000 |};
      {| pie_name := "Harian"; value := Obj.Num 100000 |} ].
Proof. vm_compute. reflexivity. Qed.

Example handlePieClick_sample :
  handlePieClick detailLedger (Some (mkPie "Makanan" (Obj.Num 250000)))
  = Some {| detail_category := "Makanan";
            detail_transactions := [foodExpense; boundaryExpense] |}
  /\ handlePieClick detailLedger (Some (mkPie "Lain-lain" (Obj.Num 25000)))
     = Some {| detail_category := "Lain-lain";
               detail_transactions := [archivedUncategorized] |}
  /\ handlePieClick detailLedger (Some (mkPie "Transport" (Obj.Num 0)))
     = Some {| detail_category := "Transport"; detail_transactions := [] |}
  /\ handlePieClick detailLedger (Some (mkPie "" (Obj.Num 0))) = None.
Proof.
  repeat split; vm_compute; reflexivity.
Qed.

(** A record under [__proto__] leaves no trace in the dictionary. *)
Example pieChartData_proto_sample :
  pieChartData [mkTx remove "Buku" 5000 1712311200000 (Some "__proto__") None] = []
  /\ budgetComparisonData [] [mkBudget "__proto__" 100000 []]
     = [ {| cmp_name := "__proto__"; Dianggarkan := 100000;
            Terpakai := Obj.Inherited "__proto__" |} ].
Proof.
  split; vm_compute; reflexivity.
Qed.

Example monthOptions_sample :
  monthOptions april10 (boundaryExpense :: allExpenses aprilState)
  = ["all"; "2024-04"; "2024-01"].
Proof. vm_compute. reflexivity. Qed.

(** * Further properties of the component *)

(** ** Ledger normalizer: what it keeps *)

Lemma flat_map_map {A B C : Type} (f : A -> list B) (g : B -> C) (l : list A) :
  map g (flat_map f l) = flat_map (fun a => map g (f a)) l.
Proof.
  induction l as [|a l IH]; simpl; [reflexivity |].
  now rewrite map_app, IH.
Qed.

Lemma flat_map_length {A B : Type} (f : A -> list B) (g : A -> nat) (l : list A) :
  (forall a, List.length (f a) = g a) ->
  List.length (flat_map f l) = fold_right (fun a n => (g a + n)%nat) 0%nat l.
Proof.
  intros H. induction l as [|a l IH]; simpl; [reflexivity |].
  now rewrite length_app, H, IH.
Qed.

(** X1. The ledger holds debit records only, and one for each archived
    debit, each fund-history debit, each entry of a budget's history and
    each daily expense, whatever the type of the last two: archived and
    fund-history entries of type 'add' add no record. *)
Theorem ledger_debit_only (st : AppState) (selectedMonth : string) :
  Forall (fun e => type e = remove) (allExpenses st)
  /\ Forall (fun e => type e = remove) (ledgerFor st selectedMonth)
  /\ List.length (allExpenses st)
     = (List.length (flat_map (fun a => filter isDebit (transactions a))
                              (archives st))
        + List.length (filter isDebit (fundHistory st))
        + List.length (flat_map history (budgets st))
        + List.length (dailyExpenses st))%nat.
Proof.
  assert (H : forall l, Forall (fun e => is_remove e = true) l ->
                        Forall (fun e => type e = remove) l).
  { intros l. apply Forall_impl. intros e. unfold is_remove.
    destruct (type e); [discriminate | reflexivity]. }
  assert (Hd : forall l, filter is_remove l = filter isDebit l).
  { intros l. apply filter_ext. intros t. unfold is_remove, isDebit.
    destruct (type t); reflexivity. }
  split; [apply H, allExpenses_remove |].
  split; [apply H, ledgerFor_remove |].
  unfold allExpenses, archiveExpenses, fundExpenses, budgetExpenses,
    dailyExpensesTagged.
  rewrite !length_app, !length_map, Hd.
  rewrite (flat_map_ext _ (fun a => filter isDebit (transactions a)))
    by (intros a; apply Hd).
  rewrite (flat_map_length (fun b => map (as_expense (name b)) (history b))
             (fun b => List.length (history b)))
    by (intros b; apply length_map).
  rewrite (flat_map_length history (fun b => List.length (history b)))
    by reflexivity.
  lia.
Qed.

(** X2. The normalizer changes only the type and the category of a record:
    the descriptions, amounts and timestamps of the ledger are those of the
    archived debit records, the fund-history debit records, the budget
    histories and the daily expenses, in that order, one ledger record per
    source record. *)
Theorem ledger_keeps_source_fields (st : AppState) :
  map (fun e => (desc e, amount e, timestamp e)) (allExpenses st)
  = (map (fun e => (desc e, amount e, timestamp e))
         (flat_map (fun a => filter is_remove (transactions a)) (archives st))
     ++ map (fun e => (desc e, amount e, timestamp e))
            (filter is_remove (fundHistory st))
     ++ map (fun e => (desc e, amount e, timestamp e))
            (flat_map history (budgets st))
     ++ map (fun e => (desc e, amount e, timestamp e)) (dailyExpenses st))%list.
Proof.
  unfold allExpenses, archiveExpenses, fundExpenses, budgetExpenses,
    dailyExpensesTagged.
  rewrite !map_app. f_equal. f_equal; [| f_equal].
  - rewrite map_map. reflexivity.
  - induction (budgets st) as [|b bs IH]; simpl; [reflexivity |].
    now rewrite !map_app, map_map, IH.
  - rewrite map_map. reflexivity.
Qed.

(** ** Period keys: length and round trip *)

Lemma repeat_char_length (c : ascii) (n : nat) :
  String.length (JS.repeat_char c n) = n.
Proof.
  induction n as [|n IH]; simpl; [reflexivity | now rewrite IH].
Qed.

Lemma padStart_length (w : nat) (c : ascii) (s : string) :
  String.length (JS.padStart w c s) = Nat.max w (String.length s).
Proof.
  unfold JS.padStart. rewrite string_length_app, repeat_char_length. lia.
Qed.

Lemma substring_0_length (n : nat) (s : string) :
  String.length (String.substring 0 n s) = Nat.min n (String.length s).
Proof.
  revert s; induction n as [|n IH]; intros s.
  - now rewrite substring_0_0.
  - destruct s as [|c s]; simpl; [reflexivity | now rewrite IH].
Qed.

Lemma isoYear_length (y : Z) : (4 <= String.length (JSDate.isoYear y))%nat.
Proof.
  unfold JSDate.isoYear, JSDate.pad.
  destruct ((0 <=? y) && (y <=? 9999)); [| destruct (y <? 0)];
    rewrite ?string_length_app, !padStart_length; cbn [String.length]; lia.
Qed.

Lemma toISOString_length (t : Z) : (7 <= String.length (JSDate.toISOString t))%nat.
Proof.
  unfold JSDate.toISOString.
  pose proof (isoYear_length (JSDate.YearFromTime t)) as Hy.
  rewrite string_length_app. rewrite (string_length_app "-").
  rewrite (string_length_app (JSDate.pad 2 _)).
  unfold JSDate.pad at 1. rewrite padStart_length. cbn [String.length]. lia.
Qed.

Lemma monthKey_length (t : Z) : String.length (monthKey t) = 7%nat.
Proof.
  unfold monthKey, JS.slice. change (7 - 0)%nat with 7%nat.
  rewrite substring_0_length. pose proof (toISOString_length t). lia.
Qed.

Lemma monthKey_not_all (t : Z) : String.eqb (monthKey t) "all" = false.
Proof.
  apply String.eqb_neq. intros E. pose proof (monthKey_length t) as H.
  rewrite E in H. discriminate H.
Qed.

(** A key of seven characters selects the records whose month key it is. *)
Lemma inMonth_monthKey (k : string) (e : GlobalTransaction) :
  String.length k = 7%nat ->
  inMonth k e = String.eqb (monthKey (timestamp e)) k.
Proof.
  intros Hk. unfold inMonth, JS.startsWith, monthKey, JS.slice.
  change (7 - 0)%nat with 7%nat.
  destruct (String.eqb_spec (String.substring 0 7 (JSDate.toISOString (timestamp e))) k)
    as [E|Hne].
  - apply String.prefix_correct. now rewrite Hk.
  - destruct (String.prefix k (JSDate.toISOString (timestamp e))) eqn:P; [| reflexivity].
    apply String.prefix_correct in P. rewrite Hk in P. contradiction.
Qed.

(** X3. The key of a month reads back: for a time in the years 1 to 9999,
    the two slices that the trend builder and the forecast engine take from
    the key of its month are its year and month in UTC, and the trend of
    that month has as many days as the month. *)
Theorem monthKey_round_trip (tz t : Z) :
  1 <= JSDate.YearFromTime t <= 9999 ->
  JS.Number (JS.slice 0 4 (monthKey t)) = Some (JSDate.YearFromTime t)
  /\ JS.Number (JS.slice 5 7 (monthKey t)) = Some (JSDate.MonthFromTime t + 1)
  /\ daysInSelectedMonth tz (monthKey t)
     = Some (calendarDaysInMonth (JSDate.YearFromTime t) (JSDate.MonthFromTime t + 1)).
Proof.
  intros Hy.
  pose proof (MonthOfYearDay_range (JSDate.DayWithinYear t) (JSDate.InLeapYear t)) as Hm.
  fold (JSDate.MonthFromTime t) in Hm.
  rewrite monthKey_ymKey by lia.
  split; [apply ymKey_year; lia |].
  split; [apply ymKey_month; lia |].
  apply daysInSelectedMonth_ymKey; lia.
Qed.

(** ** Period selector: what the options select *)

Lemma monthOptions_tail_In (now : Z) (ledger : list GlobalTransaction) (k : string) :
  In k (tl (monthOptions now ledger)) <->
  (exists e, In e ledger /\ monthKey (timestamp e) = k)
  \/ (ledger = [] /\ k = monthKey now).
Proof.
  destruct (monthOptions_shape now ledger) as (options & E & _ & Hin).
  rewrite E. cbn [tl]. rewrite <- Hin, <- in_rev.
  split; apply Permutation_in; [| symmetry]; apply stable_sort_perm.
Qed.

Lemma monthOptions_tail_NoDup (now : Z) (ledger : list GlobalTransaction) :
  NoDup (tl (monthOptions now ledger)).
Proof.
  destruct (monthOptions_shape now ledger) as (options & E & Hnd & _).
  rewrite E. cbn [tl]. apply NoDup_rev.
  eapply Permutation_NoDup; [| exact Hnd]. symmetry. apply stable_sort_perm.
Qed.

Lemma monthOptions_tail_length (now : Z) (ledger : list GlobalTransaction) (k : string) :
  In k (tl (monthOptions now ledger)) -> String.length k = 7%nat.
Proof.
  intros H. apply monthOptions_tail_In in H.
  destruct H as [(e & _ & <-)|[_ ->]]; apply monthKey_length.
Qed.

Lemma filteredExpenses_by_key (k : string) (ledger : list GlobalTransaction) :
  String.length k = 7%nat ->
  filteredExpenses k ledger
  = filter (fun e => String.eqb (monthKey (timestamp e)) k) ledger.
Proof.
  intros Hk. unfold filteredExpenses.
  replace (String.eqb k "all") with false
    by (symmetry; apply String.eqb_neq; intros ->; discriminate Hk).
  apply filter_ext. intros e. now apply inMonth_monthKey.
Qed.

(** X4. A month offered by the selector selects exactly the ledger records
    whose month key it is, in ledger order, and, unless the ledger is
    empty, at least one record. *)
Theorem offered_month_selects (now : Z) (ledger : list GlobalTransaction) (k : string) :
  In k (tl (monthOptions now ledger)) ->
  filteredExpenses k ledger
  = filter (fun e => String.eqb (monthKey (timestamp e)) k) ledger
  /\ (ledger <> [] -> filteredExpenses k ledger <> []).
Proof.
  intros Hk.
  pose proof (filteredExpenses_by_key k ledger (monthOptions_tail_length _ _ _ Hk)) as E.
  split; [exact E |].
  intros Hne. rewrite E. apply monthOptions_tail_In in Hk.
  destruct Hk as [(e & He & Hke)|[Hnil _]]; [| contradiction].
  intros Hempty.
  assert (Hin : In e (filter (fun e => String.eqb (monthKey (timestamp e)) k) ledger))
    by (apply filter_In; split; [exact He | now apply String.eqb_eq]).
  rewrite Hempty in Hin. destruct Hin.
Qed.

(** X5. The selector always offers "all" first and at least one month; the
    options are pairwise different, and "all" is not among the months,
    which all have seven characters. *)
Theorem monthOptions_selectable (now : Z) (ledger : list GlobalTransaction) :
  (2 <= List.length (monthOptions now ledger))%nat
  /\ hd "" (monthOptions now ledger) = "all"
  /\ NoDup (monthOptions now ledger)
  /\ Forall (fun k => String.length k = 7%nat) (tl (monthOptions now ledger)).
Proof.
  pose proof (monthOptions_tail_In now ledger) as Hin.
  pose proof (monthOptions_tail_NoDup now ledger) as Hnd.
  pose proof (monthOptions_tail_length now ledger) as Hlen.
  assert (E : monthOptions now ledger = "all" :: tl (monthOptions now ledger))
    by reflexivity.
  rewrite E. cbn [hd tl List.length] in *.
  split; [| split; [reflexivity | split]].
  - assert (Hex : exists k, In k (tl (monthOptions now ledger))).
    { destruct ledger as [|e l].
      - exists (monthKey now). apply Hin. now right.
      - exists (monthKey (timestamp e)). apply Hin. left. exists e. split; [now left | reflexivity]. }
    destruct Hex as (k & Hk).
    destruct (tl (monthOptions now ledger)); [destruct Hk | simpl; lia].
  - constructor; [| exact Hnd].
    intros Hall. apply Hlen in Hall. discriminate Hall.
  - apply Forall_forall. exact Hlen.
Qed.

Lemma sum_one_key (x : string) (a : Z) (ks : list string) :
  NoDup ks -> In x ks ->
  sumZ (map (fun k => if String.eqb x k then a else 0) ks) = a.
Proof.
  unfold sumZ. induction 1 as [|k ks Hk Hnd IH]; intros Hin; [destruct Hin |].
  cbn [map fold_right]. destruct Hin as [->|Hin].
  - rewrite String.eqb_refl.
    assert (E : fold_right Z.add 0 (map (fun k => if String.eqb x k then a else 0) ks) = 0).
    { clear IH Hnd. induction ks as [|k ks IH]; [reflexivity |].
      cbn [map fold_right].
      destruct (String.eqb_spec x k) as [->|_]; [exfalso; apply Hk; now left |].
      rewrite IH; [reflexivity |]. intros H. apply Hk. now right. }
    rewrite E. lia.
  - destruct (String.eqb_spec x k) as [->|_]; [contradiction |].
    rewrite IH by exact Hin. lia.
Qed.

Lemma sum_by_key (f : GlobalTransaction -> string) (ks : list string)
    (l : list GlobalTransaction) :
  NoDup ks -> Forall (fun e => In (f e) ks) l ->
  sumZ (map (fun k => sumZ (map amount (filter (fun e => String.eqb (f e) k) l))) ks)
  = sumZ (map amount l).
Proof.
  intros Hnd. induction 1 as [|e l He _ IH].
  - unfold sumZ. cbn [filter map fold_right].
    induction ks as [|k r IHr]; [reflexivity |].
    cbn [map fold_right]. rewrite IHr; [reflexivity | now inversion Hnd].
  - cbn [map]. change (sumZ (amount e :: map amount l))
      with (amount e + sumZ (map amount l)).
    rewrite <- IH, <- (sum_one_key (f e) (amount e) ks Hnd He).
    clear. unfold sumZ. induction ks as [|k r IHr]; [reflexivity |].
    cbn [map fold_right]. rewrite IHr. cbn [filter].
    destruct (String.eqb (f e) k); cbn [map fold_right]; lia.
Qed.

(** X6. The months offered by the selector split the ledger: the spend of
    the offered months adds up to the spend of all time. *)
Theorem offered_months_partition (now : Z) (ledger : list GlobalTransaction) :
  sumZ (map (fun k => sumZ (map amount (filteredExpenses k ledger)))
            (tl (monthOptions now ledger)))
  = sumZ (map amount (filteredExpenses "all" ledger)).
Proof.
  change (filteredExpenses "all" ledger) with ledger.
  rewrite <- (sum_by_key (fun e => monthKey (timestamp e))
                (tl (monthOptions now ledger)) ledger).
  - f_equal. apply map_ext_in. intros k Hk.
    now rewrite (filteredExpenses_by_key k ledger (monthOptions_tail_length _ _ _ Hk)).
  - apply monthOptions_tail_NoDup.
  - apply Forall_forall. intros e He. apply monthOptions_tail_In.
    left. now exists e.
Qed.

(** ** Fund history: income and spend *)

Lemma inMonth_with_category (k c : string) (t : GlobalTransaction) :
  inMonth k (with_category c t) = inMonth k t.
Proof. reflexivity. Qed.

(** X7. In a month, every entry of the fund history counts once: as income
    when its type is 'add', as a ledger expense when it is 'remove'; the
    income of the month and the fund expenses of the month add up to the
    amounts of all fund-history entries of the month. *)
Theorem fund_history_split (st : AppState) (selectedMonth : string) :
  selectedMonth <> "all" ->
  totalIncomeForMonth (fundHistory st) selectedMonth
  + sumZ (map amount (filteredExpenses selectedMonth (fundExpenses st)))
  = sumZ (map amount (filter (inMonth selectedMonth) (fundHistory st))).
Proof.
  intros Hsel. apply String.eqb_neq in Hsel.
  unfold totalIncomeForMonth, filteredExpenses, fundExpenses. rewrite Hsel.
  rewrite reduce_amounts, Z.add_0_l.
  induction (fundHistory st) as [|t l IH]; [reflexivity |].
  cbn [filter map]. unfold is_add, is_remove in *.
  destruct (type t); cbn [TxType_eqb andb filter map];
    rewrite ?inMonth_with_category;
    destruct (inMonth selectedMonth t); cbn [map sumZ fold_right amount with_category] in *;
    unfold sumZ in *; cbn [fold_right]; lia.
Qed.

(** ** Categorical aggregator: the ranking *)

Lemma byValueDesc_total (a b : PieEntry) :
  byValueDesc a b = true \/ byValueDesc b a = true.
Proof.
  unfold byValueDesc.
  destruct (Obj.primToNumber (value a)) as [x|], (Obj.primToNumber (value b)) as [y|];
    try (now left).
  destruct (Z.leb_spec (y - x) 0); [now left | right]. apply Z.leb_le. lia.
Qed.

Lemma Sorted_Forall_weaken {A : Type} (R R' : A -> A -> Prop) (P : A -> Prop)
    (l : list A) :
  (forall a b, P a -> P b -> R a b -> R' a b) ->
  Forall P l -> Sorted R l -> Sorted R' l.
Proof.
  intros Hw Hall Hs. induction Hs as [|a l Hs IH Hhd]; [constructor |].
  inversion Hall as [|? ? Pa Pl]; subst.
  constructor; [now apply IH |].
  destruct Hhd as [|b l' Hab]; constructor.
  inversion Pl; subst. now apply Hw.
Qed.

Lemma valuesSum_numbers (g : PieEntry -> Z) (l : list PieEntry) :
  Forall (fun p => value p = Obj.Num (g p)) l ->
  valuesSum l = Some (sumZ (map g l)).
Proof.
  unfold valuesSum, sumZ. induction 1 as [|p l Hp _ IH]; [reflexivity |].
  cbn [map sumNumbers fold_right]. now rewrite Hp, IH.
Qed.

Lemma plain_categories_entries (filtered : list GlobalTransaction) :
  Forall (fun e => Obj.inherited (resolvedCategory e) = false) filtered ->
  Forall (fun p => value p = Obj.Num (categoryTotal (pie_name p) filtered))
         (pieChartData filtered).
Proof.
  intros Hplain. apply Forall_forall. intros p Hp.
  apply pieChartData_entry; [exact Hp |].
  assert (Hn : In (pie_name p) (map pie_name (pieChartData filtered)))
    by now apply in_map.
  apply pieChartData_has in Hn. destruct Hn as (Hn & _).
  apply in_map_iff in Hn. destruct Hn as (e & <- & He).
  rewrite Forall_forall in Hplain. now apply Hplain.
Qed.

Lemma pieChartData_NoDup (filtered : list GlobalTransaction) :
  NoDup (map pie_name (pieChartData filtered)).
Proof.
  eapply Permutation_NoDup; [symmetry; apply pieChartData_names |].
  apply (groupTotals_keys categoryOf).
Qed.

(** X8. When no category of the filtered records is the name of a property
    that objects inherit, the categorical breakdown is ranked and
    complete: each entry carries the sum of the amounts of the records of
    its category; the entries are in descending order of these sums; no
    category occurs twice; the categories are exactly the categories of
    the filtered records, the fallback label standing for a missing or
    empty one, and none is empty; the totals add up to the sum of the
    filtered amounts; and the breakdown is empty exactly when there is no
    filtered record. *)
Theorem pieChartData_ranked (filtered : list GlobalTransaction) :
  Forall (fun e => Obj.inherited (resolvedCategory e) = false) filtered ->
  Forall (fun p => value p = Obj.Num (categoryTotal (pie_name p) filtered))
         (pieChartData filtered)
  /\ StronglySorted
       (fun a b => categoryTotal (pie_name b) filtered
                   <= categoryTotal (pie_name a) filtered)
       (pieChartData filtered)
  /\ NoDup (map pie_name (pieChartData filtered))
  /\ (forall c, In c (map pie_name (pieChartData filtered))
                <-> In c (map resolvedCategory filtered))
  /\ Forall (fun p => pie_name p <> "") (pieChartData filtered)
  /\ valuesSum (pieChartData filtered) = Some (sumZ (map amount filtered))
  /\ (pieChartData filtered = [] <-> filtered = []).
Proof.
  intros Hplain.
  pose proof (plain_categories_entries filtered Hplain) as Hval.
  assert (Hhas : forall c, In c (map pie_name (pieChartData filtered))
                           <-> In c (map resolvedCategory filtered)).
  { intros c. rewrite pieChartData_has. split; [tauto |].
    intros Hc. split; [exact Hc |]. intros ->.
    apply in_map_iff in Hc. destruct Hc as (e & He & Hin).
    rewrite Forall_forall in Hplain. specialize (Hplain e Hin).
    rewrite He in Hplain. discriminate Hplain. }
  split; [exact Hval |]. split; [| split; [| split; [| split; [| split]]]].
  - apply Sorted_StronglySorted; [intros a b c Hab Hbc; lia |].
    apply (Sorted_Forall_weaken (fun a b => byValueDesc a b = true) _
             (fun p => value p = Obj.Num (categoryTotal (pie_name p) filtered))).
    + intros a b Ha Hb Hab. unfold byValueDesc in Hab. rewrite Ha, Hb in Hab.
      cbn [Obj.primToNumber] in Hab. apply Z.leb_le in Hab. lia.
    + exact Hval.
    + unfold pieChartData. apply stable_sort_Sorted. exact byValueDesc_total.
  - apply pieChartData_NoDup.
  - exact Hhas.
  - apply Forall_forall. intros p Hp.
    assert (Hn : In (pie_name p) (map pie_name (pieChartData filtered)))
      by now apply in_map.
    apply Hhas in Hn. apply in_map_iff in Hn. destruct Hn as (e & <- & _).
    apply resolvedCategory_nonempty.
  - rewrite (valuesSum_numbers _ _ Hval).
    rewrite <- (map_map pie_name (fun k => categoryTotal k filtered)).
    f_equal. apply (sum_by_key resolvedCategory).
    + apply pieChartData_NoDup.
    + apply Forall_forall. intros e He. apply Hhas. now apply in_map.
  - split.
    + intros E. destruct filtered as [|e l]; [reflexivity |].
      assert (H : In (resolvedCategory e) (map pie_name (pieChartData (e :: l))))
        by (apply Hhas; now left).
      rewrite E in H. destruct H.
    + intros ->. reflexivity.
Qed.

(** ** Slices, details and budgets *)

(** X9. Clicking a slice of the breakdown opens the records behind it: for
    every entry of the categorical breakdown whose name is not the name of
    an inherited property, the detail query returns a non-empty list of
    records of that category, and the entry's total is the sum of their
    amounts. *)
Theorem slice_click_details (filtered : list GlobalTransaction) (p : PieEntry) :
  In p (pieChartData filtered) ->
  Obj.inherited (pie_name p) = false ->
  exists txs,
    handlePieClick filtered (Some p)
    = Some {| detail_category := pie_name p; detail_transactions := txs |}
    /\ txs <> []
    /\ Forall (fun e => resolvedCategory e = pie_name p) txs
    /\ value p = Obj.Num (sumZ (map amount txs)).
Proof.
  intros Hp Hplain.
  assert (Hn : In (pie_name p) (map pie_name (pieChartData filtered)))
    by now apply in_map.
  apply pieChartData_has in Hn. destruct Hn as (Hn & _).
  apply in_map_iff in Hn. destruct Hn as (e & He & Hin).
  assert (Hname : String.eqb (pie_name p) "" = false)
    by (apply String.eqb_neq; rewrite <- He; apply resolvedCategory_nonempty).
  exists (stable_sort byAmountDesc (filter (inCategory (pie_name p)) filtered)).
  split; [| split; [| split]].
  - unfold handlePieClick. rewrite Hname. cbv zeta. now rewrite filter_categoryOf.
  - intros E. apply stable_sort_nil_inv in E.
    assert (H : In e (filter (inCategory (pie_name p)) filtered))
      by (apply filter_In; split; [exact Hin | now apply String.eqb_eq]).
    rewrite E in H. destruct H.
  - apply Forall_forall. intros x Hx.
    apply (Permutation_in _ (stable_sort_perm _ _)) in Hx.
    apply filter_In in Hx. destruct Hx as (_ & Hc). now apply String.eqb_eq in Hc.
  - rewrite (pieChartData_entry filtered p Hp Hplain). f_equal.
    unfold categoryTotal. symmetry.
    apply sumZ_perm, Permutation_map, stable_sort_perm.
Qed.

(** X10. For budgets whose names are not names of inherited properties,
    the budget comparison has one row per budget, in the order of the
    budgets, with the budget's amount and, as the actual spend, the sum of
    the filtered amounts of the category named like the budget; that is
    the total of the breakdown entry of that name, and 0 when the
    breakdown has no such entry. *)
Theorem budget_actual_is_slice (filtered : list GlobalTransaction) (bs : list Budget) :
  Forall (fun b => Obj.inherited (name b) = false) bs ->
  budgetComparisonData filtered bs
  = map (fun b => {| cmp_name := name b; Dianggarkan := totalBudget b;
                     Terpakai := Obj.Prim (Obj.Num (categoryTotal (name b) filtered)) |})
        bs
  /\ Forall (fun row =>
               Terpakai row
               = match find (fun p => String.eqb (pie_name p) (cmp_name row))
                            (pieChartData filtered) with
                 | Some p => Obj.Prim (value p)
                 | None => Obj.Prim (Obj.Num 0)
                 end)
            (budgetComparisonData filtered bs).
Proof.
  intros Hplain.
  assert (E : budgetComparisonData filtered bs
              = map (fun b => {| cmp_name := name b; Dianggarkan := totalBudget b;
                                 Terpakai := Obj.Prim (Obj.Num
                                               (categoryTotal (name b) filtered)) |})
                    bs).
  { unfold budgetComparisonData. apply map_ext_in. intros b Hb.
    rewrite Forall_forall in Hplain.
    rewrite (groupTotals_or0 categoryOf filtered _ (Hplain b Hb)).
    now rewrite totalFor_categoryOf. }
  split; [exact E |].
  rewrite E. apply Forall_forall. intros row Hrow.
  apply in_map_iff in Hrow. destruct Hrow as (b & <- & Hb).
  cbn [Terpakai cmp_name].
  rewrite Forall_forall in Hplain. specialize (Hplain b Hb).
  destruct (find _ (pieChartData filtered)) as [p|] eqn:F.
  - apply find_some in F. destruct F as (Hp & Hn). apply String.eqb_eq in Hn.
    rewrite <- Hn in *. now rewrite (pieChartData_entry filtered p Hp Hplain).
  - do 2 f_equal. unfold categoryTotal.
    destruct (filter (inCategory (name b)) filtered) as [|e l] eqn:Ef;
      [reflexivity | exfalso].
    assert (He : In e (filter (inCategory (name b)) filtered))
      by (rewrite Ef; now left).
    apply filter_In in He. destruct He as (Hin & Hc). apply String.eqb_eq in Hc.
    assert (Hp : In (name b) (map pie_name (pieChartData filtered))).
    { apply pieChartData_has. split.
      - rewrite <- Hc. now apply in_map.
      - intros Hproto. rewrite Hproto in Hplain. discriminate Hplain. }
    apply in_map_iff in Hp. destruct Hp as (p & Hn & Hp).
    pose proof (find_none _ _ F p Hp) as Hf. cbn beta in Hf.
    rewrite Hn, String.eqb_refl in Hf. discriminate Hf.
Qed.

(** ** Daily trend builder: what the series adds up to *)

Lemma filter_andb {A : Type} (a b : A -> bool) (l : list A) :
  filter (fun x => a x && b x) l = filter b (filter a l).
Proof.
  induction l as [|x l IH]; simpl; [reflexivity |].
  destruct (a x); simpl; [destruct (b x) |]; now rewrite IH.
Qed.

(** X11. In every zone, the daily totals of a month add up to the amounts
    of the filtered records that are dated, in local time, in that month
    (for the years 1000 to 9999); filtered records that local time puts in
    a neighbouring month are in no day of the series. *)
Theorem trendData_sums_local_month (tz y m : Z) (filtered : list GlobalTransaction) :
  1000 <= y <= 9999 -> 1 <= m <= 12 ->
  Forall (fun e => 1000 <= JSDate.getFullYear tz (timestamp e) <= 9999) filtered ->
  totalsSum (trendData tz (ymKey y m) filtered)
  = Some (sumZ (map amount (filter (inLocalMonth tz y m) filtered))).
Proof.
  intros Hy Hm Hall.
  pose proof (calendarDaysInMonth_bounds y m Hm) as Hb.
  rewrite (trendData_ymKey tz y m filtered ltac:(lia) Hm), totalsSum_numbers. f_equal.
  rewrite <- (daily_totals_sum (fun e => JSDate.getDate tz (timestamp e))
                (Z.to_nat (calendarDaysInMonth y m))
                (filter (inLocalMonth tz y m) filtered)).
  - f_equal. apply map_ext_in. intros i Hi. apply Zrange_In_inv in Hi.
    rewrite totalFor_onLocalDay by (assumption || lia).
    do 2 f_equal. unfold onLocalDay. apply (filter_andb (inLocalMonth tz y m)).
  - apply Forall_forall. intros e He. apply filter_In in He.
    destruct He as (_ & Hmo). unfold inLocalMonth in Hmo.
    apply andb_true_iff in Hmo. destruct Hmo as (HY & HM).
    apply Z.eqb_eq in HY, HM.
    pose proof (DateFromTime_range (JSDate.LocalTime tz (timestamp e))) as Hr.
    pose proof (DateFromTime_le_month (JSDate.LocalTime tz (timestamp e))) as Hle.
    unfold JSDate.getFullYear, JSDate.getMonth in HY, HM. rewrite HY, HM in Hle.
    unfold JSDate.getDate. lia.
Qed.

(** X12. With no offset between local time and UTC the daily series loses
    nothing: the daily totals of a month add up to the amounts of all
    records the period filter selects for it (for the years 1000 to
    9999). *)
Theorem trendData_complete_at_offset_0 (y m : Z) (ledger : list GlobalTransaction) :
  1000 <= y <= 9999 -> 1 <= m <= 12 ->
  Forall (fun e => 1000 <= JSDate.YearFromTime (timestamp e) <= 9999) ledger ->
  totalsSum (trendData 0 (ymKey y m) (filteredExpenses (ymKey y m) ledger))
  = Some (sumZ (map amount (filteredExpenses (ymKey y m) ledger))).
Proof.
  exact (trendData_conserves_at_offset_0 y m ledger).
Qed.

(** ** Forecast engine: the states without a forecast *)

(** X13. The forecast engine answers without computing anything in three
    cases, in this order: for "all" it clears the forecast; for a month
    that is not the month of "now" in local time it gives the notice that
    forecasts exist for the running month only, whatever the income and
    the expenses; and for the running month with an income of 0 it asks
    for income, whatever the expenses. *)
Theorem fetchForecast_not_applicable (tz today y m : Z)
    (filtered : list GlobalTransaction) (income : Z) :
  1 <= y <= 9999 -> 1 <= m <= 12 ->
  fetchForecast tz today "all" filtered income = ForecastNull
  /\ (JSDate.getFullYear tz today <> y \/ JSDate.getMonth tz today <> m - 1 ->
      fetchForecast tz today (ymKey y m) filtered income
      = ForecastMessage msgNotCurrentMonth)
  /\ (JSDate.getFullYear tz today = y -> JSDate.getMonth tz today = m - 1 ->
      fetchForecast tz today (ymKey y m) filtered 0
      = ForecastMessage msgNoIncome).
Proof.
  intros Hy Hm. split; [reflexivity |]. split.
  - intros Hne. unfold fetchForecast. cbv zeta.
    rewrite ymKey_not_all by lia.
    rewrite ymKey_year by lia. rewrite ymKey_month by lia.
    cbn [option_map num_eq].
    destruct (Z.eqb_spec (JSDate.getFullYear tz today) y) as [E1|N1];
      destruct (Z.eqb_spec (JSDate.getMonth tz today) (m - 1)) as [E2|N2];
      cbn [andb negb]; try reflexivity.
    destruct Hne; contradiction.
  - intros HY HM. unfold fetchForecast. cbv zeta.
    rewrite ymKey_not_all by lia.
    rewrite ymKey_year by lia. rewrite ymKey_month by lia.
    cbn [option_map num_eq]. rewrite HY, HM, !Z.eqb_refl. reflexivity.
Qed.

(** ** The panels of commentary *)

(** The breakdown is empty exactly when every filtered record is of the
    category [__proto__], the one under which nothing is stored. *)
Lemma pieChartData_nil_iff (filtered : list GlobalTransaction) :
  pieChartData filtered = []
  <-> Forall (fun e => resolvedCategory e = Obj.protoAccessor) filtered.
Proof.
  split.
  - intros E. apply Forall_forall. intros e He.
    destruct (string_dec (resolvedCategory e) Obj.protoAccessor) as [Hc|Hc];
      [exact Hc | exfalso].
    assert (H : In (resolvedCategory e) (map pie_name (pieChartData filtered)))
      by (apply pieChartData_has; split; [now apply in_map | exact Hc]).
    rewrite E in H. destruct H.
  - intros Hall. destruct (pieChartData filtered) as [|p l] eqn:E; [reflexivity |].
    exfalso.
    assert (H : In (pie_name p) (map pie_name (pieChartData filtered)))
      by (rewrite E; now left).
    apply pieChartData_has in H. destruct H as (H & Hne).
    apply in_map_iff in H. destruct H as (e & He & Hin).
    rewrite Forall_forall in Hall. rewrite (Hall e Hin) in He. congruence.
Qed.

Lemma length_zero_iff {A : Type} (l : list A) :
  (Z.of_nat (List.length l) =? 0) = true <-> l = [].
Proof.
  destruct l; simpl; split; intros H; try reflexivity; discriminate H.
Qed.

(** X14. When the commentary is requested.  The analysis of the breakdown
    is requested exactly when some filtered record has a category other
    than [__proto__] (the fallback label standing for a missing or empty
    category), so for every non-empty set of records with ordinary
    categories; the analysis of the budgets exactly when there is a
    budget, with or without expenses; for the period "all" the analysis of
    the trend is never requested. *)
Theorem analysis_requested_when (tz : Z) (filtered : list GlobalTransaction)
    (bs : list Budget) (s : Panel) :
  (snd (pieAnalysisStart (pieChartData filtered) s) = None
   <-> Forall (fun e => resolvedCategory e = Obj.protoAccessor) filtered)
  /\ (snd (budgetAnalysisStart (budgetComparisonData filtered bs) s) = None
      <-> bs = [])
  /\ trendAnalysisStart (trendData tz "all" filtered) s
     = ({| panelText := Some msgNoExpenseData;
           panelFetching := panelFetching s; panelError := panelError s |}, None).
Proof.
  split; [| split; [| reflexivity]].
  - rewrite <- pieChartData_nil_iff, <- length_zero_iff. unfold pieAnalysisStart.
    destruct (Z.of_nat (List.length (pieChartData filtered)) =? 0); simpl;
      split; congruence.
  - unfold budgetAnalysisStart, budgetComparisonData. rewrite length_map.
    rewrite <- (length_zero_iff bs).
    destruct (Z.of_nat (List.length bs) =? 0); simpl; split; congruence.
Qed.

(** X15. A run that finds nothing to analyse does not clear an earlier
    error: after a failed request, the run for a trend without expenses,
    for an empty budget list or for an empty breakdown leaves the panel
    showing the failure, and its own notice stays hidden. *)
Theorem no_data_run_keeps_failure (trend : list TrendEntry) (s0 : Panel) :
  forallb (fun d => Obj.is0 (total d)) trend = true ->
  let failed := requestEnd msgAnalysisFailed Rejected s0 in
  let view := {| showsLoading := false; shownError := Some msgAnalysisFailed;
                 shownText := None |} in
  cardView (fst (trendAnalysisStart trend failed)) = view
  /\ cardView (fst (budgetAnalysisStart [] failed)) = view
  /\ cardView (fst (pieAnalysisStart [] failed)) = view
  /\ panelText (fst (trendAnalysisStart trend failed)) = Some msgNoExpenseData.
Proof.
  intros Hz failed view. unfold trendAnalysisStart. rewrite Hz.
  repeat split.
Qed.

Lemma forecastStart_outcome (tz today : Z) (selectedMonth : string)
    (filtered : list GlobalTransaction) (income : Z) (s : Panel) :
  snd (forecastStart tz today selectedMonth filtered income s)
  = match fetchForecast tz today selectedMonth filtered income with
    | ForecastRequest p => Some p
    | _ => None
    end
  /\ panelText (fst (forecastStart tz today selectedMonth filtered income s))
     = match fetchForecast tz today selectedMonth filtered income with
       | ForecastNull => None
       | ForecastMessage msg => Some msg
       | ForecastRequest _ => panelText s
       end.
Proof.
  unfold forecastStart, fetchForecast. cbv zeta.
  destruct (String.eqb selectedMonth "all"); [split; reflexivity |].
  destruct (negb _); [split; reflexivity |].
  destruct (income =? 0); [split; reflexivity |].
  destruct (fold_left _ filtered 0 =? 0); split; reflexivity.
Qed.

(** X16. The forecast panel keeps an earlier failure through the states
    without a forecast: after a failed request, a run for a month that is
    not the month of "now" leaves the panel showing the failure instead of
    its notice, and so does a run for the running month without income;
    a run that finds no spend clears the failure and shows its message. *)
Theorem forecast_failure_persists (tz today y m : Z)
    (filtered : list GlobalTransaction) (income : Z) (s0 : Panel) :
  1 <= y <= 9999 -> 1 <= m <= 12 ->
  let failed := requestEnd msgForecastFailed Rejected s0 in
  let view := {| showsLoading := false; shownError := Some msgForecastFailed;
                 shownText := None |} in
  (JSDate.getFullYear tz today <> y \/ JSDate.getMonth tz today <> m - 1 ->
   cardView (fst (forecastStart tz today (ymKey y m) filtered income failed)) = view)
  /\ (JSDate.getFullYear tz today = y -> JSDate.getMonth tz today = m - 1 ->
      cardView (fst (forecastStart tz today (ymKey y m) filtered 0 failed)) = view)
  /\ (JSDate.getFullYear tz today = y -> JSDate.getMonth tz today = m - 1 ->
      income <> 0 -> sumZ (map amount filtered) = 0 ->
      cardView (fst (forecastStart tz today (ymKey y m) filtered income failed))
      = {| showsLoading := false; shownError := None;
           shownText := Some msgZeroSpend |}).
Proof.
  intros Hy Hm failed view.
  assert (Hstart : forall inc,
            forecastStart tz today (ymKey y m) filtered inc failed
            = let isCurrentMonth :=
                (JSDate.getFullYear tz today =? y)
                && (JSDate.getMonth tz today =? m - 1) in
              if negb isCurrentMonth then
                ({| panelText := Some msgNotCurrentMonth; panelFetching := false;
                    panelError := Some msgForecastFailed |}, None)
              else if inc =? 0 then
                ({| panelText := Some msgNoIncome; panelFetching := false;
                    panelError := Some msgForecastFailed |}, None)
              else if sumZ (map amount filtered) =? 0 then
                ({| panelText := Some msgZeroSpend; panelFetching := false;
                    panelError := None |}, None)
              else
                ({| panelText := panelText s0; panelFetching := true;
                    panelError := None |},
                 Some (forecastPrompt inc (sumZ (map amount filtered))
                         (JSDate.getDate tz today)
                         (JS.num_or0 (lastDayOf tz (Some y) (Some (m - 1 + 1))))))).
  { intros inc. unfold forecastStart. cbv zeta.
    rewrite ymKey_not_all by lia.
    rewrite ymKey_year by lia. rewrite ymKey_month by lia.
    cbn [option_map num_eq]. rewrite reduce_amounts, Z.add_0_l. reflexivity. }
  split; [| split].
  - intros Hne. rewrite Hstart. cbv zeta.
    destruct (Z.eqb_spec (JSDate.getFullYear tz today) y);
      destruct (Z.eqb_spec (JSDate.getMonth tz today) (m - 1));
      cbn [andb negb]; try reflexivity.
    destruct Hne; contradiction.
  - intros HY HM. rewrite Hstart. cbv zeta.
    rewrite HY, HM, !Z.eqb_refl. reflexivity.
  - intros HY HM Hinc Hsp. rewrite Hstart. cbv zeta.
    rewrite HY, HM, !Z.eqb_refl, Hsp. cbn [andb negb].
    apply Z.eqb_neq in Hinc. rewrite Hinc. reflexivity.
Qed.

(** X17. A response is applied to the panel as it is when the response
    arrives.  If, while a request for a breakdown is under way, the
    breakdown becomes empty, the run for the empty breakdown leaves the
    loading line on and its notice hidden; the response, when it arrives,
    replaces the notice and is shown. *)
Theorem late_response_is_shown (pie : list PieEntry) (text : string) (s : Panel) :
  pie <> [] -> text <> "" ->
  let requested := fst (pieAnalysisStart pie s) in
  let emptied := fst (pieAnalysisStart [] requested) in
  cardView emptied
  = {| showsLoading := true; shownError := None; shownText := None |}
  /\ panelText emptied = Some msgNoExpenseData
  /\ cardView (requestEnd msgAnalysisFailed (Resolved text) emptied)
     = {| showsLoading := false; shownError := None; shownText := Some text |}.
Proof.
  intros Hpie Htext. cbv zeta. unfold pieAnalysisStart.
  destruct (Z.of_nat (List.length pie) =? 0) eqn:E.
  - apply length_zero_iff in E. contradiction.
  - apply String.eqb_neq in Htext.
    split; [reflexivity |]. split; [reflexivity |].
    unfold cardView, requestEnd, leaveMessage, beginRequest.
    cbn [fst panelText panelFetching panelError truthy negb isNone andb].
    rewrite Htext. reflexivity.
Qed.

Lemma totalFor_nonneg (key : GlobalTransaction -> string) (k : string)
    (l : list GlobalTransaction) :
  Forall (fun e => 0 <= amount e) l -> 0 <= totalFor key k l.
Proof.
  unfold totalFor, sumZ. induction 1 as [|e l He _ IH]; simpl; [lia |].
  destruct (String.eqb (key e) k); simpl; lia.
Qed.

Lemma trendData_totals_nonneg (tz : Z) (selectedMonth : string)
    (filtered : list GlobalTransaction) :
  Forall (fun e => 0 <= amount e) filtered ->
  Forall (fun d => exists n, total d = Obj.Prim (Obj.Num n) /\ 0 <= n)
         (trendData tz selectedMonth filtered).
Proof.
  intros Hpos.
  destruct (String.eqb selectedMonth "all") eqn:E.
  - unfold trendData. rewrite E. constructor.
  - rewrite (trendData_entries tz selectedMonth filtered E).
    apply Forall_map_intro. apply Forall_forall. intros i _. cbn [total].
    eexists. split; [reflexivity | now apply totalFor_nonneg].
Qed.

Lemma trendChartShown_nonneg (trend : list TrendEntry) :
  Forall (fun d => exists n, total d = Obj.Prim (Obj.Num n) /\ 0 <= n) trend ->
  trendChartShown trend = negb (forallb (fun d => Obj.is0 (total d)) trend).
Proof.
  unfold trendChartShown. induction 1 as [|d l (n & Hd & Hn) _ IH]; [reflexivity |].
  cbn [forallb existsb List.length].
  replace (0 <? Z.of_nat (S (List.length l))) with true
    by (symmetry; apply Z.ltb_lt; lia).
  cbn [andb]. rewrite Hd.
  unfold Obj.gt0 at 1. cbn [Obj.toNumber Obj.primToNumber Obj.is0].
  destruct (Z.eqb_spec n 0) as [E|N].
  - replace (0 <? n) with false by (symmetry; apply Z.ltb_ge; lia).
    cbn [orb andb]. rewrite <- IH.
    destruct l as [|d' l']; [reflexivity |].
    cbn [List.length].
    replace (0 <? Z.of_nat (S (List.length l'))) with true
      by (symmetry; apply Z.ltb_lt; lia).
    reflexivity.
  - replace (0 <? n) with true by (symmetry; apply Z.ltb_lt; lia).
    reflexivity.
Qed.

(** X18. With amounts that are not negative, the line chart of the trend
    is drawn exactly when the analysis of the trend is requested: both
    need a day with a positive total. *)
Theorem trend_chart_iff_analysis (tz : Z) (selectedMonth : string)
    (filtered : list GlobalTransaction) (s : Panel) :
  Forall (fun e => 0 <= amount e) filtered ->
  trendChartShown (trendData tz selectedMonth filtered)
  = negb (isNone (snd (trendAnalysisStart (trendData tz selectedMonth filtered) s))).
Proof.
  intros Hpos.
  rewrite (trendChartShown_nonneg _ (trendData_totals_nonneg tz selectedMonth filtered Hpos)).
  unfold trendAnalysisStart.
  destruct (forallb _ (trendData tz selectedMonth filtered)); reflexivity.
Qed.

(** ** Titles of the periods *)

Lemma Day_local_midnight (d tz : Z) :
  JSDate.Day (JSDate.LocalTime tz (JSDate.MakeDate d 0)) = d + tz / 1440.
Proof.
  unfold JSDate.Day, JSDate.LocalTime, JSDate.MakeDate, JSDate.msPerDay,
    JSDate.msPerMinute.
  Z.div_mod_to_equations. lia.
Qed.

Lemma month_0_to_11 (mn : Z) :
  0 <= mn <= 11 ->
  mn = 0 \/ mn = 1 \/ mn = 2 \/ mn = 3 \/ mn = 4 \/ mn = 5 \/ mn = 6 \/ mn = 7
  \/ mn = 8 \/ mn = 9 \/ mn = 10 \/ mn = 11.
Proof. lia. Qed.

(** The first 28 days of a month lie in that month of that year. *)
Lemma day_in_month (y mn j : Z) :
  0 <= mn <= 11 -> 0 <= j <= 27 ->
  JSDate.YearFromDay
    (JSDate.DayFromYear y + JSDate.DaysBeforeMonth (JSDate.LeapOf y) mn + j) = y
  /\ JSDate.MonthOfYearDay (JSDate.DaysBeforeMonth (JSDate.LeapOf y) mn + j)
       (JSDate.LeapOf y) = mn.
Proof.
  intros Hmn Hj.
  pose proof (DayFromYear_step y) as Hstep. rewrite DaysInYear_LeapOf in Hstep.
  apply month_0_to_11 in Hmn.
  destruct (LeapOf_cases y) as [HL|HL]; rewrite HL in *;
    repeat (destruct Hmn as [-> | Hmn]); try subst mn;
    (split;
     [ apply YearFromDay_unique; cbn [JSDate.DaysBeforeMonth]; lia
     | unfold JSDate.MonthOfYearDay; cbn [JSDate.DaysBeforeMonth];
       repeat match goal with
              | |- context [if ?a <? ?b then _ else _] => destruct (Z.ltb_spec a b)
              end; lia ]).
Qed.

Lemma key_with_day_slices (yy mm : string) :
  String.length yy = 4%nat -> String.length mm = 2%nat ->
  let s := (yy ++ "-" ++ mm) ++ "-02" in
  String.length s = 10%nat
  /\ JS.slice 0 4 s = yy /\ JS.slice 4 5 s = "-" /\ JS.slice 5 7 s = mm
  /\ JS.slice 7 8 s = "-" /\ JS.slice 8 10 s = "02".
Proof.
  intros Hy Hm.
  destruct yy as [|a [|b [|c [|d [|? ?]]]]]; try discriminate Hy.
  destruct mm as [|e [|f [|? ?]]]; try discriminate Hm.
  repeat split.
Qed.

Lemma parseDateOnly_key (y m : Z) :
  0 <= y <= 9999 -> 1 <= m <= 12 ->
  Title.parseDateOnly (ymKey y m ++ "-02")
  = Some (JSDate.MakeDate (JSDate.MakeDay y (m - 1) 2) 0).
Proof.
  intros Hy Hm.
  destruct (yearDigits y Hy) as (Ly & Dy & Vy).
  destruct (monthDigits m ltac:(lia)) as (Lm & Dm & Vm).
  destruct (key_with_day_slices _ _ Ly Lm) as (Hl & S1 & S2 & S3 & S4 & S5).
  unfold Title.parseDateOnly, ymKey. cbv zeta.
  rewrite Hl, S1, S2, S3, S4, S5, Dy, Dm, Vy, Vm.
  cbn [Nat.eqb String.eqb Ascii.eqb Bool.eqb andb].
  change (JS.all_digits "02") with true.
  change (JS.digits_value 0 "02") with 2.
  replace (1 <=? m) with true by (symmetry; apply Z.leb_le; lia).
  replace (m <=? 12) with true by (symmetry; apply Z.leb_le; lia).
  reflexivity.
Qed.

(** X19. The title of a month names that month in every zone within a day
    of UTC: the day 02 that the component appends to the key keeps the
    date in the month, whichever way the zone shifts it. *)
Theorem titleText_names_month (tz y m : Z) :
  1 <= y <= 9999 -> 1 <= m <= 12 -> -1440 <= tz <= 1440 ->
  Title.titleText tz (ymKey y m)
  = nth (Z.to_nat (m - 1)) Title.monthNames "" ++ " " ++ JS.toString y.
Proof.
  intros Hy Hm Htz.
  unfold Title.titleText. rewrite ymKey_not_all by lia.
  rewrite parseDateOnly_key by lia.
  unfold Title.toLocaleMonthYear_idID.
  assert (Hd : JSDate.MakeDay y (m - 1) 2
               = JSDate.DayFromYear y
                 + JSDate.DaysBeforeMonth (JSDate.LeapOf y) (m - 1) + 1).
  { unfold JSDate.MakeDay. rewrite Z.div_small, Z.mod_small by lia.
    replace (y + 0) with y by lia. lia. }
  assert (Hj : 0 <= 1 + tz / 1440 <= 27) by (Z.div_mod_to_equations; lia).
  destruct (day_in_month y (m - 1) (1 + tz / 1440) ltac:(lia) Hj) as (HY & HM).
  assert (Hday : JSDate.Day (JSDate.LocalTime tz
                   (JSDate.MakeDate (JSDate.MakeDay y (m - 1) 2) 0))
                 = JSDate.DayFromYear y
                   + JSDate.DaysBeforeMonth (JSDate.LeapOf y) (m - 1)
                   + (1 + tz / 1440))
    by (rewrite Day_local_midnight, Hd; lia).
  assert (EY : JSDate.getFullYear tz
                 (JSDate.MakeDate (JSDate.MakeDay y (m - 1) 2) 0) = y)
    by (unfold JSDate.getFullYear, JSDate.YearFromTime; now rewrite Hday).
  assert (EM : JSDate.getMonth tz
                 (JSDate.MakeDate (JSDate.MakeDay y (m - 1) 2) 0) = m - 1).
  { unfold JSDate.getMonth, JSDate.MonthFromTime, JSDate.DayWithinYear,
      JSDate.InLeapYear, JSDate.YearFromTime.
    rewrite Hday, HY.
    replace (JSDate.DayFromYear y
             + JSDate.DaysBeforeMonth (JSDate.LeapOf y) (m - 1)
             + (1 + tz / 1440) - JSDate.DayFromYear y)
      with (JSDate.DaysBeforeMonth (JSDate.LeapOf y) (m - 1) + (1 + tz / 1440))
      by lia.
    exact HM. }
  now rewrite EY, EM.
Qed.

(** ** Colours of the pie cells *)

(** X20. Every cell of the pie gets one of the eight colours, whatever its
    index; the colours repeat from the ninth cell on, and the first eight
    cells have different colours. *)
Theorem cellFill_cycles (index : nat) :
  (exists c, cellFill index = Some c /\ In c COLORS)
  /\ cellFill (index + 8) = cellFill index
  /\ NoDup COLORS.
Proof.
  split; [| split].
  - unfold cellFill.
    destruct (nth_error COLORS (index mod List.length COLORS)) as [c|] eqn:E.
    + exists c. split; [reflexivity |]. eapply nth_error_In. exact E.
    + apply nth_error_None in E.
      pose proof (Nat.mod_upper_bound index (List.length COLORS) ltac:(discriminate)).
      lia.
  - unfold cellFill. change (List.length COLORS) with 8%nat.
    f_equal. rewrite <- (Nat.Div0.add_mod_idemp_r index 8 8).
    change (8 mod 8)%nat with 0%nat. now rewrite Nat.add_0_r.
  - repeat constructor; simpl; intuition discriminate.
Qed.

(** ** Commentary text *)

Lemma splitLines_nonempty (text : string) : Markdown.splitLines text <> [].
Proof.
  destruct text as [|c r]; simpl; [discriminate |].
  destruct (Ascii.eqb c Markdown.newline); [discriminate |].
  destruct (Markdown.splitLines r); discriminate.
Qed.

Lemma splitLines_join (text : string) :
  String.concat (String Markdown.newline "") (Markdown.splitLines text) = text.
Proof.
  induction text as [|c r IH]; [reflexivity |].
  cbn [Markdown.splitLines].
  pose proof (splitLines_nonempty r) as Hne.
  destruct (Ascii.eqb_spec c Markdown.newline) as [->|_].
  - destruct (Markdown.splitLines r) as [|h t]; [contradiction |].
    cbn [String.concat] in *. now rewrite IH.
  - destruct (Markdown.splitLines r) as [|h t]; [contradiction |].
    destruct t as [|h' t']; cbn [String.concat append] in *; now rewrite IH.
Qed.

Lemma mapIndexed_length {A B : Type} (f : nat -> A -> B) (i : nat) (l : list A) :
  List.length (Markdown.mapIndexed f i l) = List.length l.
Proof.
  revert i; induction l as [|x l IH]; intros i; simpl; [reflexivity | now rewrite IH].
Qed.

Lemma mapIndexed_In {A B : Type} (f : nat -> A -> B) (i : nat) (l : list A) (y : B) :
  In y (Markdown.mapIndexed f i l) ->
  exists k x, nth_error l k = Some x /\ y = f (i + k)%nat x.
Proof.
  revert i; induction l as [|x l IH]; intros i Hin; simpl in Hin; [destruct Hin |].
  destruct Hin as [<-|Hin].
  - exists 0%nat, x. split; [reflexivity | now rewrite Nat.add_0_r].
  - destruct (IH _ Hin) as (k & x' & Hk & ->).
    exists (S k), x'. split; [exact Hk | f_equal; lia].
Qed.

Lemma formatLine_key (i : nat) (line : string) :
  Markdown.elementKey (Markdown.formatLine i line) = i.
Proof.
  unfold Markdown.formatLine.
  destruct (JS.startsWith "* " _); [reflexivity |].
  destruct (_ && _); reflexivity.
Qed.

Lemma mapIndexed_keys (i : nat) (l : list string) :
  map Markdown.elementKey (Markdown.mapIndexed Markdown.formatLine i l)
  = seq i (List.length l).
Proof.
  revert i; induction l as [|x l IH]; intros i; simpl; [reflexivity |].
  now rewrite formatLine_key, IH.
Qed.

(** X21. The commentary is laid out line by line: [formatMarkdown] returns
    one element per line of the text, in order, with the keys 0, 1, 2, ...;
    there is at least one line, and the lines joined by line feeds are the
    text. *)
Theorem formatMarkdown_by_line (text : string) :
  List.length (Markdown.formatMarkdown text)
  = List.length (Markdown.splitLines text)
  /\ map Markdown.elementKey (Markdown.formatMarkdown text)
     = seq 0 (List.length (Markdown.splitLines text))
  /\ Markdown.formatMarkdown text <> []
  /\ String.concat (String Markdown.newline "") (Markdown.splitLines text) = text.
Proof.
  unfold Markdown.formatMarkdown.
  split; [apply mapIndexed_length |]. split; [apply mapIndexed_keys |].
  split; [| apply splitLines_join].
  intros E. apply (f_equal (@List.length _)) in E.
  rewrite mapIndexed_length in E.
  pose proof (splitLines_nonempty text).
  destruct (Markdown.splitLines text); [contradiction | discriminate E].
Qed.

Lemma removeStarPairs_head (c : ascii) (r : string) :
  Ascii.eqb c "*" = false ->
  Markdown.removeStarPairs (String c r) = String c (Markdown.removeStarPairs r).
Proof.
  intros Hc. destruct r as [|c' r']; [reflexivity |].
  cbn [Markdown.removeStarPairs]. rewrite Hc. reflexivity.
Qed.

Lemma hasStarPair_cons (c c' : ascii) (r : string) :
  Markdown.hasStarPair (String c (String c' r))
  = (Ascii.eqb c "*" && Ascii.eqb c' "*") || Markdown.hasStarPair (String c' r).
Proof. reflexivity. Qed.

Lemma hasStarPair_after (c : ascii) (s : string) :
  Ascii.eqb c "*" = false -> Markdown.hasStarPair s = false ->
  Markdown.hasStarPair (String c s) = false.
Proof.
  intros Hc Hs. destruct s as [|x X]; [reflexivity |].
  now rewrite hasStarPair_cons, Hc, Hs.
Qed.

Lemma removeStarPairs_clean_bounded (n : nat) (s : string) :
  (String.length s <= n)%nat ->
  Markdown.hasStarPair (Markdown.removeStarPairs s) = false.
Proof.
  revert s; induction n as [|n IH]; intros s Hn.
  - destruct s; [reflexivity | simpl in Hn; lia].
  - destruct s as [|c [|c' r']]; [reflexivity | reflexivity |].
    cbn [String.length] in Hn.
    pose proof (IH (String c' r') ltac:(cbn [String.length]; lia)) as Hrest.
    change (Markdown.removeStarPairs (String c (String c' r')))
      with (if Ascii.eqb c "*" && Ascii.eqb c' "*"
            then Markdown.removeStarPairs r'
            else String c (Markdown.removeStarPairs (String c' r'))).
    destruct (Ascii.eqb c "*") eqn:Ec; destruct (Ascii.eqb c' "*") eqn:Ec';
      cbn [andb].
    + apply IH. lia.
    + rewrite (removeStarPairs_head c' r' Ec') in *.
      now rewrite hasStarPair_cons, Ec, Ec', Hrest.
    + now apply hasStarPair_after.
    + now apply hasStarPair_after.
Qed.

Lemma removeStarPairs_clean (s : string) :
  Markdown.hasStarPair (Markdown.removeStarPairs s) = false.
Proof.
  apply (removeStarPairs_clean_bounded (String.length s)). lia.
Qed.

Lemma startsWith_marker (t : string) :
  JS.startsWith "* " t = true -> t = "* " ++ Markdown.substringFrom 2 t.
Proof.
  unfold JS.startsWith. intros H.
  destruct t as [|a r]; [discriminate H |].
  cbn [String.prefix] in H.
  destruct (ascii_dec "*" a) as [<-|]; [| discriminate H].
  destruct r as [|b r]; [discriminate H |].
  cbn [String.prefix] in H.
  destruct (ascii_dec " " b) as [<-|]; [| discriminate H].
  reflexivity.
Qed.

(** X22. What each element holds.  A list item holds its line without the
    surrounding white space and without the marker; a bold paragraph holds
    its trimmed line without any pair of asterisks, and no pair is left in
    it; any other line is a paragraph with the line as it is. *)
Theorem formatMarkdown_elements (text : string) :
  Forall (fun e =>
            exists line,
              nth_error (Markdown.splitLines text) (Markdown.elementKey e) = Some line
              /\ match e with
                 | Markdown.ListItem _ t => Markdown.trim line = "* " ++ t
                 | Markdown.BoldParagraph _ t =>
                     t = Markdown.removeStarPairs (Markdown.trim line)
                     /\ Markdown.hasStarPair t = false
                 | Markdown.Paragraph _ t => t = line
                 end)
         (Markdown.formatMarkdown text).
Proof.
  apply Forall_forall. intros e He.
  apply mapIndexed_In in He. destruct He as (k & line & Hk & ->).
  exists line. rewrite formatLine_key. split; [exact Hk |].
  unfold Markdown.formatLine.
  destruct (JS.startsWith "* " (Markdown.trim line)) eqn:E1.
  - now apply startsWith_marker.
  - destruct (_ && _); [| reflexivity].
    split; [reflexivity | apply removeStarPairs_clean].
Qed.

Lemma startsWith_star (p t : string) :
  JS.startsWith "*" t = false -> JS.startsWith (String "*" p) t = false.
Proof.
  unfold JS.startsWith. destruct t as [|a r]; [reflexivity |].
  cbn [String.prefix].
  destruct (ascii_dec "*" a); [| reflexivity].
  intros H. destruct r; discriminate H.
Qed.

Lemma mapIndexed_ext_in {A B : Type} (f g : nat -> A -> B) (i : nat) (l : list A) :
  (forall k x, In x l -> f k x = g k x) ->
  Markdown.mapIndexed f i l = Markdown.mapIndexed g i l.
Proof.
  revert i; induction l as [|x l IH]; intros i H; simpl; [reflexivity |].
  rewrite H by now left. f_equal. apply IH. intros k y Hy. apply H. now right.
Qed.

Lemma mapIndexed_text (i : nat) (l : list string) :
  map Markdown.elementText (Markdown.mapIndexed Markdown.Paragraph i l) = l.
Proof.
  revert i; induction l as [|x l IH]; intros i; simpl; [reflexivity | now rewrite IH].
Qed.

(** X23. Plain text passes through: when no line, trimmed, begins with an
    asterisk, every line becomes a paragraph with its text unchanged, and
    the texts of the elements joined by line feeds are the commentary as it
    was received. *)
Theorem formatMarkdown_plain (text : string) :
  Forall (fun line => JS.startsWith "*" (Markdown.trim line) = false)
         (Markdown.splitLines text) ->
  Markdown.formatMarkdown text
  = Markdown.mapIndexed Markdown.Paragraph 0 (Markdown.splitLines text)
  /\ String.concat (String Markdown.newline "")
       (map Markdown.elementText (Markdown.formatMarkdown text)) = text.
Proof.
  intros Hplain.
  assert (E : Markdown.formatMarkdown text
              = Markdown.mapIndexed Markdown.Paragraph 0 (Markdown.splitLines text)).
  { unfold Markdown.formatMarkdown. apply mapIndexed_ext_in. intros k line Hin.
    rewrite Forall_forall in Hplain. specialize (Hplain line Hin).
    unfold Markdown.formatLine.
    rewrite (startsWith_star " " _ Hplain).
    rewrite (startsWith_star "*" _ Hplain). reflexivity. }
  split; [exact E |].
  rewrite E, mapIndexed_text. apply splitLines_join.
Qed.

(** ** The further properties at the sample inputs *)

Lemma monthKey_round_trip_witness :
  1 <= JSDate.YearFromTime april10 <= 9999
  /\ JS.Number (JS.slice 0 4 (monthKey april10)) = Some (JSDate.YearFromTime april10)
  /\ daysInSelectedMonth wib (monthKey april10)
     = Some (calendarDaysInMonth (JSDate.YearFromTime april10)
               (JSDate.MonthFromTime april10 + 1)).
Proof.
  assert (H : 1 <= JSDate.YearFromTime april10 <= 9999)
    by (vm_compute; split; discriminate).
  split; [exact H |]. split.
  - exact (proj1 (monthKey_round_trip wib april10 H)).
  - exact (proj2 (proj2 (monthKey_round_trip wib april10 H))).
Defined.

Lemma offered_month_selects_witness :
  In "2024-01" (tl (monthOptions april10 [boundaryExpense]))
  /\ [boundaryExpense] <> []
  /\ filteredExpenses "2024-01" [boundaryExpense] <> [].
Proof.
  assert (H : In "2024-01" (tl (monthOptions april10 [boundaryExpense])))
    by (vm_compute; now left).
  assert (Hne : [boundaryExpense] <> []) by discriminate.
  split; [exact H |]. split; [exact Hne |].
  exact (proj2 (offered_month_selects april10 [boundaryExpense] "2024-01" H) Hne).
Defined.

Lemma fund_history_split_witness :
  "2024-04" <> "all"
  /\ totalIncomeForMonth (fundHistory aprilState) "2024-04"
     + sumZ (map amount (filteredExpenses "2024-04" (fundExpenses aprilState)))
     = sumZ (map amount (filter (inMonth "2024-04") (fundHistory aprilState))).
Proof.
  assert (H : "2024-04" <> "all") by discriminate.
  split; [exact H |].
  exact (fund_history_split aprilState "2024-04" H).
Defined.

Lemma pieChartData_ranked_witness :
  Forall (fun e => Obj.inherited (resolvedCategory e) = false) detailLedger
  /\ Forall (fun p => value p = Obj.Num (categoryTotal (pie_name p) detailLedger))
            (pieChartData detailLedger)
  /\ valuesSum (pieChartData detailLedger) = Some (sumZ (map amount detailLedger)).
Proof.
  assert (H : Forall (fun e => Obj.inherited (resolvedCategory e) = false) detailLedger)
    by (repeat constructor).
  split; [exact H |]. split.
  - exact (proj1 (pieChartData_ranked detailLedger H)).
  - exact (proj1 (proj2 (proj2 (proj2 (proj2 (proj2
             (pieChartData_ranked detailLedger H))))))).
Defined.

Lemma slice_click_details_witness :
  In (mkPie "Makanan" (Obj.Num 250000)) (pieChartData detailLedger)
  /\ Obj.inherited "Makanan" = false
  /\ exists txs,
       handlePieClick detailLedger (Some (mkPie "Makanan" (Obj.Num 250000)))
       = Some {| detail_category := "Makanan"; detail_transactions := txs |}
       /\ txs <> []
       /\ Forall (fun e => resolvedCategory e = "Makanan") txs
       /\ Obj.Num 250000 = Obj.Num (sumZ (map amount txs)).
Proof.
  assert (H : In (mkPie "Makanan" (Obj.Num 250000)) (pieChartData detailLedger))
    by (vm_compute; now left).
  assert (Hp : Obj.inherited "Makanan" = false) by reflexivity.
  split; [exact H |]. split; [exact Hp |].
  exact (slice_click_details detailLedger (mkPie "Makanan" (Obj.Num 250000)) H Hp).
Defined.

Lemma budget_actual_is_slice_witness :
  Forall (fun b => Obj.inherited (name b) = false)
         [mkBudget "Makanan" 500000 []; mkBudget "Transport" 300000 []]
  /\ budgetComparisonData detailLedger
       [mkBudget "Makanan" 500000 []; mkBudget "Transport" 300000 []]
     = [ {| cmp_name := "Makanan"; Dianggarkan := 500000;
            Terpakai := Obj.Prim (Obj.Num 250000) |};
         {| cmp_name := "Transport"; Dianggarkan := 300000;
            Terpakai := Obj.Prim (Obj.Num 0) |} ].
Proof.
  assert (H : Forall (fun b => Obj.inherited (name b) = false)
                [mkBudget "Makanan" 500000 []; mkBudget "Transport" 300000 []])
    by (repeat constructor).
  split; [exact H |].
  exact (proj1 (budget_actual_is_slice detailLedger
                  [mkBudget "Makanan" 500000 []; mkBudget "Transport" 300000 []] H)).
Defined.

Lemma trendData_sums_local_month_witness :
  1000 <= 2024 <= 9999 /\ 1 <= 1 <= 12
  /\ Forall (fun e => 1000 <= JSDate.getFullYear wib (timestamp e) <= 9999)
        [boundaryExpense]
  /\ totalsSum (trendData wib (ymKey 2024 1) [boundaryExpense])
     = Some (sumZ (map amount (filter (inLocalMonth wib 2024 1) [boundaryExpense]))).
Proof.
  assert (Hy : 1000 <= 2024 <= 9999) by lia.
  assert (Hm : 1 <= 1 <= 12) by lia.
  assert (Hall : Forall (fun e => 1000 <= JSDate.getFullYear wib (timestamp e) <= 9999)
                   [boundaryExpense])
    by (repeat constructor; vm_compute; discriminate).
  repeat (split; [assumption |]).
  exact (trendData_sums_local_month wib 2024 1 [boundaryExpense] Hy Hm Hall).
Defined.

Lemma trendData_complete_at_offset_0_witness :
  1000 <= 2024 <= 9999 /\ 1 <= 1 <= 12
  /\ Forall (fun e => 1000 <= JSDate.YearFromTime (timestamp e) <= 9999)
        [boundaryExpense]
  /\ totalsSum (trendData 0 (ymKey 2024 1)
                  (filteredExpenses (ymKey 2024 1) [boundaryExpense]))
     = Some (sumZ (map amount (filteredExpenses (ymKey 2024 1) [boundaryExpense]))).
Proof.
  assert (Hy : 1000 <= 2024 <= 9999) by lia.
  assert (Hm : 1 <= 1 <= 12) by lia.
  assert (Hall : Forall (fun e => 1000 <= JSDate.YearFromTime (timestamp e) <= 9999)
                   [boundaryExpense])
    by (repeat constructor; vm_compute; discriminate).
  repeat (split; [assumption |]).
  exact (trendData_complete_at_offset_0 2024 1 [boundaryExpense] Hy Hm Hall).
Defined.

Lemma fetchForecast_not_applicable_witness :
  (JSDate.getFullYear wib april10 <> 2024 \/ JSDate.getMonth wib april10 <> 3 - 1)
  /\ fetchForecast wib april10 (ymKey 2024 3) [boundaryExpense] 1000000
     = ForecastMessage msgNotCurrentMonth
  /\ JSDate.getFullYear wib april10 = 2024
  /\ JSDate.getMonth wib april10 = 4 - 1
  /\ fetchForecast wib april10 (ymKey 2024 4) [boundaryExpense] 0
     = ForecastMessage msgNoIncome.
Proof.
  assert (H1 : JSDate.getFullYear wib april10 <> 2024
               \/ JSDate.getMonth wib april10 <> 3 - 1)
    by (right; vm_compute; discriminate).
  assert (HY : JSDate.getFullYear wib april10 = 2024) by (vm_compute; reflexivity).
  assert (HM : JSDate.getMonth wib april10 = 4 - 1) by (vm_compute; reflexivity).
  split; [exact H1 |]. split.
  - exact (proj1 (proj2 (fetchForecast_not_applicable wib april10 2024 3
                           [boundaryExpense] 1000000 ltac:(lia) ltac:(lia))) H1).
  - split; [exact HY |]. split; [exact HM |].
    exact (proj2 (proj2 (fetchForecast_not_applicable wib april10 2024 4
                           [boundaryExpense] 0 ltac:(lia) ltac:(lia))) HY HM).
Defined.

Lemma no_data_run_keeps_failure_witness :
  forallb (fun d => Obj.is0 (total d)) (trendData wib "2024-01" [boundaryExpense])
  = true
  /\ cardView (fst (trendAnalysisStart (trendData wib "2024-01" [boundaryExpense])
                      (requestEnd msgAnalysisFailed Rejected (mkPanel None false None))))
     = {| showsLoading := false; shownError := Some msgAnalysisFailed;
          shownText := None |}.
Proof.
  assert (H : forallb (fun d => Obj.is0 (total d))
                (trendData wib "2024-01" [boundaryExpense]) = true)
    by (vm_compute; reflexivity).
  split; [exact H |].
  exact (proj1 (no_data_run_keeps_failure _ (mkPanel None false None) H)).
Defined.

Lemma forecast_failure_persists_witness :
  (JSDate.getFullYear wib april10 <> 2024 \/ JSDate.getMonth wib april10 <> 3 - 1)
  /\ cardView (fst (forecastStart wib april10 (ymKey 2024 3) [boundaryExpense] 1000000
                      (requestEnd msgForecastFailed Rejected (mkPanel None false None))))
     = {| showsLoading := false; shownError := Some msgForecastFailed;
          shownText := None |}.
Proof.
  assert (H1 : JSDate.getFullYear wib april10 <> 2024
               \/ JSDate.getMonth wib april10 <> 3 - 1)
    by (right; vm_compute; discriminate).
  split; [exact H1 |].
  exact (proj1 (forecast_failure_persists wib april10 2024 3 [boundaryExpense]
                  1000000 (mkPanel None false None) ltac:(lia) ltac:(lia)) H1).
Defined.

Lemma late_response_is_shown_witness :
  [mkPie "Makanan" (Obj.Num 50000)] <> [] /\ "Hemat!" <> ""
  /\ cardView (requestEnd msgAnalysisFailed (Resolved "Hemat!")
                 (fst (pieAnalysisStart []
                         (fst (pieAnalysisStart [mkPie "Makanan" (Obj.Num 50000)]
                                 (mkPanel None false None))))))
     = {| showsLoading := false; shownError := None; shownText := Some "Hemat!" |}.
Proof.
  assert (H1 : [mkPie "Makanan" (Obj.Num 50000)] <> []) by discriminate.
  assert (H2 : "Hemat!" <> "") by discriminate.
  split; [exact H1 |]. split; [exact H2 |].
  exact (proj2 (proj2 (late_response_is_shown [mkPie "Makanan" (Obj.Num 50000)] "Hemat!"
                         (mkPanel None false None) H1 H2))).
Defined.

Lemma trend_chart_iff_analysis_witness :
  Forall (fun e => 0 <= amount e) [boundaryExpense]
  /\ trendChartShown (trendData 0 "2024-01" [boundaryExpense])
     = negb (isNone (snd (trendAnalysisStart (trendData 0 "2024-01" [boundaryExpense])
                            (mkPanel None false None)))).
Proof.
  assert (H : Forall (fun e => 0 <= amount e) [boundaryExpense])
    by (repeat constructor; vm_compute; discriminate).
  split; [exact H |].
  exact (trend_chart_iff_analysis 0 "2024-01" [boundaryExpense] (mkPanel None false None) H).
Defined.

Lemma titleText_names_month_witness :
  1 <= 2024 <= 9999 /\ 1 <= 4 <= 12 /\ -1440 <= -600 <= 1440
  /\ Title.titleText (-600) (ymKey 2024 4)
     = nth (Z.to_nat (4 - 1)) Title.monthNames "" ++ " " ++ JS.toString 2024.
Proof.
  split; [lia |]. split; [lia |]. split; [lia |].
  exact (titleText_names_month (-600) 2024 4 ltac:(lia) ltac:(lia) ltac:(lia)).
Defined.

Lemma formatMarkdown_plain_witness :
  Forall (fun line => JS.startsWith "*" (Markdown.trim line) = false)
         (Markdown.splitLines "Hemat selalu.")
  /\ Markdown.formatMarkdown "Hemat selalu."
     = Markdown.mapIndexed Markdown.Paragraph 0 (Markdown.splitLines "Hemat selalu.").
Proof.
  assert (H : Forall (fun line => JS.startsWith "*" (Markdown.trim line) = false)
                (Markdown.splitLines "Hemat selalu."))
    by (repeat constructor).
  split; [exact H |].
  exact (proj1 (formatMarkdown_plain "Hemat selalu." H)).
Defined.

Example title_samples :
  Title.titleText wib "2024-04" = "April 2024"
  /\ Title.titleText (-600) "2024-01" = "Januari 2024"
  /\ Title.titleText wib "all" = "Semua Waktu".
Proof. repeat split; vm_compute; reflexivity. Qed.

Example formatMarkdown_sample :
  Markdown.formatMarkdown
    ("**Ringkasan**" ++ String Markdown.newline
       (" * Makan di luar" ++ String Markdown.newline "Hemat selalu."))
  = [Markdown.BoldParagraph 0 "Ringkasan"; Markdown.ListItem 1 "Makan di luar";
     Markdown.Paragraph 2 "Hemat selalu."].
Proof. vm_compute. reflexivity. Qed.
